(** * Long Term Archive workers: Picker, Locator and RucioStager

    A shallow embedding of [lta/picker.py], [lta/locator.py] and
    [lta/rucio_stager.py].  The workers are asynchronous Python methods
    whose only interesting behaviour is the sequence of calls they make on
    their collaborators (the LTA DB, the File Catalog, the local file
    system) and what they do with the answers.  They are embedded in a
    small state-and-exception monad: the state holds the answers still to
    come from the collaborators and the chronological record of the calls
    made so far. *)

From Stdlib Require Import ZArith String Ascii List Lia DecimalString Permutation.
From stdpp Require Import base list strings gmap.
Import ListNotations.

Local Open Scope string_scope.
Local Open Scope list_scope.
Local Open Scope Z_scope.

(** ** Python values and string helpers *)

Module Py.

(** JSON-like values: what the workers put in request bodies. *)
#[warnings="-register-all"]
Inductive JVal : Type :=
| JNull
| JBool (b : bool)
| JInt (z : Z)
| JStr (s : string)
| JList (l : list JVal)
| JObj (kv : list (string * JVal)).

(** [d[k]] on a dict literal kept as an association list. *)
Fixpoint assoc (k : string) (kv : list (string * JVal)) : option JVal :=
  match kv with
  | [] => None
  | (k', v) :: kv' => if String.eqb k k' then Some v else assoc k kv'
  end.

Definition keys (kv : list (string * JVal)) : list string := map fst kv.

(** [str(n)] for an [int]. *)
Definition str (n : Z) : string := NilZero.string_of_int (Z.to_int n).

(** [len(l)] *)
Definition len {A : Type} (l : list A) : Z := Z.of_nat (List.length l).

(** [s.split(sep)] for a one-character separator: every occurrence splits,
    empty pieces are kept, the result is never empty. *)
Fixpoint split (sep : ascii) (s : string) : list string :=
  match s with
  | EmptyString => [EmptyString]
  | String c s' =>
      if Ascii.eqb c sep then EmptyString :: split sep s'
      else match split sep s' with
           | [] => [String c EmptyString]
           | p :: ps => String c p :: ps
           end
  end.

(** [l[0]] on a list of strings that [split] produced. *)
Definition item0 (l : list string) : string := nth 0 l EmptyString.

(** [s.rfind(c)]: the last index of [c] in [s], or [-1]. *)
Fixpoint rfind (c : ascii) (s : string) : Z :=
  match s with
  | EmptyString => -1
  | String a s' =>
      let r := rfind c s' in
      if 0 <=? r then r + 1
      else if Ascii.eqb a c then 0 else -1
  end.

(** [s[i:]] for [0 <= i]. *)
Fixpoint drop (i : nat) (s : string) : string :=
  match i, s with
  | O, _ => s
  | S i', EmptyString => EmptyString
  | S i', String _ s' => drop i' s'
  end.

(** [posixpath.basename]: [i = p.rfind('/') + 1; return p[i:]]. *)
Definition basename (p : string) : string :=
  let i := rfind "/"%char p + 1 in
  drop (Z.to_nat i) p.

Fixpoint endswith_char (c : ascii) (s : string) : bool :=
  match s with
  | EmptyString => false
  | String a EmptyString => Ascii.eqb a c
  | String _ s' => endswith_char c s'
  end.

Definition startswith_char (c : ascii) (s : string) : bool :=
  match s with
  | String a _ => Ascii.eqb a c
  | EmptyString => false
  end.

(** [posixpath.join(a, b)] with two arguments. *)
Definition path_join (a b : string) : string :=
  if startswith_char "/"%char b then b
  else if (String.eqb a EmptyString || endswith_char "/"%char a)%bool then (a ++ b)%string
  else (a ++ "/" ++ b)%string.

(** [c.isprintable()] for a character below 256: the controls, the
    no-break space and the soft hyphen are not printable. *)
Definition isprintable (c : ascii) : bool :=
  let n := Z.of_N (N_of_ascii c) in
  ((32 <=? n) && (n <? 127) || (161 <=? n) && negb (n =? 173))%bool.

(** One digit of a lower-case hexadecimal number. *)
Definition hex_digit (n : Z) : ascii :=
  nth (Z.to_nat n) (list_ascii_of_string "0123456789abcdef") "0"%char.

Definition backslash : ascii := "092"%char.
Definition double_quote : ascii := "034"%char.
Definition single_quote : ascii := "039"%char.

(** What [repr] writes for the character [c] of a string that it puts
    between [quote]s. *)
Definition escape (quote c : ascii) : string :=
  if (Ascii.eqb c quote || Ascii.eqb c backslash)%bool then
    String backslash (String c EmptyString)
  else if Ascii.eqb c "009"%char then String backslash "t"
  else if Ascii.eqb c "010"%char then String backslash "n"
  else if Ascii.eqb c "013"%char then String backslash "r"
  else if isprintable c then String c EmptyString
  else
    let n := Z.of_N (N_of_ascii c) in
    String backslash
      (String "x"
         (String (hex_digit (n / 16))
            (String (hex_digit (n mod 16)) EmptyString))).

Fixpoint escape_all (quote : ascii) (s : string) : string :=
  match s with
  | EmptyString => EmptyString
  | String c s' => (escape quote c ++ escape_all quote s')%string
  end.

(** [c in s] *)
Fixpoint contains (c : ascii) (s : string) : bool :=
  match s with
  | EmptyString => false
  | String a s' => (Ascii.eqb a c || contains c s')%bool
  end.

(** [repr(s)] for a [str] whose characters are below 256: between double
    quotes when [s] holds a single quote and no double quote, between
    single quotes otherwise; the quote in use and the backslash are
    escaped, and so is every character that is not printable. *)
Definition repr (s : string) : string :=
  let quote :=
    if (contains single_quote s && negb (contains double_quote s))%bool
    then double_quote else single_quote in
  String quote (escape_all quote s ++ String quote EmptyString)%string.

End Py.

Import Py.

(** ** Entities exchanged with the collaborators *)

(** One entry of the [files] list of a File Catalog page; only its
    ["uuid"] key is read. *)
Record FileEntry : Type := { fe_uuid : string }.

(** One element of a catalog record's [locations].  The ["archive"] key
    may be missing, and when present it may hold any JSON value. *)
Record Location : Type := {
  loc_archive : option JVal;
  loc_site : string;
  loc_path : string
}.

(** The application-private [lta] sub-object of an archive's record. *)
Record LtaInfo : Type := {
  lta_bundle_path : JVal;
  lta_checksum : JVal
}.

(** A full File Catalog record, [GET /api/files/<uuid>]. *)
Record CatalogRecord : Type := {
  checksum : JVal;
  file_size : Z;
  logical_name : string;
  meta_modify_date : string;
  uuid : string;
  locations : list Location;
  lta : option LtaInfo
}.

Record TransferRequest : Type := {
  tr_uuid : string;
  tr_source : string;
  tr_dest : string;
  tr_path : string
}.

(** The keys of a Bundle that the RucioStager reads. *)
Record Bundle : Type := {
  b_uuid : string;
  b_size : Z;
  b_bundle_path : string
}.

(** An exception, with its class name and its [str()]. *)
Record Exc : Type := { exc_type : string; exc_str : string }.

(** ** Calls on the collaborators and their answers *)

Inductive Call : Type :=
(* fc_rc.request('GET', '/api/files?query=..[&keys=..]&limit=..&start=..');
   [query] is the dict given to json.dumps *)
| GET_files (query : JVal) (keys : option string) (limit start : Z)
(* fc_rc.request('GET', '/api/files/<uuid>') *)
| GET_file (uuid : string)
(* lta_rc.request('POST', '/TransferRequests/actions/pop?<params>', body) *)
| POST_pop_transfer_request (params : list (string * string)) (body : JVal)
(* lta_rc.request('POST', '/Bundles/actions/pop?<params>', body) *)
| POST_pop_bundle (params : list (string * string)) (body : JVal)
(* lta_rc.request('POST', '/Bundles/actions/bulk_create', body) *)
| POST_bulk_create (body : JVal)
(* lta_rc.request('PATCH', '/TransferRequests/<uuid>', body) *)
| PATCH_transfer_request (uuid : string) (body : JVal)
(* lta_rc.request('PATCH', '/Bundles/<uuid>', body) *)
| PATCH_bundle (uuid : string) (body : JVal)
(* os.walk(path), run to the end *)
| OS_walk (path : string)
(* os.path.getsize(path) *)
| OS_getsize (path : string)
(* shutil.move(src, dst) *)
| SHUTIL_move (src dst : string).

Inductive Response : Type :=
| RFiles (files : list FileEntry)              (* {"files": [...]} *)
| RRecord (r : CatalogRecord)                  (* a full catalog record *)
| RTransferRequest (tr : option TransferRequest) (* {"transfer_request": ..} *)
| RBundle (b : option Bundle)                  (* {"bundle": ..} *)
| RBundles (uuids : list string)               (* {"bundles": [...]} *)
| RNone                                        (* nothing of interest *)
| RWalk (tree : list (string * list string * list string))
| RSize (n : Z)
| RFail (e : Exc).                             (* the call raises [e] *)

Inductive Event : Type :=
| Called (c : Call) (r : Response)
| LogError (msg : string).

(** ** The monad of a worker *)

Record State : Type := {
  pending : list Response;   (* the answers the collaborators will give *)
  clock : nat -> string;     (* what now() returns at each reading *)
  ticks : nat;               (* how many times now() was read *)
  trace : list Event         (* calls made and errors logged, oldest first *)
}.

Inductive Out (A : Type) : Type :=
| Ok (a : A)
| Raise (e : Exc)
| Diverge.
Arguments Ok {A} a.
Arguments Raise {A} e.
Arguments Diverge {A}.

Definition M (A : Type) : Type := State -> Out A * State.

Definition run {A : Type} (c : M A) (s : State) : Out A * State := c s.

Definition ret {A : Type} (a : A) : M A := fun s => (Ok a, s).

Definition bind {A B : Type} (c : M A) (k : A -> M B) : M B :=
  fun s =>
    match c s with
    | (Ok a, s') => k a s'
    | (Raise e, s') => (Raise e, s')
    | (Diverge, s') => (Diverge, s')
    end.

Definition raise {A : Type} (e : Exc) : M A := fun s => (Raise e, s).

(** [try: c except Exception as e: h e] *)
Definition try_except {A : Type} (c : M A) (h : Exc -> M A) : M A :=
  fun s =>
    match c s with
    | (Raise e, s') => h e s'
    | r => r
    end.

Declare Scope worker_scope.
Delimit Scope worker_scope with worker.
Notation "'let!' x ':=' c 'in' k" := (bind c (fun x => k))
  (at level 10, x name, c at level 100, k at level 200) : worker_scope.
Notation "'do!' c 'in' k" := (bind c (fun _ => k))
  (at level 10, c at level 100, k at level 200) : worker_scope.
Local Open Scope worker_scope.

Definition emit (ev : Event) : M unit :=
  fun s => (Ok tt, {| pending := pending s; clock := clock s;
                      ticks := ticks s; trace := trace s ++ [ev] |}).

(** The exception a call raises once the collaborators answer no more. *)
Definition no_answer : Exc :=
  {| exc_type := "TimeoutError"; exc_str := "no response" |}.

(** The answer to the next call, and the answers left after it. *)
Definition next_answer (l : list Response) : Response * list Response :=
  match l with
  | [] => (RFail no_answer, [])
  | r :: l' => (r, l')
  end.

(** A call on a collaborator: it is recorded with its answer, and a
    failing answer is raised. *)
Definition call (c : Call) : M Response :=
  fun s =>
    let (r, rest) := next_answer (pending s) in
    let s' := {| pending := rest; clock := clock s; ticks := ticks s;
                 trace := trace s ++ [Called c r] |} in
    match r with
    | RFail e => (Raise e, s')
    | _ => (Ok r, s')
    end.

(** [now()] of lta/component.py: the next reading of the clock. *)
Definition now : M string :=
  fun s => (Ok (clock s (ticks s)),
            {| pending := pending s; clock := clock s;
               ticks := S (ticks s); trace := trace s |}).

(** [self.logger.error(msg)].  Messages of lower levels are not recorded. *)
Definition logger_error (msg : string) : M unit := emit (LogError msg).

(** [for x in l: body x] *)
Fixpoint for_each {A : Type} (l : list A) (body : A -> M unit) : M unit :=
  match l with
  | [] => ret tt
  | x :: l' => do! body x in for_each l' body
  end.

(** [acc = []; for x in l: acc.append(f x)] *)
Fixpoint for_collect {A B : Type} (l : list A) (f : A -> M B) : M (list B) :=
  match l with
  | [] => ret []
  | x :: l' =>
      let! y := f x in
      let! ys := for_collect l' f in
      ret (y :: ys)
  end.

(** [for x in l: body x], where the body may [return]: [Some r] is a
    [return r] that leaves the enclosing function, [None] goes on. *)
Fixpoint for_return {A R : Type} (l : list A) (body : A -> M (option R))
  : M (option R) :=
  match l with
  | [] => ret None
  | x :: l' =>
      let! r := body x in
      match r with
      | Some v => ret (Some v)
      | None => for_return l' body
      end
  end.

(** [while cond(a): a = body(a)] with a bound on the iterations. *)
Fixpoint while_fuel {A : Type} (fuel : nat) (cond : A -> bool)
    (body : A -> M A) (a : A) : M A :=
  if cond a then
    match fuel with
    | O => fun s => (Diverge, s)
    | S fuel' => let! a' := body a in while_fuel fuel' cond body a'
    end
  else ret a.

(** The loops of the workers make a call in every iteration, and a call
    uses up one pending answer or raises: one iteration more than there
    are pending answers is all such a loop can run, and [Diverge] is
    never the outcome of a worker (lemmas [picker_do_work_spends],
    [locator_do_work_spends] and [stager_do_work_spends]). *)
Definition while_ {A : Type} (cond : A -> bool) (body : A -> M A) (a : A)
  : M A :=
  fun s => while_fuel (S (List.length (pending s))) cond body a s.

(** Reading the answers: a key that is absent raises KeyError, and the
    text of [KeyError(k)] is [repr(k)]. *)
Definition key_error {A : Type} (k : string) : M A :=
  raise {| exc_type := "KeyError"; exc_str := repr k |}.

(** [response["files"]] *)
Definition get_files (r : Response) : M (list FileEntry) :=
  match r with
  | RFiles fs => ret fs
  | _ => key_error "files"
  end.

(** A full record, when its key [k] is read. *)
Definition get_record (k : string) (r : Response) : M CatalogRecord :=
  match r with
  | RRecord rec => ret rec
  | _ => key_error k
  end.

(** [response["transfer_request"]] *)
Definition get_transfer_request (r : Response) : M (option TransferRequest) :=
  match r with
  | RTransferRequest tr => ret tr
  | _ => key_error "transfer_request"
  end.

(** [response["bundle"]] *)
Definition get_bundle (r : Response) : M (option Bundle) :=
  match r with
  | RBundle b => ret b
  | _ => key_error "bundle"
  end.

(** [result["bundles"][0]] *)
Definition get_bundles_0 (r : Response) : M string :=
  match r with
  | RBundles (u :: _) => ret u
  | RBundles [] =>
      raise {| exc_type := "IndexError"; exc_str := "list index out of range" |}
  | _ => key_error "bundles"
  end.

(** What a worker holds from lta/component.py; its [name] is fixed by
    each worker's constructor. *)
Record Component : Type := {
  instance_uuid : string;
  source_site : string;
  run_once_and_die : bool
}.

(** [f"{self.name}-{self.instance_uuid}"] *)
Definition claimant (name : string) (c : Component) : string :=
  (name ++ "-" ++ instance_uuid c)%string.

(** ** Paging the File Catalog

    picker.py and locator.py page the catalog with the same loop, each
    with its own query and its own [FILE_CATALOG_LIMIT]. *)

(** The variables of the paging loop. *)
Record Paging : Type := {
  page_start : Z;
  num_files : Z;
  catalog_files : list FileEntry
}.

(** The body of [while num_files == FILE_CATALOG_LIMIT]. *)
Definition next_page (limit : Z) (query : JVal) (p : Paging) : M Paging :=
  let page_start := page_start p + num_files p in
  let! fc_response := call (GET_files query None limit page_start) in
  let! files := get_files fc_response in
  ret {| page_start := page_start;
         num_files := len files;
         catalog_files := catalog_files p ++ files |}.

(** From the first request to the end of the loop. *)
Definition page_catalog (limit : Z) (query : JVal) : M (list FileEntry) :=
  let! fc_response := call (GET_files query (Some "uuid") limit 0) in
  let! files := get_files fc_response in
  let! paged :=
    while_ (fun p => num_files p =? limit) (next_page limit query)
      {| page_start := 0; num_files := len files; catalog_files := files |} in
  ret (catalog_files paged).

(** ** The binpacking package

    picker.py imports [to_constant_volume] from the binpacking package,
    which is not part of the sources; the whole module is written from
    the description of the policy in the specification. *)

Module Binpacking.

Section Packing.

Context {A : Type}.

(** Modelled from the spec: an item of the binpacking package, missing
    from the sources, is a tuple whose position 0 holds the weight. *)
Definition weight (it : Z * A) : Z := fst it.

(** Modelled from the spec: the summed weight of a bin of the binpacking
    package, missing from the sources. *)
Definition volume (bin : list (Z * A)) : Z :=
  fold_right (fun it acc => weight it + acc) 0 bin.

(** Modelled from the spec: the sorting step of the binpacking package,
    missing from the sources; the items are sorted by size descending,
    and items of equal size keep their order. *)
Fixpoint insert_desc (it : Z * A) (l : list (Z * A)) : list (Z * A) :=
  match l with
  | [] => [it]
  | x :: l' =>
      if weight x <=? weight it then it :: x :: l'
      else x :: insert_desc it l'
  end.

(** Modelled from the spec: the items of the binpacking package, missing
    from the sources, sorted by size descending. *)
Definition sort_desc (l : list (Z * A)) : list (Z * A) :=
  fold_right insert_desc [] l.

(** Modelled from the spec: the placing step of the binpacking package,
    missing from the sources; the first bin that still has room takes the
    item, and a new bin is opened only when no existing bin admits it. *)
Fixpoint place (V_max : Z) (it : Z * A) (bins : list (list (Z * A)))
  : list (list (Z * A)) :=
  match bins with
  | [] => [[it]]
  | b :: bs =>
      if volume b + weight it <=? V_max then (b ++ [it]) :: bs
      else b :: place V_max it bs
  end.

(** Modelled from the spec: [to_constant_volume(d, V_max, 0)] of the
    binpacking package, which the Picker imports and which is not part of
    the sources.  The constant-volume policy: the items are sorted by size
    descending and placed greedily into the first bin that still has room;
    a new bin is opened only when no existing bin admits the item. *)
Definition to_constant_volume (d : list (Z * A)) (V_max : Z)
  : list (list (Z * A)) :=
  fold_left (fun bins it => place V_max it bins) (sort_desc d) [].

End Packing.

End Binpacking.

(** ** lta/picker.py *)

Module Picker.

Definition FILE_CATALOG_LIMIT : Z := 9000.

Record Site : Type := { bundle_size : Z }.

Record Config : Type := {
  component : Component;
  max_file_count : Z;          (* int(config["MAX_FILE_COUNT"]) *)
  sites : gmap string Site     (* self.lta_site_config["sites"] *)
}.

(** [super(Picker, self).__init__("picker", config, logger)] *)
Definition name : string := "picker".

Definition as_bundle_record (catalog_record : CatalogRecord) : JVal :=
  JObj [ ("checksum", checksum catalog_record);
         ("file_size", JInt (file_size catalog_record));
         ("logical_name", JStr (logical_name catalog_record));
         ("meta_modify_date", JStr (meta_modify_date catalog_record));
         ("uuid", JStr (uuid catalog_record)) ].

Definition _quarantine_transfer_request (self : Config)
    (tr : TransferRequest) (reason : string) : M unit :=
  do! logger_error ("Sending TransferRequest " ++ tr_uuid tr
                    ++ " to quarantine: " ++ reason ++ ".")%string in
  let! right_now := now in
  let patch_body :=
    JObj [ ("status", JStr "quarantined");
           ("reason", JStr ("BY:" ++ claimant name (component self)
                            ++ " REASON:" ++ reason)%string);
           ("work_priority_timestamp", JStr right_now) ] in
  try_except
    (do! call (PATCH_transfer_request (tr_uuid tr) patch_body) in ret tt)
    (fun e =>
       logger_error ("Unable to quarantine TransferRequest " ++ tr_uuid tr
                     ++ ": " ++ exc_str e ++ ".")%string).

Definition _create_bundle (self : Config) (bundle : JVal) : M string :=
  let create_body := JObj [ ("bundles", JList [bundle]) ] in
  let! result := call (POST_bulk_create create_body) in
  let! uuid := get_bundles_0 result in
  ret uuid.

Definition query_dict (source path : string) : JVal :=
  JObj [ ("locations.site", JObj [ ("$eq", JStr source) ]);
         ("locations.path", JObj [ ("$regex", JStr ("^" ++ path)%string) ]);
         ("logical_name", JObj [ ("$regex", JStr ("^" ++ path)%string) ]) ].

(** The dict that becomes a Bundle of one packing list. *)
Definition bundle_of (tr : TransferRequest)
    (spec : list (Z * CatalogRecord)) : JVal :=
  JObj [ ("type", JStr "Bundle");
         ("status", JStr "specified");
         ("reason", JStr "");
         ("request", JStr (tr_uuid tr));
         ("source", JStr (tr_source tr));
         ("dest", JStr (tr_dest tr));
         ("path", JStr (tr_path tr));
         ("files", JList (map (fun x => as_bundle_record (snd x)) spec)) ].

Definition _do_work_transfer_request (self : Config) (tr : TransferRequest)
  : M unit :=
  let source := tr_source tr in
  let dest := tr_dest tr in
  let path := tr_path tr in
  let query := query_dict source path in
  let! catalog_files := page_catalog FILE_CATALOG_LIMIT query in
  match catalog_files with
  | [] =>
      _quarantine_transfer_request self tr
        "File Catalog returned zero files for the TransferRequest"
  | _ :: _ =>
      let! catalog_records :=
        for_collect catalog_files
          (fun catalog_file => call (GET_file (fe_uuid catalog_file))) in
      let! packing_list :=
        for_collect catalog_records
          (fun catalog_record =>
             let! r := get_record "file_size" catalog_record in
             ret (file_size r, r)) in
      let! bundle_size :=
        match sites self !! dest with
        | Some site => ret (bundle_size site)
        | None => key_error dest
        end in
      let packing_spec :=
        Binpacking.to_constant_volume packing_list bundle_size in
      let! returned :=
        for_return packing_spec
          (fun spec =>
             if max_file_count self <? len spec then
               do! _quarantine_transfer_request self tr
                     ("Bundle packing list contains " ++ str (len spec)
                      ++ " files; MAX_FILE_COUNT is configured at "
                      ++ str (max_file_count self))%string in
               ret (Some tt)
             else ret None) in
      match returned with
      | Some _ => ret tt
      | None =>
          for_each packing_spec
            (fun spec =>
               do! _create_bundle self (bundle_of tr spec) in ret tt)
      end
  end.

Definition _do_work_claim (self : Config) : M bool :=
  let pop_body := JObj [ ("claimant", JStr (claimant name (component self))) ] in
  let! response :=
    call (POST_pop_transfer_request
            [ ("source", source_site (component self)) ] pop_body) in
  let! tr := get_transfer_request response in
  match tr with
  | None => ret false
  | Some tr =>
      try_except
        (do! _do_work_transfer_request self tr in ret true)
        (fun e =>
           do! _quarantine_transfer_request self tr (exc_str e) in
           ret false)
  end.

Definition _do_work (self : Config) : M unit :=
  do! while_ (fun work_claimed : bool => work_claimed)
        (fun _ =>
           let! work_claimed := _do_work_claim self in
           ret (work_claimed && negb (run_once_and_die (component self)))%bool)
        true in
  ret tt.

End Picker.

(** ** lta/locator.py *)

Module Locator.

Definition FILE_CATALOG_LIMIT : Z := 9000.

Record Config : Type := {
  component : Component;
  dest_site : string
}.

(** [super(Locator, self).__init__("locator", config, logger)] *)
Definition name : string := "locator".

Definition as_lta_record (catalog_record : CatalogRecord) : JVal :=
  JObj [ ("checksum", checksum catalog_record);
         ("file_size", JInt (file_size catalog_record));
         ("logical_name", JStr (logical_name catalog_record));
         ("meta_modify_date", JStr (meta_modify_date catalog_record));
         ("uuid", JStr (uuid catalog_record)) ].

Definition _quarantine_transfer_request (self : Config)
    (tr : TransferRequest) (reason : string) : M unit :=
  do! logger_error ("Sending TransferRequest " ++ tr_uuid tr
                    ++ " to quarantine: " ++ reason ++ ".")%string in
  let! right_now := now in
  let patch_body :=
    JObj [ ("status", JStr "quarantined");
           ("reason", JStr ("BY:" ++ claimant name (component self)
                            ++ " REASON:" ++ reason)%string);
           ("work_priority_timestamp", JStr right_now) ] in
  try_except
    (do! call (PATCH_transfer_request (tr_uuid tr) patch_body) in ret tt)
    (fun e =>
       logger_error ("Unable to quarantine TransferRequest " ++ tr_uuid tr
                     ++ ": " ++ exc_str e ++ ".")%string).

Definition _create_bundle (self : Config) (bundle : JVal) : M string :=
  let create_body := JObj [ ("bundles", JList [bundle]) ] in
  let! result := call (POST_bulk_create create_body) in
  let! uuid := get_bundles_0 result in
  ret uuid.

(** [location["archive"] is True] *)
Definition is_True (v : JVal) : bool :=
  match v with
  | JBool true => true
  | _ => false
  end.

(** The test that lets a location add its path to [bundle_paths]. *)
Definition at_source_archive (source : string) (location : Location) : bool :=
  match loc_archive location with
  | None => false                       (* "archive" not in location *)
  | Some archive =>
      (is_True archive && String.eqb (loc_site location) source)%bool
  end.

(** The uuid of the bundle that [bundle_path] names. *)
Definition uuid_of_path (bundle_path : string) : string :=
  let keep_path := item0 (split ":"%char bundle_path) in
  item0 (split "."%char (basename keep_path)).

(** [uuid not in bundle_uuids] *)
Definition not_in (uuid : string) (bundle_uuids : list string) : bool :=
  negb (existsb (String.eqb uuid) bundle_uuids).

Definition _get_unique_archives (records : list CatalogRecord)
    (source : string) : list string :=
  let bundle_paths :=
    flat_map
      (fun record =>
         map loc_path
           (List.filter (at_source_archive source) (locations record)))
      records in
  fold_left
    (fun bundle_uuids bundle_path =>
       let uuid := uuid_of_path bundle_path in
       if not_in uuid bundle_uuids then bundle_uuids ++ [uuid]
       else bundle_uuids)
    bundle_paths [].

Definition query_dict (source path : string) : JVal :=
  JObj [ ("locations.archive", JObj [ ("$eq", JBool true) ]);
         ("locations.site", JObj [ ("$eq", JStr source) ]);
         ("logical_name", JObj [ ("$regex", JStr ("^" ++ path)%string) ]) ].

(** The dict that becomes a Bundle of one archive's record. *)
Definition bundle_of (tr : TransferRequest) (bundle_record : CatalogRecord)
    (lta : LtaInfo) : JVal :=
  JObj [ ("type", JStr "Bundle");
         ("status", JStr "located");
         ("claimed", JBool false);
         ("verified", JBool false);
         ("reason", JStr "");
         ("request", JStr (tr_uuid tr));
         ("source", JStr (tr_source tr));
         ("dest", JStr (tr_dest tr));
         ("path", JStr (tr_path tr));
         ("size", JInt (file_size bundle_record));
         ("bundle_path", lta_bundle_path lta);
         ("checksum", lta_checksum lta);
         ("files", JList []);
         ("catalog", as_lta_record bundle_record) ].

Definition _do_work_transfer_request (self : Config) (tr : TransferRequest)
  : M unit :=
  let source := tr_source tr in
  let dest := tr_dest tr in
  let path := tr_path tr in
  let query := query_dict source path in
  let! catalog_files := page_catalog FILE_CATALOG_LIMIT query in
  match catalog_files with
  | [] =>
      _quarantine_transfer_request self tr
        "File Catalog returned zero files for the TransferRequest"
  | _ :: _ =>
      let! catalog_records :=
        for_collect catalog_files
          (fun catalog_file => call (GET_file (fe_uuid catalog_file))) in
      let! records := for_collect catalog_records (get_record "locations") in
      let bundle_uuids := _get_unique_archives records source in
      let! bundle_records :=
        for_collect bundle_uuids
          (fun bundle_uuid => call (GET_file bundle_uuid)) in
      for_each bundle_records
        (fun bundle_record =>
           let! r := get_record "file_size" bundle_record in
           let! l := match lta r with
                     | Some l => ret l
                     | None => key_error "lta"
                     end in
           do! _create_bundle self (bundle_of tr r l) in
           ret tt)
  end.

Definition _do_work_claim (self : Config) : M bool :=
  let pop_body := JObj [ ("claimant", JStr (claimant name (component self))) ] in
  let! response :=
    call (POST_pop_transfer_request
            [ ("dest", dest_site self);
              ("source", source_site (component self)) ] pop_body) in
  let! tr := get_transfer_request response in
  match tr with
  | None => ret false
  | Some tr =>
      try_except
        (do! _do_work_transfer_request self tr in ret true)
        (fun e =>
           do! _quarantine_transfer_request self tr (exc_str e) in
           raise e)
  end.

Definition _do_work (self : Config) : M unit :=
  do! while_ (fun work_claimed : bool => work_claimed)
        (fun _ =>
           let! work_claimed := _do_work_claim self in
           ret (work_claimed && negb (run_once_and_die (component self)))%bool)
        true in
  ret tt.

End Locator.

(** ** lta/rucio_stager.py *)

Module RucioStager.

Record Config : Type := {
  component : Component;
  bundler_outbox_path : string;
  dest_quota : Z;               (* int(config["DEST_QUOTA"]) *)
  dest_site : string;
  rucio_inbox_path : string
}.

(** [super(RucioStager, self).__init__("rucio_stager", config, logger)] *)
Definition name : string := "rucio_stager".

(** What os.walk and os.path.getsize hand back. *)
Definition bad_answer {A : Type} : M A :=
  raise {| exc_type := "OSError"; exc_str := "unexpected answer" |}.

Definition get_walk (r : Response)
  : M (list (string * list string * list string)) :=
  match r with
  | RWalk tree => ret tree
  | _ => bad_answer
  end.

Definition get_size (r : Response) : M Z :=
  match r with
  | RSize n => ret n
  | _ => bad_answer
  end.

Definition _enumerate_path (path : string) : M (list string) :=
  let! walked := call (OS_walk path) in
  let! tree := get_walk walked in
  ret (flat_map
         (fun entry : string * list string * list string =>
            let '(root, dirs, files) := entry in
            map (fun file => path_join root file) files)
         tree).

(** [size = 0; for disk_file in disk_files: size += getsize(disk_file)] *)
Fixpoint add_sizes (disk_files : list string) (size : Z) : M Z :=
  match disk_files with
  | [] => ret size
  | disk_file :: rest =>
      let! answer := call (OS_getsize disk_file) in
      let! n := get_size answer in
      add_sizes rest (size + n)
  end.

Definition _get_files_and_size (path : string) : M (list string * Z) :=
  let! disk_files := _enumerate_path path in
  let! size := add_sizes disk_files 0 in
  ret (disk_files, size).

Definition _quarantine_bundle (self : Config) (bundle : Bundle)
    (reason : string) : M unit :=
  do! logger_error ("Sending Bundle " ++ b_uuid bundle
                    ++ " to quarantine: " ++ reason ++ ".")%string in
  let! right_now := now in
  let patch_body :=
    JObj [ ("status", JStr "quarantined");
           ("reason", JStr ("BY:" ++ claimant name (component self)
                            ++ " REASON:" ++ reason)%string);
           ("work_priority_timestamp", JStr right_now) ] in
  try_except
    (do! call (PATCH_bundle (b_uuid bundle) patch_body) in ret tt)
    (fun e =>
       logger_error ("Unable to quarantine Bundle " ++ b_uuid bundle
                     ++ ": " ++ exc_str e ++ ".")%string).

Definition _unclaim_bundle (self : Config) (bundle : Bundle) : M bool :=
  let bundle_id := b_uuid bundle in
  let! right_now := now in
  let patch_body :=
    JObj [ ("claimed", JBool false);
           ("update_timestamp", JStr right_now);
           ("work_priority_timestamp", JStr right_now) ] in
  do! call (PATCH_bundle bundle_id patch_body) in
  ret true.

(** The four [print] lines write to the standard output and are not
    recorded. *)
Definition _stage_bundle (self : Config) (bundle : Bundle) : M bool :=
  let bundle_id := b_uuid bundle in
  let! measured := _get_files_and_size (rucio_inbox_path self) in
  let rucio_size := snd measured in
  let bundle_size := b_size bundle in
  let total_size := rucio_size + bundle_size in
  if dest_quota self <? total_size then
    do! _unclaim_bundle self bundle in
    ret false
  else
    let bundle_name := basename (b_bundle_path bundle) in
    let src_path := path_join (bundler_outbox_path self) bundle_name in
    let dst_path := path_join (rucio_inbox_path self) bundle_name in
    do! call (SHUTIL_move src_path dst_path) in
    let! timestamp := now in
    let patch_body :=
      JObj [ ("bundle_path", JStr dst_path);
             ("claimed", JBool false);
             ("status", JStr "staged");
             ("reason", JStr "");
             ("update_timestamp", JStr timestamp) ] in
    do! call (PATCH_bundle bundle_id patch_body) in
    ret true.

Definition _do_work_claim (self : Config) : M bool :=
  let pop_body := JObj [ ("claimant", JStr (claimant name (component self))) ] in
  let! response :=
    call (POST_pop_bundle
            [ ("dest", dest_site self); ("status", "created") ] pop_body) in
  let! bundle := get_bundle response in
  match bundle with
  | None => ret false
  | Some bundle =>
      do! try_except
            (do! _stage_bundle self bundle in ret tt)
            (fun e =>
               do! _quarantine_bundle self bundle (exc_str e) in
               raise e) in
      ret false
  end.

Definition _do_work (self : Config) : M unit :=
  do! while_ (fun work_claimed : bool => work_claimed)
        (fun _ =>
           let! work_claimed := _do_work_claim self in
           ret (work_claimed && negb (run_once_and_die (component self)))%bool)
        true in
  ret tt.

End RucioStager.

(** ** Vocabulary of the statements *)

(** The state reached from [s] when the pending answers are down to
    [rest], the clock was read up to [t] and [evs] was recorded. *)
Definition st_after (s : State) (rest : list Response) (t : nat)
    (evs : list Event) : State :=
  {| pending := rest; clock := clock s; ticks := t; trace := trace s ++ evs |}.

Definition is_fail (r : Response) : bool :=
  match r with
  | RFail _ => true
  | _ => false
  end.

(** The outcome of a call that is answered by [r]. *)
Definition answered (r : Response) : Out Response :=
  match r with
  | RFail e => Raise e
  | _ => Ok r
  end.

(** The requests for the pages after the first one, each starting where
    the page before it ended. *)
Fixpoint paging_calls (limit : Z) (query : JVal) (start : Z)
    (pages : list (list FileEntry)) : list Event :=
  match pages with
  | [] => []
  | p :: ps =>
      Called (GET_files query None limit start) (RFiles p)
        :: paging_calls limit query (start + len p) ps
  end.

(** The requests of a whole file discovery that was answered by [pages]. *)
Definition catalog_calls (limit : Z) (query : JVal)
    (pages : list (list FileEntry)) : list Event :=
  match pages with
  | [] => []
  | p :: ps =>
      Called (GET_files query (Some "uuid") limit 0) (RFiles p)
        :: paging_calls limit query (0 + len p) ps
  end.

(** The requests for the full records of [uuids], with their answers. *)
Definition fetch_calls (uuids : list string) (answers : list Response)
  : list Event :=
  zip_with (fun u r => Called (GET_file u) r) uuids answers.

(** One [bulk_create] request per bundle, each with a list of that one
    bundle, with the answers of the LTA DB. *)
Definition create_calls (bundles : list JVal) (created : list (list string))
  : list Event :=
  zip_with
    (fun b us =>
       Called (POST_bulk_create (JObj [ ("bundles", JList [b]) ])) (RBundles us))
    bundles created.

(** The body of the PATCH that quarantines an entity. *)
Definition quarantine_body (name instance_uuid cause right_now : string)
  : JVal :=
  JObj [ ("status", JStr "quarantined");
         ("reason", JStr ("BY:" ++ name ++ "-" ++ instance_uuid
                          ++ " REASON:" ++ cause)%string);
         ("work_priority_timestamp", JStr right_now) ].

(** What quarantining records: the announcement in the log, the PATCH
    with its answer [r], and the failure of the PATCH when it fails. *)
Definition quarantine_events (kind uuid cause : string) (patch : Call)
    (r : Response) : list Event :=
  [ LogError ("Sending " ++ kind ++ " " ++ uuid ++ " to quarantine: "
              ++ cause ++ ".")%string;
    Called patch r ]
  ++ match r with
     | RFail e =>
         [ LogError ("Unable to quarantine " ++ kind ++ " " ++ uuid ++ ": "
                     ++ exc_str e ++ ".")%string ]
     | _ => []
     end.

(** [packing_list] of the Picker for the records [R]. *)
Definition packing_list (R : list CatalogRecord) : list (Z * CatalogRecord) :=
  map (fun r => (file_size r, r)) R.

(** The bundles the Picker specifies for the records [R] of the request
    [tr] when the bundle size is [B]. *)
Definition picker_bundles (tr : TransferRequest) (R : list CatalogRecord)
    (B : Z) : list JVal :=
  map (Picker.bundle_of tr) (Binpacking.to_constant_volume (packing_list R) B).

(** The [files] list of a bundle that was sent to the LTA DB. *)
Definition files_of (bundle : JVal) : list JVal :=
  match bundle with
  | JObj kv =>
      match assoc "files" kv with
      | Some (JList l) => l
      | _ => []
      end
  | _ => []
  end.

(** The [file_size] of one entry of such a list. *)
Definition file_size_of (f : JVal) : Z :=
  match f with
  | JObj kv =>
      match assoc "file_size" kv with
      | Some (JInt z) => z
      | _ => 0
      end
  | _ => 0
  end.

Definition summed_file_size (bundle : JVal) : Z :=
  fold_right Z.add 0 (map file_size_of (files_of bundle)).

Definition is_bulk_create (ev : Event) : bool :=
  match ev with
  | Called (POST_bulk_create _) _ => true
  | _ => false
  end.

Definition is_query (ev : Event) : bool :=
  match ev with
  | Called (GET_files _ _ _ _) _ => true
  | _ => false
  end.

Definition is_fetch (ev : Event) : bool :=
  match ev with
  | Called (GET_file _) _ => true
  | _ => false
  end.

Definition is_patch (ev : Event) : bool :=
  match ev with
  | Called (PATCH_transfer_request _ _) _ => true
  | Called (PATCH_bundle _ _) _ => true
  | _ => false
  end.

Definition is_move (ev : Event) : bool :=
  match ev with
  | Called (SHUTIL_move _ _) _ => true
  | _ => false
  end.

(** The Picker's claim of a TransferRequest, answered with [tr]. *)
Definition picker_pop (self : Picker.Config) (tr : option TransferRequest)
  : Event :=
  Called
    (POST_pop_transfer_request
       [ ("source", source_site (Picker.component self)) ]
       (JObj [ ("claimant",
                JStr ("picker-" ++ instance_uuid (Picker.component self))%string) ]))
    (RTransferRequest tr).

(** The cause the Picker gives when a packing list has [count] files. *)
Definition too_many_files (count limit : Z) : string :=
  ("Bundle packing list contains " ++ str count
   ++ " files; MAX_FILE_COUNT is configured at " ++ str limit)%string.

Definition zero_files : string :=
  "File Catalog returned zero files for the TransferRequest".

(** A bin respects the volume [V], or holds one item that alone is
    larger than [V]. *)
Definition bin_ok {A : Type} (V : Z) (bin : list (Z * A)) : Prop :=
  Binpacking.volume bin <= V \/
  exists it, bin = [it] /\ V < Binpacking.weight it.

(** *** What holds of every run *)

(** Whatever the collaborators answer, [c] records only events that
    satisfy [P], after those already recorded. *)
Definition emits {A : Type} (P : Event -> Prop) (c : M A) : Prop :=
  forall s, exists evs,
    trace (snd (run c s)) = trace s ++ evs /\ Forall P evs.

(** Whatever the collaborators answer, [c] comes to an end. *)
Definition halts {A : Type} (c : M A) : Prop :=
  forall s, fst (run c s) <> Diverge.

(** Whatever the collaborators answer, [c] comes to an end and leaves no
    more answers pending than it found. *)
Definition spends {A : Type} (c : M A) : Prop :=
  forall s,
    match run c s with
    | (Diverge, _) => False
    | (_, s') => (List.length (pending s') <= List.length (pending s))%nat
    end.

(** The same, and [c] uses up an answer whenever it returns. *)
Definition spends_one {A : Type} (c : M A) : Prop :=
  forall s,
    match run c s with
    | (Ok _, s') => (List.length (pending s') < List.length (pending s))%nat
    | (Raise _, s') => (List.length (pending s') <= List.length (pending s))%nat
    | (Diverge, _) => False
    end.

(** A request to [bulk_create] carries a list of exactly one bundle. *)
Definition one_bundle_per_create (ev : Event) : Prop :=
  forall body r,
    ev = Called (POST_bulk_create body) r ->
    exists bundle, body = JObj [ ("bundles", JList [bundle]) ].

Definition is_pop (ev : Event) : bool :=
  match ev with
  | Called (POST_pop_bundle _ _) _ => true
  | Called (POST_pop_transfer_request _ _) _ => true
  | _ => false
  end.

(** *** The pattern of a quarantine reason *)

(** The regular expressions that [^BY:[^ ]+ REASON:.+] is made of. *)
Inductive Regex : Type :=
| Str (text : string)       (* the characters of [text], as they are *)
| NotSpace                  (* [^ ] : one character that is not a space *)
| Dot                       (* .    : one character that is not a newline *)
| Plus (r : Regex)          (* r+   : once or more *)
| Cat (r1 r2 : Regex).      (* r1 r2 *)

Definition newline : ascii := "010"%char.

(** [matches_all r s]: the whole of [s] is matched by [r]. *)
Inductive matches_all : Regex -> string -> Prop :=
| M_str text : matches_all (Str text) text
| M_notspace c : c <> " "%char -> matches_all NotSpace (String c EmptyString)
| M_dot c : c <> newline -> matches_all Dot (String c EmptyString)
| M_plus_once r s : matches_all r s -> matches_all (Plus r) s
| M_plus_more r s1 s2 :
    matches_all r s1 -> matches_all (Plus r) s2 ->
    matches_all (Plus r) (s1 ++ s2)%string
| M_cat r1 r2 s1 s2 :
    matches_all r1 s1 -> matches_all r2 s2 ->
    matches_all (Cat r1 r2) (s1 ++ s2)%string.

(** [BY:[^ ]+ REASON:.+] *)
Definition reason_pattern : Regex :=
  Cat (Str "BY:") (Cat (Plus NotSpace) (Cat (Str " REASON:") (Plus Dot))).

(** A pattern anchored by [^] and not by [$] matches a string when it
    matches a prefix of it. *)
Definition re_match (r : Regex) (s : string) : Prop :=
  exists p rest, s = (p ++ rest)%string /\ matches_all r p.

(** The value that a request body gives to the key [k]. *)
Definition field_of (k : string) (body : JVal) : option JVal :=
  match body with
  | JObj kv => assoc k kv
  | _ => None
  end.

(** The [reason] of a request body. *)
Definition reason_of (body : JVal) : option JVal :=
  match body with
  | JObj kv => assoc "reason" kv
  | _ => None
  end.

(** *** The RucioStager *)

(** The files that a walk of the inbox finds. *)
Definition disk_files_of (tree : list (string * list string * list string))
  : list string :=
  flat_map
    (fun entry : string * list string * list string =>
       let '(root, dirs, files) := entry in
       map (fun file => path_join root file) files)
    tree.

Definition sum_sizes (sizes : list Z) : Z := fold_right Z.add 0 sizes.

(** Measuring the inbox: the walk, then the size of each file found. *)
Definition measure_calls (path : string)
    (tree : list (string * list string * list string)) (sizes : list Z)
  : list Event :=
  Called (OS_walk path) (RWalk tree)
    :: zip_with (fun f n => Called (OS_getsize f) (RSize n))
         (disk_files_of tree) sizes.

(** The RucioStager's claim of a Bundle, answered with [bundle]. *)
Definition stager_pop (self : RucioStager.Config) (bundle : option Bundle)
  : Event :=
  Called
    (POST_pop_bundle
       [ ("dest", RucioStager.dest_site self); ("status", "created") ]
       (JObj [ ("claimant",
                JStr ("rucio_stager-"
                      ++ instance_uuid (RucioStager.component self))%string) ]))
    (RBundle bundle).

(** The body of the PATCH that gives a bundle back. *)
Definition unclaim_body (right_now : string) : JVal :=
  JObj [ ("claimed", JBool false);
         ("update_timestamp", JStr right_now);
         ("work_priority_timestamp", JStr right_now) ].

(** The body of the PATCH that advances a bundle moved to [dst_path]. *)
Definition staged_body (dst_path right_now : string) : JVal :=
  JObj [ ("bundle_path", JStr dst_path);
         ("claimed", JBool false);
         ("status", JStr "staged");
         ("reason", JStr "");
         ("update_timestamp", JStr right_now) ].

(** [c in s] *)
Fixpoint has_char (c : ascii) (s : string) : bool :=
  match s with
  | EmptyString => false
  | String a s' => (Ascii.eqb a c || has_char c s')%bool
  end.

(** The keys of a request body. *)
Definition body_keys (body : JVal) : list string :=
  match body with
  | JObj kv => keys kv
  | _ => []
  end.

(** [entry] is the five-key projection of the record [r], in the words
    of the specification: it has the keys [checksum], [file_size],
    [logical_name], [meta_modify_date] and [uuid], each with the value
    that the record has for it, and no other key. *)
Definition five_key_projection (r : CatalogRecord) (entry : JVal) : Prop :=
  body_keys entry =
    ["checksum"; "file_size"; "logical_name"; "meta_modify_date"; "uuid"] /\
  field_of "checksum" entry = Some (checksum r) /\
  field_of "file_size" entry = Some (JInt (file_size r)) /\
  field_of "logical_name" entry = Some (JStr (logical_name r)) /\
  field_of "meta_modify_date" entry = Some (JStr (meta_modify_date r)) /\
  field_of "uuid" entry = Some (JStr (uuid r)).

(** *** The bundle uuids of the Locator, in the words of the
    specification *)

(** A location participates iff its [archive] is strictly true and its
    site is the source of the request. *)
Definition participates (source : string) (location : Location) : bool :=
  match loc_archive location with
  | Some (JBool true) => String.eqb (loc_site location) source
  | _ => false
  end.

(** The portion of [s] before the first [c]; all of [s] when it has none. *)
Fixpoint before_first (c : ascii) (s : string) : string :=
  match s with
  | EmptyString => EmptyString
  | String a s' =>
      if Ascii.eqb a c then EmptyString else String a (before_first c s')
  end.

(** Split the path at the first colon and keep the left portion, take its
    basename, and keep the prefix before the first dot. *)
Definition archive_uuid (path : string) : string :=
  before_first "."%char (basename (before_first ":"%char path)).

(** Each element once, in the order of first appearance. *)
Fixpoint first_seen (l : list string) : list string :=
  match l with
  | [] => []
  | x :: l' =>
      x :: List.filter (fun y => negb (String.eqb x y)) (first_seen l')
  end.

(** The paths of the participating locations, in record order and then in
    location order. *)
Definition participating_paths (records : list CatalogRecord)
    (source : string) : list string :=
  flat_map
    (fun record =>
       map loc_path (List.filter (participates source) (locations record)))
    records.

Definition unique_archives_spec (records : list CatalogRecord)
    (source : string) : list string :=
  first_seen (map archive_uuid (participating_paths records source)).

(** [record] with other locations. *)
Definition with_locations (record : CatalogRecord) (locs : list Location)
  : CatalogRecord :=
  {| checksum := checksum record; file_size := file_size record;
     logical_name := logical_name record;
     meta_modify_date := meta_modify_date record; uuid := uuid record;
     locations := locs; lta := lta record |}.

(** The [status] of a bundle that was sent to the LTA DB. *)
Definition status_of (bundle : JVal) : option JVal :=
  match bundle with
  | JObj kv => assoc "status" kv
  | _ => None
  end.

(** The bundles the Locator sends for the archive records [BR]. *)
Definition locator_bundles (tr : TransferRequest) (BR : list CatalogRecord)
  : list JVal :=
  flat_map
    (fun r =>
       match lta r with
       | Some l => [Locator.bundle_of tr r l]
       | None => []
       end)
    BR.

(** *** Further vocabulary *)

(** The requests by which the workers claim an entity. *)
Definition picker_pop_call (self : Picker.Config) : Call :=
  POST_pop_transfer_request
    [ ("source", source_site (Picker.component self)) ]
    (JObj [ ("claimant",
             JStr ("picker-" ++ instance_uuid (Picker.component self))%string) ]).

Definition locator_pop_call (self : Locator.Config) : Call :=
  POST_pop_transfer_request
    [ ("dest", Locator.dest_site self);
      ("source", source_site (Locator.component self)) ]
    (JObj [ ("claimant",
             JStr ("locator-" ++ instance_uuid (Locator.component self))%string) ]).

Definition stager_pop_call (self : RucioStager.Config) : Call :=
  POST_pop_bundle
    [ ("dest", RucioStager.dest_site self); ("status", "created") ]
    (JObj [ ("claimant",
             JStr ("rucio_stager-"
                   ++ instance_uuid (RucioStager.component self))%string) ]).

(** The outcome of a drain loop whose claim handler ended with [o] and
    was not run again. *)
Definition drained (o : Out bool) : Out unit :=
  match o with
  | Ok _ => Ok tt
  | Raise e => Raise e
  | Diverge => Diverge
  end.

(** The request that follows the pages [pages], all of them full. *)
Definition query_after (limit : Z) (query : JVal)
    (pages : list (list FileEntry)) : Call :=
  match pages with
  | [] => GET_files query (Some "uuid") limit 0
  | _ :: _ => GET_files query None limit (limit * len pages)
  end.

(** The requests of a file discovery, each with the number of its page. *)
Definition numbered_queries (limit : Z) (query : JVal)
    (pages : list (list FileEntry)) : list Event :=
  imap
    (fun i page =>
       Called
         (GET_files query
            (match i with O => Some "uuid" | S _ => None end)
            limit (limit * Z.of_nat i))
         (RFiles page))
    pages.

(** One request to [bulk_create] for the bundle [bundle]. *)
Definition create_call (bundle : JVal) : Call :=
  POST_bulk_create (JObj [ ("bundles", JList [bundle]) ]).



(** [r] is an answer to a request to [bulk_create] on which
    [_create_bundle] raises [e]: the request fails with [e], or the list
    of uuids that it gives back is empty. *)
Definition refused (r : Response) (e : Exc) : Prop :=
  r = RFail e \/
  (r = RBundles [] /\
   e = {| exc_type := "IndexError"; exc_str := "list index out of range" |}).

(** The collaborator that an event speaks to. *)
Definition on_disk (ev : Event) : bool :=
  match ev with
  | Called (OS_walk _) _ => true
  | Called (OS_getsize _) _ => true
  | Called (SHUTIL_move _ _) _ => true
  | _ => false
  end.

Definition on_catalog (ev : Event) : bool :=
  match ev with
  | Called (GET_files _ _ _ _) _ => true
  | Called (GET_file _) _ => true
  | _ => false
  end.

Definition on_transfer_request (ev : Event) : bool :=
  match ev with
  | Called (POST_pop_transfer_request _ _) _ => true
  | Called (PATCH_transfer_request _ _) _ => true
  | _ => false
  end.

Definition on_bundle (ev : Event) : bool :=
  match ev with
  | Called (POST_pop_bundle _ _) _ => true
  | Called (PATCH_bundle _ _) _ => true
  | _ => false
  end.

(** A PATCH of a TransferRequest does nothing but quarantine it. *)
Definition quarantines_request (ev : Event) : Prop :=
  forall uuid body r,
    ev = Called (PATCH_transfer_request uuid body) r ->
    body_keys body = ["status"; "reason"; "work_priority_timestamp"] /\
    field_of "status" body = Some (JStr "quarantined").

(** A PATCH of a Bundle quarantines it, gives it back or marks it as
    staged. *)
Definition patches_bundle (ev : Event) : Prop :=
  forall uuid body r,
    ev = Called (PATCH_bundle uuid body) r ->
    (body_keys body = ["status"; "reason"; "work_priority_timestamp"] /\
     field_of "status" body = Some (JStr "quarantined")) \/
    (body_keys body = ["claimed"; "update_timestamp";
                       "work_priority_timestamp"] /\
     field_of "claimed" body = Some (JBool false)) \/
    (body_keys body = ["bundle_path"; "claimed"; "status"; "reason";
                       "update_timestamp"] /\
     field_of "claimed" body = Some (JBool false) /\
     field_of "status" body = Some (JStr "staged")).

(** A bundle sent to [bulk_create] is a Bundle of the request [tr] in
    the status [status]. *)
Definition creates_for (tr : TransferRequest) (status : string) (ev : Event)
  : Prop :=
  forall body r,
    ev = Called (POST_bulk_create body) r ->
    exists bundle,
      body = JObj [ ("bundles", JList [bundle]) ] /\
      field_of "type" bundle = Some (JStr "Bundle") /\
      field_of "status" bundle = Some (JStr status) /\
      field_of "reason" bundle = Some (JStr "") /\
      field_of "request" bundle = Some (JStr (tr_uuid tr)) /\
      field_of "source" bundle = Some (JStr (tr_source tr)) /\
      field_of "dest" bundle = Some (JStr (tr_dest tr)) /\
      field_of "path" bundle = Some (JStr (tr_path tr)).

(** A move takes a file out of the directory [outbox] into the directory
    [inbox] and keeps its name. *)
Definition moves_within (outbox inbox : string) (ev : Event) : Prop :=
  forall src dst r,
    ev = Called (SHUTIL_move src dst) r ->
    exists name,
      has_char "/"%char name = false /\
      src = path_join outbox name /\ dst = path_join inbox name /\
      basename src = name /\ basename dst = name.

Definition is_log (ev : Event) : bool :=
  match ev with
  | LogError _ => true
  | Called _ _ => false
  end.

(** No PATCH at all, or one PATCH that only lines of the log follow. *)
Fixpoint quiet_after_patch (evs : list Event) : bool :=
  match evs with
  | [] => true
  | ev :: evs' =>
      if is_patch ev then forallb is_log evs' else quiet_after_patch evs'
  end.

(** Whatever the collaborators answer, [c] sends no PATCH, or it returns
    after one PATCH that only lines of the log follow. *)
Definition patches_last {A : Type} (c : M A) : Prop :=
  forall s, exists evs,
    trace (snd (run c s)) = trace s ++ evs /\
    (Forall (fun ev => is_patch ev = false) evs \/
     ((exists a, fst (run c s) = Ok a) /\ quiet_after_patch evs = true)).

(** ** Sample data *)

Module Sample.

Definition component : Component :=
  {| instance_uuid := "0f1e2d3c"; source_site := "WIPAC";
     run_once_and_die := false |}.

Definition picker (max_count : Z) : Picker.Config :=
  {| Picker.component := component;
     Picker.max_file_count := max_count;
     Picker.sites := {[ "NERSC" := {| Picker.bundle_size := 1000 |} ]} |}.

Definition tr : TransferRequest :=
  {| tr_uuid := "TR-1"; tr_source := "WIPAC"; tr_dest := "NERSC";
     tr_path := "/data/exp" |}.

Definition file (u : string) : FileEntry := {| fe_uuid := u |}.

Definition record (u : string) (size : Z) (locs : list Location)
  : CatalogRecord :=
  {| checksum := JObj [ ("sha512", JStr u) ];
     file_size := size;
     logical_name := ("/data/exp/" ++ u)%string;
     meta_modify_date := "2019-07-26 01:53:20";
     uuid := u;
     locations := locs;
     lta := None |}.

Definition start (answers : list Response) : State :=
  {| pending := answers; clock := fun _ => "2019-07-26T01:53:20";
     ticks := 0; trace := [] |}.

Definition archived (site path : string) : Location :=
  {| loc_archive := Some (JBool true); loc_site := site; loc_path := path |}.

(** Three files, two of them in the same archive at WIPAC. *)
Definition archived_records : list CatalogRecord :=
  [ record "f1" 10 [ archived "WIPAC" "/a/b/DEADBEEF1234.zip:inner-1" ];
    record "f2" 20 [ archived "WIPAC" "/a/b/DEADBEEF1234.zip:inner-2" ];
    record "f3" 30 [ archived "WIPAC" "/a/b/CAFEBABE5678.zip:inner-3" ] ].

(** The record of an archive, with its [lta] sub-object. *)
Definition archive_record (u : string) (size : Z) : CatalogRecord :=
  {| checksum := JObj [ ("sha512", JStr u) ];
     file_size := size;
     logical_name := ("/a/b/" ++ u ++ ".zip")%string;
     meta_modify_date := "2019-07-26 01:53:20";
     uuid := u;
     locations := [];
     lta := Some {| lta_bundle_path := JStr ("/a/b/" ++ u ++ ".zip")%string;
                    lta_checksum := JObj [ ("sha512", JStr u) ] |} |}.

Definition locator : Locator.Config :=
  {| Locator.component := component; Locator.dest_site := "DESY" |}.

Definition stager (quota : Z) : RucioStager.Config :=
  {| RucioStager.component := component;
     RucioStager.bundler_outbox_path := "/data/bundler/outbox";
     RucioStager.dest_quota := quota;
     RucioStager.dest_site := "NERSC";
     RucioStager.rucio_inbox_path := "/data/rucio/inbox" |}.

Definition bundle : Bundle :=
  {| b_uuid := "B-7"; b_size := 300;
     b_bundle_path := "/data/bundler/work/B-7.zip" |}.

(** The inbox holds one file. *)
Definition inbox : list (string * list string * list string) :=
  [ ("/data/rucio/inbox", [], ["B-3.zip"]) ].

(** A page of exactly 9000 entries. *)
Definition full_page : list FileEntry := repeat (file "f") (Z.to_nat 9000).

End Sample.


(** *** Further sample data *)

Module More.

Definition once : Component :=
  {| instance_uuid := "0f1e2d3c"; source_site := "WIPAC";
     run_once_and_die := true |}.

Definition picker_once : Picker.Config :=
  {| Picker.component := once;
     Picker.max_file_count := 25000;
     Picker.sites := {[ "NERSC" := {| Picker.bundle_size := 1000 |} ]} |}.

Definition locator_once : Locator.Config :=
  {| Locator.component := once; Locator.dest_site := "DESY" |}.



Definition boom : Exc := {| exc_type := "HTTPError"; exc_str := "on fire" |}.

End More.

(** ** Runs of the monad *)

Section Runs.

Lemma st_after_same (s : State) :
  st_after s (pending s) (ticks s) [] = s.
Proof.
  destruct s as [p c t tr]. unfold st_after. simpl.
  now rewrite app_nil_r.
Qed.

Lemma st_after_after (s : State) r1 t1 e1 r2 t2 e2 :
  st_after (st_after s r1 t1 e1) r2 t2 e2 = st_after s r2 t2 (e1 ++ e2).
Proof. unfold st_after. simpl. now rewrite <- app_assoc. Qed.

Lemma run_bind {A B : Type} (c : M A) (k : A -> M B) (s : State) :
  run (bind c k) s =
  match run c s with
  | (Ok a, s') => run (k a) s'
  | (Raise e, s') => (Raise e, s')
  | (Diverge, s') => (Diverge, s')
  end.
Proof. reflexivity. Qed.

Lemma run_bind_ok {A B : Type} (c : M A) (k : A -> M B) s a s' :
  run c s = (Ok a, s') -> run (bind c k) s = run (k a) s'.
Proof. intros H. rewrite run_bind, H. reflexivity. Qed.

Lemma run_bind_raise {A B : Type} (c : M A) (k : A -> M B) s e s' :
  run c s = (Raise e, s') -> run (bind c k) s = (Raise e, s').
Proof. intros H. rewrite run_bind, H. reflexivity. Qed.

Lemma run_call (c : Call) (s : State) :
  run (call c) s =
  (answered (fst (next_answer (pending s))),
   st_after s (snd (next_answer (pending s))) (ticks s)
     [Called c (fst (next_answer (pending s)))]).
Proof.
  unfold run, call. destruct (next_answer (pending s)) as [r rest]. simpl.
  destruct r; reflexivity.
Qed.

Lemma run_call_ok (c : Call) (s : State) r rest :
  pending s = r :: rest -> is_fail r = false ->
  run (call c) s = (Ok r, st_after s rest (ticks s) [Called c r]).
Proof.
  intros Hp Hr. rewrite run_call, Hp. simpl.
  destruct r; try reflexivity. discriminate.
Qed.

Lemma run_call_fail (c : Call) (s : State) e rest :
  pending s = RFail e :: rest ->
  run (call c) s = (Raise e, st_after s rest (ticks s) [Called c (RFail e)]).
Proof. intros Hp. rewrite run_call, Hp. reflexivity. Qed.

Lemma run_emit (ev : Event) (s : State) :
  run (emit ev) s = (Ok tt, st_after s (pending s) (ticks s) [ev]).
Proof. reflexivity. Qed.

Lemma run_now (s : State) :
  run now s = (Ok (clock s (ticks s)), st_after s (pending s) (S (ticks s)) []).
Proof.
  unfold run, now, st_after. now rewrite app_nil_r.
Qed.

Lemma run_try_except {A : Type} (c : M A) (h : Exc -> M A) (s : State) :
  run (try_except c h) s =
  match run c s with
  | (Raise e, s') => run (h e) s'
  | r => r
  end.
Proof. reflexivity. Qed.

Lemma run_while_ {A : Type} (cond : A -> bool) (body : A -> M A) a s :
  run (while_ cond body a) s =
  run (while_fuel (S (List.length (pending s))) cond body a) s.
Proof. reflexivity. Qed.

End Runs.

(** ** File discovery *)

Section Paging.

Variables (limit : Z) (query : JVal).

Lemma next_page_full (p : Paging) (s : State) files rest :
  pending s = RFiles files :: rest ->
  run (next_page limit query p) s =
  (Ok {| page_start := page_start p + num_files p;
         num_files := len files;
         catalog_files := catalog_files p ++ files |},
   st_after s rest (ticks s)
     [Called (GET_files query None limit (page_start p + num_files p))
        (RFiles files)]).
Proof.
  intros Hp. unfold next_page.
  rewrite (run_bind_ok _ _ _ _ _ (run_call_ok _ _ _ _ Hp eq_refl)).
  reflexivity.
Qed.

Lemma paging_loop (pages : list (list FileEntry)) :
  forall (last : list FileEntry) (rest : list Response) (fuel : nat)
         (p : Paging) (s : State),
    Forall (fun page => len page = limit) pages ->
    len last <> limit ->
    num_files p = limit ->
    pending s = map RFiles (pages ++ [last]) ++ rest ->
    (List.length pages < fuel)%nat ->
    run (while_fuel fuel (fun p => num_files p =? limit)
           (next_page limit query) p) s =
    (Ok {| page_start :=
             page_start p + limit + Z.of_nat (List.length pages) * limit;
           num_files := len last;
           catalog_files := catalog_files p ++ concat (pages ++ [last]) |},
     st_after s rest (ticks s)
       (paging_calls limit query (page_start p + limit) (pages ++ [last]))).
Proof.
  induction pages as [|page pages IH]; intros last rest fuel p s Hfull Hlast Hp Hs Hfuel.
  - destruct fuel as [|fuel]; [lia|]. simpl in Hs.
    simpl while_fuel. rewrite Hp, Z.eqb_refl.
    rewrite (run_bind_ok _ _ _ _ _ (next_page_full p s last rest Hs)).
    destruct fuel; simpl while_fuel; cbn [num_files];
      rewrite (proj2 (Z.eqb_neq _ _) Hlast); unfold run, ret;
      rewrite Hp; simpl; rewrite app_nil_r;
      do 3 f_equal; lia.
  - destruct fuel as [|fuel]; [simpl in Hfuel; lia|].
    apply Forall_cons_iff in Hfull as [Hpage Hfull'].
    simpl in Hs, Hfuel. simpl while_fuel. rewrite Hp, Z.eqb_refl.
    rewrite (run_bind_ok _ _ _ _ _ (next_page_full p s page _ Hs)).
    rewrite (IH last rest fuel); simpl; auto; try lia.
    rewrite st_after_after. cbn [page_start num_files catalog_files].
    rewrite Hp, Hpage. rewrite <- app_assoc.
    do 3 f_equal. lia.
Qed.

Lemma page_catalog_run (pages : list (list FileEntry)) last rest s :
  Forall (fun page => len page = limit) pages ->
  len last <> limit ->
  pending s = map RFiles (pages ++ [last]) ++ rest ->
  run (page_catalog limit query) s =
  (Ok (concat (pages ++ [last])),
   st_after s rest (ticks s) (catalog_calls limit query (pages ++ [last]))).
Proof.
  intros Hfull Hlast Hs. unfold page_catalog.
  destruct pages as [|page pages]; simpl in Hs.
  - rewrite (run_bind_ok _ _ _ _ _ (run_call_ok _ _ _ _ Hs eq_refl)).
    unfold run, bind, get_files, ret, while_. simpl.
    rewrite (proj2 (Z.eqb_neq _ _) Hlast). simpl.
    now rewrite app_nil_r.
  - apply Forall_cons_iff in Hfull as [Hpage Hfull].
    rewrite (run_bind_ok _ _ _ _ _ (run_call_ok _ _ _ _ Hs eq_refl)).
    cbv beta. erewrite (run_bind_ok (get_files _)) by reflexivity.
    erewrite (run_bind_ok (while_ _ _ _)); cycle 1.
    + rewrite run_while_.
      rewrite (paging_loop pages last rest); auto.
      simpl. rewrite !length_app, length_map, length_app. simpl. lia.
    + rewrite st_after_after. cbn [page_start num_files catalog_files].
      change ((page :: pages) ++ [last]) with (page :: (pages ++ [last])).
      cbn [catalog_calls]. rewrite Hpage. reflexivity.
Qed.

End Paging.

(** ** Bin packing *)

Section PackingFacts.

Context {A : Type}.
Implicit Types (it : Z * A) (l bin : list (Z * A)).
Implicit Types (bins : list (list (Z * A))).

Import Binpacking.

Lemma volume_app bin1 bin2 : volume (bin1 ++ bin2) = volume bin1 + volume bin2.
Proof.
  induction bin1 as [|it bin1 IH]; simpl; [reflexivity|].
  rewrite IH. lia.
Qed.

Lemma insert_desc_perm it l : Permutation (insert_desc it l) (it :: l).
Proof.
  induction l as [|x l IH]; simpl; [reflexivity|].
  destruct (weight x <=? weight it); [reflexivity|].
  rewrite IH. apply perm_swap.
Qed.

Lemma sort_desc_perm l : Permutation (sort_desc l) l.
Proof.
  induction l as [|x l IH]; simpl; [reflexivity|].
  rewrite insert_desc_perm. now constructor.
Qed.

Lemma place_perm V it bins :
  Permutation (concat (place V it bins)) (it :: concat bins).
Proof.
  induction bins as [|b bs IH]; simpl; [reflexivity|].
  destruct (volume b + weight it <=? V); simpl.
  - rewrite <- app_assoc. simpl. symmetry. apply Permutation_middle.
  - rewrite IH. symmetry. apply Permutation_middle.
Qed.

Lemma fold_place_perm V l : forall bins,
  Permutation (concat (fold_left (fun bins it => place V it bins) l bins))
              (l ++ concat bins).
Proof.
  induction l as [|it l IH]; intros bins; simpl; [reflexivity|].
  rewrite IH, place_perm. symmetry. apply Permutation_middle.
Qed.

Lemma to_constant_volume_perm (d : list (Z * A)) V :
  Permutation (concat (to_constant_volume d V)) d.
Proof.
  unfold to_constant_volume. rewrite fold_place_perm. simpl.
  rewrite app_nil_r. apply sort_desc_perm.
Qed.

Lemma place_ok V it bins :
  Forall (bin_ok V) bins -> Forall (bin_ok V) (place V it bins).
Proof.
  induction bins as [|b bs IH]; intros Hok; simpl.
  - constructor; [|constructor].
    destruct (Z_le_gt_dec (weight it) V) as [Hle|Hgt].
    + left. simpl. lia.
    + right. exists it. split; [reflexivity|lia].
  - apply Forall_cons_iff in Hok as [Hb Hbs].
    destruct (Z.leb_spec (volume b + weight it) V) as [Hfit|Hno].
    + constructor; [|assumption]. left. rewrite volume_app. simpl. lia.
    + constructor; auto.
Qed.

Lemma fold_place_ok V l : forall bins,
  Forall (bin_ok V) bins ->
  Forall (bin_ok V) (fold_left (fun bins it => place V it bins) l bins).
Proof.
  induction l as [|it l IH]; intros bins Hok; simpl; [assumption|].
  apply IH, place_ok, Hok.
Qed.

Lemma to_constant_volume_ok (d : list (Z * A)) V :
  Forall (bin_ok V) (to_constant_volume d V).
Proof. apply fold_place_ok. constructor. Qed.

End PackingFacts.

(** ** Quarantine *)

(** The three quarantine primitives are the same code, and so are their
    runs: the announcement, the clock, the PATCH in its [try]. *)
Ltac run_quarantine s :=
  unfold logger_error;
  rewrite (run_bind_ok _ _ _ _ _ (run_emit _ _));
  rewrite (run_bind_ok _ _ _ _ _ (run_now _));
  rewrite st_after_after, run_try_except, run_bind, run_call;
  cbn [pending ticks st_after clock];
  destruct (next_answer (pending s)) as [r rest]; cbn [fst snd];
  destruct r; cbn [answered]; cbv beta;
  rewrite ?run_emit, ?st_after_after; reflexivity.

Section Quarantine.

Lemma picker_quarantine_run (self : Picker.Config) tr cause s :
  run (Picker._quarantine_transfer_request self tr cause) s =
  (Ok tt,
   st_after s (snd (next_answer (pending s))) (S (ticks s))
     (quarantine_events "TransferRequest" (tr_uuid tr) cause
        (PATCH_transfer_request (tr_uuid tr)
           (quarantine_body "picker" (instance_uuid (Picker.component self))
              cause (clock s (ticks s))))
        (fst (next_answer (pending s))))).
Proof.
  unfold Picker._quarantine_transfer_request. run_quarantine s.
Qed.

Lemma locator_quarantine_run (self : Locator.Config) tr cause s :
  run (Locator._quarantine_transfer_request self tr cause) s =
  (Ok tt,
   st_after s (snd (next_answer (pending s))) (S (ticks s))
     (quarantine_events "TransferRequest" (tr_uuid tr) cause
        (PATCH_transfer_request (tr_uuid tr)
           (quarantine_body "locator" (instance_uuid (Locator.component self))
              cause (clock s (ticks s))))
        (fst (next_answer (pending s))))).
Proof.
  unfold Locator._quarantine_transfer_request. run_quarantine s.
Qed.

Lemma stager_quarantine_run (self : RucioStager.Config) bundle cause s :
  run (RucioStager._quarantine_bundle self bundle cause) s =
  (Ok tt,
   st_after s (snd (next_answer (pending s))) (S (ticks s))
     (quarantine_events "Bundle" (b_uuid bundle) cause
        (PATCH_bundle (b_uuid bundle)
           (quarantine_body "rucio_stager"
              (instance_uuid (RucioStager.component self))
              cause (clock s (ticks s))))
        (fst (next_answer (pending s))))).
Proof.
  unfold RucioStager._quarantine_bundle. run_quarantine s.
Qed.

End Quarantine.

(** ** Loops over lists *)

Section Loops.

Lemma for_collect_calls {A : Type} (g : A -> Call) (l : list A) :
  forall (answers rest : list Response) (s : State),
    List.length answers = List.length l ->
    Forall (fun r => is_fail r = false) answers ->
    pending s = answers ++ rest ->
    run (for_collect l (fun x => call (g x))) s =
    (Ok answers,
     st_after s rest (ticks s) (zip_with (fun x r => Called (g x) r) l answers)).
Proof.
  induction l as [|x l IH]; intros answers rest s Hlen Hok Hs.
  - destruct answers; [|discriminate]. simpl in Hs. subst rest.
    simpl. unfold run, ret. now rewrite st_after_same.
  - destruct answers as [|r answers]; [discriminate|].
    apply Forall_cons_iff in Hok as [Hr Hok]. simpl in Hs, Hlen.
    cbn [for_collect].
    rewrite (run_bind_ok _ _ _ _ _ (run_call_ok (g x) _ _ _ Hs Hr)).
    rewrite (run_bind_ok _ _ _ _ _
               (IH answers rest (st_after s (answers ++ rest) (ticks s) _)
                  ltac:(lia) Hok eq_refl)).
    rewrite st_after_after. reflexivity.
Qed.

Lemma for_collect_pure {A B : Type} (f : A -> M B) (g : A -> B) (l : list A) s :
  Forall (fun x => forall s, run (f x) s = (Ok (g x), s)) l ->
  run (for_collect l f) s = (Ok (map g l), s).
Proof.
  induction 1 as [|x l Hx Hl IH]; [reflexivity|].
  cbn [for_collect].
  rewrite (run_bind_ok _ _ _ _ _ (Hx s)).
  rewrite (run_bind_ok _ _ _ _ _ IH). reflexivity.
Qed.

Lemma for_return_none {A R : Type} (body : A -> M (option R)) (l : list A) s :
  Forall (fun x => forall s, run (body x) s = (Ok None, s)) l ->
  run (for_return l body) s = (Ok None, s).
Proof.
  induction 1 as [|x l Hx Hl IH]; [reflexivity|].
  cbn [for_return]. rewrite (run_bind_ok _ _ _ _ _ (Hx s)). exact IH.
Qed.

Lemma for_return_app {A R : Type} (body : A -> M (option R)) (l1 l2 : list A) s :
  Forall (fun x => forall s, run (body x) s = (Ok None, s)) l1 ->
  run (for_return (l1 ++ l2) body) s = run (for_return l2 body) s.
Proof.
  induction 1 as [|x l Hx Hl IH]; [reflexivity|].
  cbn [for_return app]. rewrite (run_bind_ok _ _ _ _ _ (Hx s)). exact IH.
Qed.

(** A loop whose body sends one bundle to [bulk_create] in each round. *)
Lemma for_each_creates {A : Type} (body : A -> M unit) (l : list A)
    (bundles : list JVal) :
  Forall2
    (fun x b =>
       forall us rest s,
         us <> [] -> pending s = RBundles us :: rest ->
         run (body x) s =
         (Ok tt, st_after s rest (ticks s) (create_calls [b] [us])))
    l bundles ->
  forall (created : list (list string)) rest s,
    List.length created = List.length l ->
    Forall (fun us => us <> []) created ->
    pending s = map RBundles created ++ rest ->
    run (for_each l body) s =
    (Ok tt, st_after s rest (ticks s) (create_calls bundles created)).
Proof.
  induction 1 as [|x b l bundles Hx Hl IH]; intros created rest s Hlen Hne Hs.
  - destruct created; [|discriminate]. simpl in Hs. subst rest.
    simpl. unfold run, ret. now rewrite st_after_same.
  - destruct created as [|us created]; [discriminate|].
    apply Forall_cons_iff in Hne as [Hus Hne]. simpl in Hs, Hlen.
    cbn [for_each].
    rewrite (run_bind_ok _ _ _ _ _ (Hx us _ s Hus Hs)).
    rewrite (IH created rest (st_after s (map RBundles created ++ rest) (ticks s) _)
               ltac:(lia) Hne eq_refl).
    rewrite st_after_after. reflexivity.
Qed.

End Loops.

(** ** The Picker at work *)

Section PickerRuns.

Variables (self : Picker.Config) (tr : TransferRequest).

Lemma for_collect_records {B : Type} (k : string) (f : CatalogRecord -> B)
    (R : list CatalogRecord) s :
  run (for_collect (map RRecord R)
         (fun cr => let! r := get_record k cr in ret (f r))) s =
  (Ok (map f R), s).
Proof.
  induction R as [|r R IH]; [reflexivity|].
  cbn [map for_collect].
  erewrite (run_bind_ok (bind _ _)) by reflexivity.
  rewrite (run_bind_ok _ _ _ _ _ IH). reflexivity.
Qed.

Lemma picker_create_one (b : JVal) us rest s :
  us <> [] -> pending s = RBundles us :: rest ->
  run (do! Picker._create_bundle self b in ret tt) s =
  (Ok tt, st_after s rest (ticks s) (create_calls [b] [us])).
Proof.
  intros Hus Hs. unfold Picker._create_bundle.
  destruct us as [|u us]; [congruence|].
  erewrite (run_bind_ok (bind _ _)); [reflexivity|].
  rewrite (run_bind_ok _ _ _ _ _ (run_call_ok _ _ _ _ Hs eq_refl)).
  reflexivity.
Qed.

Lemma picker_gate_open (bins : list (list (Z * CatalogRecord))) s :
  Forall (fun bin => len bin <= Picker.max_file_count self) bins ->
  run (for_return bins
         (fun spec =>
            if Picker.max_file_count self <? len spec then
              do! Picker._quarantine_transfer_request self tr
                    ("Bundle packing list contains " ++ str (len spec)
                     ++ " files; MAX_FILE_COUNT is configured at "
                     ++ str (Picker.max_file_count self))%string in
              ret (Some tt)
            else ret None)) s =
  (Ok None, s).
Proof.
  intros Hok. apply for_return_none.
  eapply Forall_impl; [exact Hok|]. intros bin Hbin s'. cbv beta in *.
  destruct (Z.ltb_spec (Picker.max_file_count self) (len bin)); [lia|].
  reflexivity.
Qed.

(** A request whose files all come back and whose bins pass the gate. *)
Lemma picker_work_creates pages last R B created rest s :
  Forall (fun page => len page = 9000) pages ->
  len last <> 9000 ->
  concat (pages ++ [last]) <> [] ->
  List.length R = List.length (concat (pages ++ [last])) ->
  Picker.sites self !! tr_dest tr = Some {| Picker.bundle_size := B |} ->
  Forall (fun bin => len bin <= Picker.max_file_count self)
    (Binpacking.to_constant_volume (packing_list R) B) ->
  List.length created = List.length (picker_bundles tr R B) ->
  Forall (fun us => us <> []) created ->
  pending s =
    map RFiles (pages ++ [last]) ++ map RRecord R
      ++ map RBundles created ++ rest ->
  run (Picker._do_work_transfer_request self tr) s =
  (Ok tt,
   st_after s rest (ticks s)
     (catalog_calls 9000 (Picker.query_dict (tr_source tr) (tr_path tr))
        (pages ++ [last])
      ++ fetch_calls (map fe_uuid (concat (pages ++ [last]))) (map RRecord R)
      ++ create_calls (picker_bundles tr R B) created)).
Proof.
  intros Hfull Hlast Hne HR Hsite Hgate Hcreated Hus Hs.
  unfold Picker._do_work_transfer_request.
  rewrite (run_bind_ok _ _ _ _ _
             (page_catalog_run _ _ pages last _ s Hfull Hlast Hs)).
  destruct (concat (pages ++ [last])) as [|f fs] eqn:Hfiles; [congruence|].
  rewrite <- Hfiles in *. clear Hfiles f fs.
  erewrite (run_bind_ok (for_collect (concat _) _)); cycle 1.
  { apply (for_collect_calls (fun f => GET_file (fe_uuid f)) _ (map RRecord R)).
    - now rewrite length_map.
    - apply Forall_fmap, Forall_true. intros r. reflexivity.
    - reflexivity. }
  rewrite (run_bind_ok _ _ _ _ _ (for_collect_records _ _ R _)).
  rewrite Hsite. erewrite (run_bind_ok (ret _)) by reflexivity.
  cbn [Picker.bundle_size].
  rewrite (run_bind_ok _ _ _ _ _ (picker_gate_open _ _ Hgate)).
  unfold picker_bundles in *. rewrite length_map in Hcreated.
  rewrite (for_each_creates _ _
             (map (Picker.bundle_of tr)
                (Binpacking.to_constant_volume (packing_list R) B)))
    with (created := created) (rest := rest); auto.
  - rewrite !st_after_after. unfold fetch_calls.
    rewrite zip_with_fmap_l. reflexivity.
  - apply Forall2_fmap_r, Forall_Forall2_diag, Forall_true.
    intros bin us rest' s'. apply picker_create_one.
Qed.

End PickerRuns.

(** ** Bundles of the Picker *)

Section PickerBundles.

Lemma files_of_bundle tr (bin : list (Z * CatalogRecord)) :
  files_of (Picker.bundle_of tr bin) =
  map (fun x => Picker.as_bundle_record (snd x)) bin.
Proof. reflexivity. Qed.

Lemma summed_file_size_bundle tr (bin : list (Z * CatalogRecord)) :
  Forall (fun x => fst x = file_size (snd x)) bin ->
  summed_file_size (Picker.bundle_of tr bin) = Binpacking.volume bin.
Proof.
  unfold summed_file_size. rewrite files_of_bundle.
  induction 1 as [|x bin Hx Hbin IH]; [reflexivity|].
  cbn [map fold_right Binpacking.volume] in *.
  rewrite IH. unfold Binpacking.weight. rewrite Hx. reflexivity.
Qed.

Lemma bins_of_packing_list R B :
  Forall (Forall (fun x => fst x = file_size (snd x)) )
    (Binpacking.to_constant_volume (packing_list R) B).
Proof.
  assert (Hall : Forall (fun x : Z * CatalogRecord => fst x = file_size (snd x))
                   (concat (Binpacking.to_constant_volume (packing_list R) B))).
  { rewrite to_constant_volume_perm. unfold packing_list.
    apply Forall_fmap, Forall_true. reflexivity. }
  revert Hall. generalize (Binpacking.to_constant_volume (packing_list R) B).
  induction l as [|bin bins IH]; intros Hall; [constructor|].
  simpl in Hall. apply Forall_app in Hall as [Hbin Hbins].
  constructor; auto.
Qed.

(** C1: when the File Catalog hands the Picker a non-empty set of
    records [R], the bundle size of the destination is [B] and every
    packing list passes the file-count gate, the Picker sends the bundles
    [picker_bundles tr R B] to [bulk_create]; their [files] lists, put
    together, hold the five-key projection of every record of [R] once
    and nothing else (an entry with the keys [checksum], [file_size],
    [logical_name], [meta_modify_date] and [uuid] and the values of the
    record, and no other key), and the sizes of the files of a bundle add
    up to at most [B] unless the bundle holds a single record that is
    itself larger than [B]. *)
Theorem picker_bundles_partition_records :
  forall (self : Picker.Config) (tr : TransferRequest)
         (pages : list (list FileEntry)) (last : list FileEntry)
         (R : list CatalogRecord) (B : Z) (created : list (list string))
         (rest : list Response) (s : State),
    Forall (fun page => len page = 9000) pages ->
    len last <> 9000 ->
    concat (pages ++ [last]) <> [] ->
    List.length R = List.length (concat (pages ++ [last])) ->
    Picker.sites self !! tr_dest tr = Some {| Picker.bundle_size := B |} ->
    Forall (fun bin => len bin <= Picker.max_file_count self)
      (Binpacking.to_constant_volume (packing_list R) B) ->
    List.length created = List.length (picker_bundles tr R B) ->
    Forall (fun us => us <> []) created ->
    pending s =
      map RFiles (pages ++ [last]) ++ map RRecord R
        ++ map RBundles created ++ rest ->
    run (Picker._do_work_transfer_request self tr) s =
    (Ok tt,
     st_after s rest (ticks s)
       (catalog_calls 9000 (Picker.query_dict (tr_source tr) (tr_path tr))
          (pages ++ [last])
        ++ fetch_calls (map fe_uuid (concat (pages ++ [last]))) (map RRecord R)
        ++ create_calls (picker_bundles tr R B) created))
    /\ Permutation (flat_map files_of (picker_bundles tr R B))
                   (map Picker.as_bundle_record R)
    /\ (exists entries,
          Permutation (flat_map files_of (picker_bundles tr R B)) entries /\
          Forall2 five_key_projection R entries)
    /\ Forall
         (fun bundle =>
            summed_file_size bundle <= B \/
            exists r, In r R /\ B < file_size r /\
                      files_of bundle = [Picker.as_bundle_record r])
         (picker_bundles tr R B).
Proof.
  intros self tr pages last R B created rest s
         Hfull Hlast Hne HR Hsite Hgate Hcreated Hus Hs.
  assert (Hperm : Permutation (flat_map files_of (picker_bundles tr R B))
                    (map Picker.as_bundle_record R)).
  { unfold picker_bundles. rewrite flat_map_concat_map, map_map.
    erewrite map_ext by (intros; apply files_of_bundle).
    rewrite <- concat_map.
    rewrite (to_constant_volume_perm (packing_list R) B).
    unfold packing_list. rewrite map_map. reflexivity. }
  split; [now apply picker_work_creates|].
  split; [exact Hperm|]. split.
  - exists (map Picker.as_bundle_record R). split; [exact Hperm|].
    apply Forall2_fmap_r, Forall_Forall2_diag, Forall_true.
    intros r. unfold five_key_projection. repeat split; reflexivity.
  - clear Hperm. unfold picker_bundles. apply Forall_fmap.
    pose proof (to_constant_volume_ok (packing_list R) B) as Hok.
    pose proof (bins_of_packing_list R B) as Hsizes.
    pose proof (to_constant_volume_perm (packing_list R) B) as Hperm.
    revert Hok Hsizes Hperm.
    generalize (Binpacking.to_constant_volume (packing_list R) B) as bins.
    intros bins Hok Hsizes Hperm.
    assert (Hin : forall bin it, In bin bins -> In it bin ->
                                 In it (packing_list R)).
    { intros bin it Hbin Hit. eapply Permutation_in; [exact Hperm|].
      apply in_concat. eauto. }
    clear Hperm. induction bins as [|bin bins IH]; [constructor|].
    apply Forall_cons_iff in Hok as [Hbin Hok].
    apply Forall_cons_iff in Hsizes as [Hsize Hsizes].
    constructor.
    + cbv beta. unfold compose. rewrite (summed_file_size_bundle tr bin Hsize).
      destruct Hbin as [Hle|(it & -> & Hbig)]; [now left|right].
      exists (snd it). split; [|split].
      * specialize (Hin [it] it (or_introl eq_refl) (or_introl eq_refl)).
        unfold packing_list in Hin. apply in_map_iff in Hin as (r & <- & Hr).
        exact Hr.
      * apply Forall_cons_iff in Hsize as [<- _]. exact Hbig.
      * reflexivity.
    + apply IH; auto. intros bin' it Hb Hi. eapply Hin; [right|]; eauto.
Qed.

Lemma picker_bundles_partition_records_witness :
  let self := Sample.picker 25000 in
  let tr := Sample.tr in
  let pages : list (list FileEntry) := [] in
  let last := [Sample.file "a"; Sample.file "b"; Sample.file "c"] in
  let R := [Sample.record "a" 700 []; Sample.record "b" 1200 [];
            Sample.record "c" 300 []] in
  let B := 1000 in
  let created := [["B-1"]; ["B-2"]] in
  let rest : list Response := [] in
  let s := Sample.start (map RFiles (pages ++ [last]) ++ map RRecord R
                           ++ map RBundles created ++ rest) in
  (Forall (fun page => len page = 9000) pages /\
   len last <> 9000 /\
   concat (pages ++ [last]) <> [] /\
   List.length R = List.length (concat (pages ++ [last])) /\
   Picker.sites self !! tr_dest tr = Some {| Picker.bundle_size := B |} /\
   Forall (fun bin => len bin <= Picker.max_file_count self)
     (Binpacking.to_constant_volume (packing_list R) B) /\
   List.length created = List.length (picker_bundles tr R B) /\
   Forall (fun us => us <> []) created) /\
  (run (Picker._do_work_transfer_request self tr) s =
   (Ok tt,
    st_after s rest (ticks s)
      (catalog_calls 9000 (Picker.query_dict (tr_source tr) (tr_path tr))
         (pages ++ [last])
       ++ fetch_calls (map fe_uuid (concat (pages ++ [last]))) (map RRecord R)
       ++ create_calls (picker_bundles tr R B) created))
   /\ Permutation (flat_map files_of (picker_bundles tr R B))
                  (map Picker.as_bundle_record R)
   /\ (exists entries,
         Permutation (flat_map files_of (picker_bundles tr R B)) entries /\
         Forall2 five_key_projection R entries)
   /\ Forall
        (fun bundle =>
           summed_file_size bundle <= B \/
           exists r, In r R /\ B < file_size r /\
                     files_of bundle = [Picker.as_bundle_record r])
        (picker_bundles tr R B)).
Proof.
  intros self tr pages last R B created rest s.
  assert (H1 : Forall (fun page : list FileEntry => len page = 9000) pages)
    by constructor.
  assert (H2 : len last <> 9000) by (vm_compute; discriminate).
  assert (H3 : concat (pages ++ [last]) <> []) by discriminate.
  assert (H4 : List.length R = List.length (concat (pages ++ [last])))
    by reflexivity.
  assert (H5 : Picker.sites self !! tr_dest tr
               = Some {| Picker.bundle_size := B |}) by reflexivity.
  assert (H6 : Forall (fun bin : list (Z * CatalogRecord) =>
                         len bin <= Picker.max_file_count self)
                 (Binpacking.to_constant_volume (packing_list R) B))
    by (repeat constructor; vm_compute; discriminate).
  assert (H7 : List.length created = List.length (picker_bundles tr R B))
    by reflexivity.
  assert (H8 : Forall (fun us : list string => us <> []) created)
    by (repeat constructor; discriminate).
  split; [repeat split; assumption|].
  exact (picker_bundles_partition_records self tr pages last R B created rest s
           H1 H2 H3 H4 H5 H6 H7 H8 eq_refl).
Defined.

End PickerBundles.

(** ** The file-count gate *)

Section PickerGate.

Variables (self : Picker.Config) (tr : TransferRequest).

Lemma first_over_limit (limit : Z) (bins : list (list (Z * CatalogRecord))) :
  Exists (fun bin => limit < len bin) bins ->
  exists pre bad post,
    bins = pre ++ bad :: post /\
    Forall (fun bin => len bin <= limit) pre /\ limit < len bad.
Proof.
  induction bins as [|bin bins IH]; intros Hex.
  - inversion Hex.
  - destruct (Z_lt_ge_dec limit (len bin)) as [Hlt|Hge].
    + exists [], bin, bins. repeat split; [constructor|assumption].
    + apply Exists_cons in Hex as [Hbin|Hex]; [lia|].
      destruct (IH Hex) as (pre & bad & post & -> & Hpre & Hbad).
      exists (bin :: pre), bad, post. repeat split; auto.
      constructor; [lia|assumption].
Qed.

Lemma picker_work_quarantines pages last R B rest s :
  Forall (fun page => len page = 9000) pages ->
  len last <> 9000 ->
  concat (pages ++ [last]) <> [] ->
  List.length R = List.length (concat (pages ++ [last])) ->
  Picker.sites self !! tr_dest tr = Some {| Picker.bundle_size := B |} ->
  Exists (fun bin => Picker.max_file_count self < len bin)
    (Binpacking.to_constant_volume (packing_list R) B) ->
  pending s = map RFiles (pages ++ [last]) ++ map RRecord R ++ rest ->
  exists bad,
    In bad (Binpacking.to_constant_volume (packing_list R) B) /\
    Picker.max_file_count self < len bad /\
    run (Picker._do_work_transfer_request self tr) s =
    (Ok tt,
     st_after s (snd (next_answer rest)) (S (ticks s))
       (catalog_calls 9000 (Picker.query_dict (tr_source tr) (tr_path tr))
          (pages ++ [last])
        ++ fetch_calls (map fe_uuid (concat (pages ++ [last]))) (map RRecord R)
        ++ quarantine_events "TransferRequest" (tr_uuid tr)
             (too_many_files (len bad) (Picker.max_file_count self))
             (PATCH_transfer_request (tr_uuid tr)
                (quarantine_body "picker"
                   (instance_uuid (Picker.component self))
                   (too_many_files (len bad) (Picker.max_file_count self))
                   (clock s (ticks s))))
             (fst (next_answer rest)))).
Proof.
  intros Hfull Hlast Hne HR Hsite Hgate Hs.
  destruct (first_over_limit _ _ Hgate) as (pre & bad & post & Hbins & Hpre & Hbad).
  exists bad. split; [rewrite Hbins; apply in_elt|]. split; [exact Hbad|].
  unfold Picker._do_work_transfer_request.
  rewrite (run_bind_ok _ _ _ _ _
             (page_catalog_run _ _ pages last _ s Hfull Hlast Hs)).
  destruct (concat (pages ++ [last])) as [|f fs] eqn:Hfiles; [congruence|].
  rewrite <- Hfiles in *. clear Hfiles f fs.
  erewrite (run_bind_ok (for_collect (concat _) _)); cycle 1.
  { apply (for_collect_calls (fun f => GET_file (fe_uuid f)) _ (map RRecord R)).
    - now rewrite length_map.
    - apply Forall_fmap, Forall_true. intros r. reflexivity.
    - reflexivity. }
  rewrite (run_bind_ok _ _ _ _ _ (for_collect_records _ _ R _)).
  rewrite Hsite. erewrite (run_bind_ok (ret _)) by reflexivity.
  cbn [Picker.bundle_size]. unfold packing_list in Hbins. rewrite Hbins.
  erewrite (run_bind_ok (for_return _ _)); cycle 1.
  { rewrite for_return_app.
    - cbn [for_return].
      rewrite (proj2 (Z.ltb_lt _ _) Hbad).
      erewrite (run_bind_ok (bind _ _)); cycle 1.
      { rewrite (run_bind_ok _ _ _ _ _ (picker_quarantine_run _ _ _ _)).
        reflexivity. }
      reflexivity.
    - eapply Forall_impl; [exact Hpre|]. intros bin Hbin s'. cbv beta in *.
      destruct (Z.ltb_spec (Picker.max_file_count self) (len bin)); [lia|].
      reflexivity. }
  rewrite !st_after_after. unfold fetch_calls. rewrite zip_with_fmap_l.
  reflexivity.
Qed.

End PickerGate.

Lemma filter_none {A : Type} (p : A -> bool) (l : list A) :
  Forall (fun x => p x = false) l -> List.filter p l = [].
Proof.
  induction 1 as [|x l Hx Hl IH]; [reflexivity|].
  simpl. now rewrite Hx.
Qed.

Lemma paging_calls_no (p : Event -> bool) limit query :
  (forall c r, (exists q k l st, c = GET_files q k l st) ->
               p (Called c r) = false) ->
  forall pages start,
    Forall (fun ev => p ev = false) (paging_calls limit query start pages).
Proof.
  intros Hp pages. induction pages as [|page pages IH]; intros start;
    simpl; constructor; eauto 10.
Qed.

Lemma catalog_calls_no (p : Event -> bool) limit query pages :
  (forall c r, (exists q k l st, c = GET_files q k l st) ->
               p (Called c r) = false) ->
  Forall (fun ev => p ev = false) (catalog_calls limit query pages).
Proof.
  intros Hp. destruct pages as [|page pages]; simpl; constructor; eauto 10.
  now apply paging_calls_no.
Qed.

Lemma fetch_calls_no (p : Event -> bool) uuids answers :
  (forall u r, p (Called (GET_file u) r) = false) ->
  Forall (fun ev => p ev = false) (fetch_calls uuids answers).
Proof.
  intros Hp. unfold fetch_calls. revert answers.
  induction uuids as [|u uuids IH]; intros [|r answers]; simpl;
    constructor; auto.
Qed.

Lemma quarantine_events_patch kind uuid cause patch r :
  is_patch (Called patch r) = true ->
  List.filter is_patch (quarantine_events kind uuid cause patch r)
  = [Called patch r].
Proof.
  intros Hp. unfold quarantine_events.
  destruct patch; try discriminate; destruct r; reflexivity.
Qed.

Lemma quarantine_events_no (p : Event -> bool) kind uuid cause patch r :
  (forall msg, p (LogError msg) = false) -> p (Called patch r) = false ->
  Forall (fun ev => p ev = false) (quarantine_events kind uuid cause patch r).
Proof.
  intros Hlog Hp. unfold quarantine_events.
  destruct r; repeat constructor; auto.
Qed.

Ltac no_such_event :=
  first
    [ apply catalog_calls_no; intros ? ? (?&?&?&?&->); reflexivity
    | apply fetch_calls_no; reflexivity
    | apply quarantine_events_no; reflexivity ].

(** C2: when the packing of the records of a claimed TransferRequest has
    a bin with more than [MAX_FILE_COUNT] files, the Picker sends nothing
    to [bulk_create] and PATCHes the TransferRequest once, into
    quarantine, with a cause that names the file count of such a bin and
    the configured limit. *)
Theorem picker_file_count_gate :
  forall (self : Picker.Config) (tr : TransferRequest)
         (pages : list (list FileEntry)) (last : list FileEntry)
         (R : list CatalogRecord) (B : Z) (rest : list Response) (s : State),
    Forall (fun page => len page = 9000) pages ->
    len last <> 9000 ->
    concat (pages ++ [last]) <> [] ->
    List.length R = List.length (concat (pages ++ [last])) ->
    Picker.sites self !! tr_dest tr = Some {| Picker.bundle_size := B |} ->
    Exists (fun bin => Picker.max_file_count self < len bin)
      (Binpacking.to_constant_volume (packing_list R) B) ->
    pending s =
      RTransferRequest (Some tr)
        :: map RFiles (pages ++ [last]) ++ map RRecord R ++ rest ->
    exists (bad : list (Z * CatalogRecord)) (evs : list Event),
      In bad (Binpacking.to_constant_volume (packing_list R) B) /\
      Picker.max_file_count self < len bad /\
      run (Picker._do_work_claim self) s =
      (Ok true,
       st_after s (snd (next_answer rest)) (S (ticks s))
         (picker_pop self (Some tr) :: evs)) /\
      List.filter is_bulk_create (picker_pop self (Some tr) :: evs) = [] /\
      List.filter is_patch (picker_pop self (Some tr) :: evs) =
      [ Called
          (PATCH_transfer_request (tr_uuid tr)
             (quarantine_body "picker" (instance_uuid (Picker.component self))
                (too_many_files (len bad) (Picker.max_file_count self))
                (clock s (ticks s))))
          (fst (next_answer rest)) ].
Proof.
  intros self tr pages last R B rest s Hfull Hlast Hne HR Hsite Hgate Hs.
  destruct (picker_work_quarantines self tr pages last R B rest
              (st_after s (map RFiles (pages ++ [last]) ++ map RRecord R ++ rest)
                 (ticks s) [picker_pop self (Some tr)])
              Hfull Hlast Hne HR Hsite Hgate eq_refl)
    as (bad & Hin & Hbad & Hrun).
  eexists bad, _. split; [exact Hin|]. split; [exact Hbad|]. split; [|split].
  - unfold Picker._do_work_claim.
    rewrite (run_bind_ok _ _ _ _ _ (run_call_ok _ _ _ _ Hs eq_refl)).
    erewrite (run_bind_ok (get_transfer_request _)) by reflexivity.
    cbv beta iota.
    rewrite run_try_except, (run_bind_ok _ _ _ _ _ Hrun).
    unfold ret, run. rewrite st_after_after. reflexivity.
  - cbn [List.filter is_bulk_create picker_pop].
    rewrite !List.filter_app.
    rewrite !filter_none by no_such_event. reflexivity.
  - cbn [List.filter is_patch picker_pop].
    rewrite !List.filter_app.
    rewrite !filter_none by no_such_event.
    rewrite quarantine_events_patch by reflexivity.
    reflexivity.
Qed.

Lemma picker_file_count_gate_witness :
  let self := Sample.picker 1 in
  let tr := Sample.tr in
  let pages : list (list FileEntry) := [] in
  let last := [Sample.file "a"; Sample.file "b"] in
  let R := [Sample.record "a" 300 []; Sample.record "b" 400 []] in
  let B := 1000 in
  let rest := [RNone; RNone] in
  let s := Sample.start (RTransferRequest (Some tr)
                           :: map RFiles (pages ++ [last]) ++ map RRecord R
                           ++ rest) in
  (Forall (fun page => len page = 9000) pages /\
   len last <> 9000 /\
   concat (pages ++ [last]) <> [] /\
   List.length R = List.length (concat (pages ++ [last])) /\
   Picker.sites self !! tr_dest tr = Some {| Picker.bundle_size := B |} /\
   Exists (fun bin => Picker.max_file_count self < len bin)
     (Binpacking.to_constant_volume (packing_list R) B)) /\
  exists (bad : list (Z * CatalogRecord)) (evs : list Event),
    In bad (Binpacking.to_constant_volume (packing_list R) B) /\
    Picker.max_file_count self < len bad /\
    run (Picker._do_work_claim self) s =
    (Ok true,
     st_after s (snd (next_answer rest)) (S (ticks s))
       (picker_pop self (Some tr) :: evs)) /\
    List.filter is_bulk_create (picker_pop self (Some tr) :: evs) = [] /\
    List.filter is_patch (picker_pop self (Some tr) :: evs) =
    [ Called
        (PATCH_transfer_request (tr_uuid tr)
           (quarantine_body "picker" (instance_uuid (Picker.component self))
              (too_many_files (len bad) (Picker.max_file_count self))
              (clock s (ticks s))))
        (fst (next_answer rest)) ].
Proof.
  intros self tr pages last R B rest s.
  assert (H1 : Forall (fun page : list FileEntry => len page = 9000) pages)
    by constructor.
  assert (H2 : len last <> 9000) by (vm_compute; discriminate).
  assert (H3 : concat (pages ++ [last]) <> []) by discriminate.
  assert (H4 : List.length R = List.length (concat (pages ++ [last])))
    by reflexivity.
  assert (H5 : Picker.sites self !! tr_dest tr
               = Some {| Picker.bundle_size := B |}) by reflexivity.
  assert (H6 : Exists (fun bin : list (Z * CatalogRecord) =>
                         Picker.max_file_count self < len bin)
                 (Binpacking.to_constant_volume (packing_list R) B))
    by (apply Exists_cons_hd; vm_compute; reflexivity).
  split; [repeat split; assumption|].
  exact (picker_file_count_gate self tr pages last R B rest s
           H1 H2 H3 H4 H5 H6 eq_refl).
Defined.

(** ** No files at all *)

(** C7: when the File Catalog answers the query of the Picker or of the
    Locator with no file at all, the worker quarantines the TransferRequest
    with the cause "File Catalog returned zero files for the
    TransferRequest"; it asks for no record and creates no bundle. *)
Theorem zero_files_quarantine :
  forall (picker : Picker.Config) (locator : Locator.Config)
         (tr : TransferRequest) (rest : list Response) (s : State),
    pending s = RFiles [] :: rest ->
    (exists evs,
       run (Picker._do_work_transfer_request picker tr) s =
       (Ok tt, st_after s (snd (next_answer rest)) (S (ticks s)) evs) /\
       evs =
       Called (GET_files (Picker.query_dict (tr_source tr) (tr_path tr))
                 (Some "uuid") 9000 0) (RFiles [])
       :: quarantine_events "TransferRequest" (tr_uuid tr)
            "File Catalog returned zero files for the TransferRequest"
            (PATCH_transfer_request (tr_uuid tr)
               (quarantine_body "picker"
                  (instance_uuid (Picker.component picker))
                  "File Catalog returned zero files for the TransferRequest"
                  (clock s (ticks s))))
            (fst (next_answer rest)) /\
       List.filter is_fetch evs = [] /\
       List.filter is_bulk_create evs = [])
    /\
    (exists evs,
       run (Locator._do_work_transfer_request locator tr) s =
       (Ok tt, st_after s (snd (next_answer rest)) (S (ticks s)) evs) /\
       evs =
       Called (GET_files (Locator.query_dict (tr_source tr) (tr_path tr))
                 (Some "uuid") 9000 0) (RFiles [])
       :: quarantine_events "TransferRequest" (tr_uuid tr)
            "File Catalog returned zero files for the TransferRequest"
            (PATCH_transfer_request (tr_uuid tr)
               (quarantine_body "locator"
                  (instance_uuid (Locator.component locator))
                  "File Catalog returned zero files for the TransferRequest"
                  (clock s (ticks s))))
            (fst (next_answer rest)) /\
       List.filter is_fetch evs = [] /\
       List.filter is_bulk_create evs = []).
Proof.
  intros picker locator tr rest s Hs.
  assert (Hshort : len (@nil FileEntry) <> 9000) by discriminate.
  split; eexists; (split; [|split; [reflexivity|]]).
  - unfold Picker._do_work_transfer_request.
    rewrite (run_bind_ok _ _ _ _ _
               (page_catalog_run _ _ [] [] rest s (List.Forall_nil _) Hshort Hs)).
    cbn [concat app]. rewrite picker_quarantine_run, st_after_after.
    reflexivity.
  - split; (cbn [List.filter is_fetch is_bulk_create];
            apply filter_none; no_such_event).
  - unfold Locator._do_work_transfer_request.
    rewrite (run_bind_ok _ _ _ _ _
               (page_catalog_run _ _ [] [] rest s (List.Forall_nil _) Hshort Hs)).
    cbn [concat app]. rewrite locator_quarantine_run, st_after_after.
    reflexivity.
  - split; (cbn [List.filter is_fetch is_bulk_create];
            apply filter_none; no_such_event).
Qed.

Lemma zero_files_quarantine_witness :
  let s := Sample.start [RFiles []; RNone] in
  let locator :=
    {| Locator.component := Sample.component; Locator.dest_site := "WIPAC" |} in
  fst (run (Picker._do_work_transfer_request (Sample.picker 25000) Sample.tr) s)
    = Ok tt /\
  fst (run (Locator._do_work_transfer_request locator Sample.tr) s) = Ok tt.
Proof.
  intros s locator.
  destruct (zero_files_quarantine (Sample.picker 25000) locator Sample.tr
              [RNone] s eq_refl) as [(evs1 & H1 & _) (evs2 & H2 & _)].
  rewrite H1, H2. split; reflexivity.
Defined.

(** ** The bundle uuids of the Locator *)

Section UniqueArchives.

Lemma split_item0 (c : ascii) (s : string) :
  item0 (split c s) = before_first c s.
Proof.
  induction s as [|a s IH]; [reflexivity|].
  simpl. destruct (Ascii.eqb a c); [reflexivity|].
  destruct (split c s) as [|p ps]; simpl in *; now rewrite <- IH.
Qed.

Lemma uuid_of_path_spec (path : string) :
  Locator.uuid_of_path path = archive_uuid path.
Proof.
  unfold Locator.uuid_of_path, archive_uuid. now rewrite !split_item0.
Qed.

Lemma at_source_archive_spec source location :
  Locator.at_source_archive source location = participates source location.
Proof.
  unfold Locator.at_source_archive, participates.
  destruct (loc_archive location) as [[| [|] | | | |]|]; reflexivity.
Qed.

Lemma filter_filter {A : Type} (p q : A -> bool) (l : list A) :
  List.filter p (List.filter q l) = List.filter (fun x => (q x && p x)%bool) l.
Proof.
  induction l as [|x l IH]; [reflexivity|].
  simpl. destruct (q x); simpl; [destruct (p x)|]; now rewrite IH.
Qed.

Lemma not_in_snoc (y x : string) (acc : list string) :
  Locator.not_in y (acc ++ [x]) =
  (negb (String.eqb x y) && Locator.not_in y acc)%bool.
Proof.
  unfold Locator.not_in. rewrite existsb_app. simpl.
  rewrite (String.eqb_sym y x).
  destruct (existsb (String.eqb y) acc), (String.eqb x y); reflexivity.
Qed.

Lemma not_in_member (y x : string) (acc : list string) :
  Locator.not_in x acc = false ->
  (negb (String.eqb x y) && Locator.not_in y acc)%bool = Locator.not_in y acc.
Proof.
  unfold Locator.not_in. intros Hx.
  destruct (String.eqb_spec x y) as [->|Hne]; simpl; [|reflexivity].
  now rewrite Hx.
Qed.

(** The loop that appends a uuid unless it is already there computes the
    first appearances. *)
Lemma collect_first_seen (uuid_of : string -> string) (paths : list string) :
  forall acc : list string,
    fold_left
      (fun bundle_uuids bundle_path =>
         let uuid := uuid_of bundle_path in
         if Locator.not_in uuid bundle_uuids then bundle_uuids ++ [uuid]
         else bundle_uuids)
      paths acc =
    acc ++ List.filter (fun y => Locator.not_in y acc)
             (first_seen (map uuid_of paths)).
Proof.
  induction paths as [|path paths IH]; intros acc; simpl.
  - now rewrite app_nil_r.
  - destruct (Locator.not_in (uuid_of path) acc) eqn:Hx.
    + rewrite IH, <- app_assoc. simpl. f_equal. f_equal.
      rewrite filter_filter. apply List.filter_ext. intros y.
      apply not_in_snoc.
    + rewrite IH. f_equal. rewrite filter_filter.
      apply List.filter_ext. intros y. symmetry. now apply not_in_member.
Qed.

Lemma get_unique_archives_spec records source :
  Locator._get_unique_archives records source =
  unique_archives_spec records source.
Proof.
  unfold Locator._get_unique_archives, unique_archives_spec.
  rewrite collect_first_seen. simpl.
  rewrite (List.filter_ext _ (fun _ => true)) by reflexivity.
  assert (Hall : forall l : list string, List.filter (fun _ => true) l = l).
  { induction l as [|x l IH]; simpl; congruence. }
  rewrite Hall, (map_ext _ _ uuid_of_path_spec).
  do 2 apply f_equal.
  unfold participating_paths. apply flat_map_ext. intros record.
  apply f_equal, List.filter_ext, at_source_archive_spec.
Qed.

Lemma first_seen_In (l : list string) (u : string) :
  In u (first_seen l) <-> In u l.
Proof.
  induction l as [|x l IH]; [reflexivity|].
  simpl. rewrite List.filter_In, IH.
  destruct (String.eqb_spec x u) as [->|Hne]; simpl; intuition congruence.
Qed.

Lemma first_seen_NoDup (l : list string) : List.NoDup (first_seen l).
Proof.
  induction l as [|x l IH]; simpl; constructor.
  - rewrite List.filter_In, String.eqb_refl. simpl. intuition discriminate.
  - now apply List.NoDup_filter.
Qed.

Lemma first_seen_filter (p : string -> bool) (l : list string) :
  List.filter p (first_seen l) = first_seen (List.filter p l).
Proof.
  induction l as [|x l IH]; [reflexivity|].
  simpl. destruct (p x) eqn:Hp; simpl.
  - f_equal. rewrite <- IH, !filter_filter.
    apply List.filter_ext. intros y. apply andb_comm.
  - rewrite <- IH, filter_filter. apply List.filter_ext. intros y.
    destruct (String.eqb_spec x y) as [<-|Hne]; simpl; [|reflexivity].
    now rewrite Hp.
Qed.

Lemma first_seen_again (x : string) (l1 l2 l3 : list string) :
  first_seen (l1 ++ x :: l2 ++ x :: l3) = first_seen (l1 ++ x :: l2 ++ l3).
Proof.
  induction l1 as [|y l1 IH]; simpl.
  - f_equal. rewrite !first_seen_filter. f_equal.
    rewrite !List.filter_app. simpl. now rewrite String.eqb_refl.
  - now rewrite IH.
Qed.

Lemma participating_paths_app records1 records2 source :
  participating_paths (records1 ++ records2) source =
  participating_paths records1 source ++ participating_paths records2 source.
Proof. apply flat_map_app. Qed.

Lemma unique_archives_repeated pre record post ls1 loc ls2 ls3 source :
  locations record = ls1 ++ loc :: ls2 ++ ls3 ->
  unique_archives_spec
    (pre ++ with_locations record (ls1 ++ loc :: ls2 ++ loc :: ls3) :: post)
    source =
  unique_archives_spec (pre ++ record :: post) source.
Proof.
  intros Hlocs. unfold unique_archives_spec, participating_paths.
  rewrite !flat_map_app. cbn [flat_map with_locations locations].
  rewrite Hlocs.
  rewrite !List.filter_app. cbn [List.filter]. rewrite !List.filter_app.
  cbn [List.filter].
  destruct (participates source loc); [|reflexivity].
  rewrite !map_app. cbn [map]. rewrite ?map_app. cbn [map].
  rewrite ?map_app.
  generalize (map archive_uuid
                (map loc_path (List.filter (participates source) ls1))) as A.
  generalize (map archive_uuid
                (map loc_path (List.filter (participates source) ls2))) as B.
  generalize (map archive_uuid
                (map loc_path (List.filter (participates source) ls3))) as C.
  generalize (archive_uuid (loc_path loc)) as x.
  match goal with
  | |- forall x C B A, first_seen (?P ++ _ ++ ?Q) = _ =>
      generalize P as P'; generalize Q as Q'
  end.
  intros Q' P' x C B A.
  replace (P' ++ (A ++ x :: B ++ x :: C) ++ Q')
    with ((P' ++ A) ++ x :: B ++ x :: (C ++ Q'))
    by (now rewrite <- !app_assoc; simpl; rewrite <- !app_assoc).
  replace (P' ++ (A ++ x :: B ++ C) ++ Q')
    with ((P' ++ A) ++ x :: B ++ (C ++ Q'))
    by (now rewrite <- !app_assoc; simpl; rewrite <- !app_assoc).
  apply first_seen_again.
Qed.

End UniqueArchives.

(** ** The Locator at work *)

Section LocatorRuns.

Variables (self : Locator.Config) (tr : TransferRequest).

Lemma for_collect_get_record (k : string) (R : list CatalogRecord) s :
  run (for_collect (map RRecord R) (get_record k)) s = (Ok R, s).
Proof.
  induction R as [|r R IH]; [reflexivity|].
  cbn [map for_collect].
  erewrite (run_bind_ok (get_record _ _)) by reflexivity.
  rewrite (run_bind_ok _ _ _ _ _ IH). reflexivity.
Qed.

Lemma locator_create_one (r : CatalogRecord) (l : LtaInfo) us rest s :
  lta r = Some l ->
  us <> [] -> pending s = RBundles us :: rest ->
  run (let! r := get_record "file_size" (RRecord r) in
       let! l := match lta r with
                 | Some l => ret l
                 | None => key_error "lta"
                 end in
       do! Locator._create_bundle self (Locator.bundle_of tr r l) in
       ret tt) s =
  (Ok tt,
   st_after s rest (ticks s) (create_calls [Locator.bundle_of tr r l] [us])).
Proof.
  intros Hl Hus Hs.
  erewrite (run_bind_ok (get_record _ _)) by reflexivity. cbv beta.
  rewrite Hl. erewrite (run_bind_ok (ret _)) by reflexivity.
  unfold Locator._create_bundle.
  destruct us as [|u us]; [congruence|].
  erewrite (run_bind_ok (bind _ _)); [reflexivity|].
  rewrite (run_bind_ok _ _ _ _ _ (run_call_ok _ _ _ _ Hs eq_refl)).
  reflexivity.
Qed.

Lemma locator_bundles_length (BR : list CatalogRecord) :
  Forall (fun r => lta r <> None) BR ->
  List.length (locator_bundles tr BR) = List.length BR.
Proof.
  induction 1 as [|r BR Hr HBR IH]; [reflexivity|].
  unfold locator_bundles in *. cbn [flat_map].
  destruct (lta r); [|congruence]. simpl. now rewrite IH.
Qed.

Lemma locator_bundles_located (BR : list CatalogRecord) :
  Forall (fun bundle => status_of bundle = Some (JStr "located"))
    (locator_bundles tr BR).
Proof.
  induction BR as [|r BR IH]; [constructor|].
  unfold locator_bundles in *. cbn [flat_map].
  destruct (lta r); [constructor; [reflexivity|]|]; exact IH.
Qed.

(** A request whose files, records and archive records all come back. *)
Lemma locator_work_creates pages last R BR created rest s :
  Forall (fun page => len page = 9000) pages ->
  len last <> 9000 ->
  concat (pages ++ [last]) <> [] ->
  List.length R = List.length (concat (pages ++ [last])) ->
  List.length BR =
    List.length (Locator._get_unique_archives R (tr_source tr)) ->
  Forall (fun r => lta r <> None) BR ->
  List.length created = List.length BR ->
  Forall (fun us => us <> []) created ->
  pending s =
    map RFiles (pages ++ [last]) ++ map RRecord R ++ map RRecord BR
      ++ map RBundles created ++ rest ->
  run (Locator._do_work_transfer_request self tr) s =
  (Ok tt,
   st_after s rest (ticks s)
     (catalog_calls 9000 (Locator.query_dict (tr_source tr) (tr_path tr))
        (pages ++ [last])
      ++ fetch_calls (map fe_uuid (concat (pages ++ [last]))) (map RRecord R)
      ++ fetch_calls (Locator._get_unique_archives R (tr_source tr))
           (map RRecord BR)
      ++ create_calls (locator_bundles tr BR) created)).
Proof.
  intros Hfull Hlast Hne HR HBR Hlta Hcreated Hus Hs.
  unfold Locator._do_work_transfer_request.
  rewrite (run_bind_ok _ _ _ _ _
             (page_catalog_run _ _ pages last _ s Hfull Hlast Hs)).
  destruct (concat (pages ++ [last])) as [|f fs] eqn:Hfiles; [congruence|].
  rewrite <- Hfiles in *. clear Hfiles f fs.
  erewrite (run_bind_ok (for_collect (concat _) _)); cycle 1.
  { apply (for_collect_calls (fun f => GET_file (fe_uuid f)) _ (map RRecord R)).
    - now rewrite length_map.
    - apply Forall_fmap, Forall_true. intros r. reflexivity.
    - reflexivity. }
  rewrite (run_bind_ok _ _ _ _ _ (for_collect_get_record _ R _)).
  erewrite (run_bind_ok (for_collect _ _)); cycle 1.
  { apply (for_collect_calls GET_file _ (map RRecord BR)).
    - now rewrite length_map.
    - apply Forall_fmap, Forall_true. intros r. reflexivity.
    - reflexivity. }
  rewrite (for_each_creates _ _ (locator_bundles tr BR))
    with (created := created) (rest := rest); auto.
  - rewrite !st_after_after. unfold fetch_calls.
    rewrite zip_with_fmap_l. reflexivity.
  - clear -Hlta. induction Hlta as [|r BR Hr HBR IH]; [constructor|].
    unfold locator_bundles in *. cbn [map flat_map].
    destruct (lta r) as [l|] eqn:Hl; [|congruence].
    constructor; [|exact IH].
    intros us rest' s'. now apply locator_create_one.
  - now rewrite length_map.
Qed.

End LocatorRuns.

Lemma create_calls_all (bundles : list JVal) (created : list (list string)) :
  List.filter is_bulk_create (create_calls bundles created)
  = create_calls bundles created.
Proof.
  unfold create_calls. revert created.
  induction bundles as [|b bundles IH]; intros [|us created]; simpl;
    try reflexivity.
  now rewrite IH.
Qed.

Lemma create_calls_length (bundles : list JVal) (created : list (list string)) :
  List.length created = List.length bundles ->
  List.length (create_calls bundles created) = List.length bundles.
Proof.
  unfold create_calls. revert created.
  induction bundles as [|b bundles IH]; intros [|us created] Hlen;
    simpl in *; try reflexivity; try discriminate.
  now rewrite IH by lia.
Qed.

(** C4: the bundle uuids that the Locator derives from catalog records
    are those of the specification: the paths of the participating
    locations (archive strictly true, site equal to the source), in record
    order and then location order, each cut at its first colon, reduced to
    its basename and cut at its first dot, each uuid kept once in the
    order of first appearance.  The list has no duplicate, holds exactly
    the uuids so derived, and does not change when a location entry is
    repeated.  When every request of the cycle is answered, the Locator
    sends as many bundles to [bulk_create], all with status "located", as
    the list has uuids. *)
Theorem locator_unique_archives :
  (forall records source,
      Locator._get_unique_archives records source =
      unique_archives_spec records source)
  /\ (forall records source,
         List.NoDup (Locator._get_unique_archives records source) /\
         forall u,
           In u (Locator._get_unique_archives records source) <->
           In u (map archive_uuid (participating_paths records source)))
  /\ (forall pre record post ls1 loc ls2 ls3 source,
         locations record = ls1 ++ loc :: ls2 ++ ls3 ->
         Locator._get_unique_archives
           (pre ++ with_locations record (ls1 ++ loc :: ls2 ++ loc :: ls3)
                :: post) source =
         Locator._get_unique_archives (pre ++ record :: post) source)
  /\ (forall (self : Locator.Config) (tr : TransferRequest)
             (pages : list (list FileEntry)) (last : list FileEntry)
             (R BR : list CatalogRecord) (created : list (list string))
             (rest : list Response) (s : State),
         Forall (fun page => len page = 9000) pages ->
         len last <> 9000 ->
         concat (pages ++ [last]) <> [] ->
         List.length R = List.length (concat (pages ++ [last])) ->
         List.length BR =
           List.length (Locator._get_unique_archives R (tr_source tr)) ->
         Forall (fun r => lta r <> None) BR ->
         List.length created = List.length BR ->
         Forall (fun us => us <> []) created ->
         pending s =
           map RFiles (pages ++ [last]) ++ map RRecord R ++ map RRecord BR
             ++ map RBundles created ++ rest ->
         exists evs,
           run (Locator._do_work_transfer_request self tr) s =
           (Ok tt, st_after s rest (ticks s) evs) /\
           List.filter is_bulk_create evs =
           create_calls (locator_bundles tr BR) created /\
           Forall (fun bundle => status_of bundle = Some (JStr "located"))
             (locator_bundles tr BR) /\
           List.length (List.filter is_bulk_create evs) =
           List.length (Locator._get_unique_archives R (tr_source tr))).
Proof.
  split; [exact get_unique_archives_spec|]. split; [|split].
  - intros records source. rewrite get_unique_archives_spec.
    split; [apply first_seen_NoDup|]. intros u. apply first_seen_In.
  - intros pre record post ls1 loc ls2 ls3 source Hlocs.
    rewrite !get_unique_archives_spec. now apply unique_archives_repeated.
  - intros self tr pages last R BR created rest s
           Hfull Hlast Hne HR HBR Hlta Hcreated Hus Hs.
    eexists. split.
    { exact (locator_work_creates self tr pages last R BR created rest s
               Hfull Hlast Hne HR HBR Hlta Hcreated Hus Hs). }
    assert (Hfilter :
      List.filter is_bulk_create
        (catalog_calls 9000 (Locator.query_dict (tr_source tr) (tr_path tr))
           (pages ++ [last])
         ++ fetch_calls (map fe_uuid (concat (pages ++ [last])))
              (map RRecord R)
         ++ fetch_calls (Locator._get_unique_archives R (tr_source tr))
              (map RRecord BR)
         ++ create_calls (locator_bundles tr BR) created)
      = create_calls (locator_bundles tr BR) created).
    { rewrite !List.filter_app, !filter_none by no_such_event.
      apply create_calls_all. }
    split; [exact Hfilter|]. split; [apply locator_bundles_located|].
    rewrite Hfilter, create_calls_length;
      rewrite locator_bundles_length by assumption; congruence.
Qed.

Lemma locator_unique_archives_witness :
  let tr := Sample.tr in
  let pages : list (list FileEntry) := [] in
  let last := [Sample.file "f1"; Sample.file "f2"; Sample.file "f3"] in
  let R := Sample.archived_records in
  let BR := [Sample.archive_record "DEADBEEF1234" 30;
             Sample.archive_record "CAFEBABE5678" 30] in
  let created := [["B-1"]; ["B-2"]] in
  let s := Sample.start (map RFiles (pages ++ [last]) ++ map RRecord R
                           ++ map RRecord BR ++ map RBundles created ++ []) in
  let loc := Sample.archived "WIPAC" "/a/b/DEADBEEF1234.zip:inner-1" in
  Locator._get_unique_archives R (tr_source tr)
    = ["DEADBEEF1234"; "CAFEBABE5678"] /\
  Locator._get_unique_archives
    ([] ++ with_locations (Sample.record "f1" 10 [loc])
             ([] ++ loc :: [] ++ loc :: []) :: [])
    "WIPAC" =
  Locator._get_unique_archives ([] ++ Sample.record "f1" 10 [loc] :: [])
    "WIPAC" /\
  exists evs,
    run (Locator._do_work_transfer_request Sample.locator tr) s =
    (Ok tt, st_after s [] (ticks s) evs) /\
    List.filter is_bulk_create evs =
    create_calls (locator_bundles tr BR) created /\
    Forall (fun bundle => status_of bundle = Some (JStr "located"))
      (locator_bundles tr BR) /\
    List.length (List.filter is_bulk_create evs) =
    List.length (Locator._get_unique_archives R (tr_source tr)).
Proof.
  intros tr pages last R BR created s loc.
  split; [reflexivity|]. split.
  - exact (proj1 (proj2 (proj2 locator_unique_archives))
             [] (Sample.record "f1" 10 [loc]) [] [] loc [] [] "WIPAC" eq_refl).
  - assert (H1 : Forall (fun page : list FileEntry => len page = 9000) pages)
      by constructor.
    assert (H2 : len last <> 9000) by (vm_compute; discriminate).
    assert (H3 : concat (pages ++ [last]) <> []) by discriminate.
    assert (H4 : List.length R = List.length (concat (pages ++ [last])))
      by reflexivity.
    assert (H5 : List.length BR =
                 List.length (Locator._get_unique_archives R (tr_source tr)))
      by reflexivity.
    assert (H6 : Forall (fun r => lta r <> None) BR)
      by (repeat constructor; discriminate).
    assert (H7 : List.length created = List.length BR) by reflexivity.
    assert (H8 : Forall (fun us : list string => us <> []) created)
      by (repeat constructor; discriminate).
    exact (proj2 (proj2 (proj2 locator_unique_archives))
             Sample.locator tr pages last R BR created [] s
             H1 H2 H3 H4 H5 H6 H7 H8 eq_refl).
Defined.

(** ** The RucioStager at work *)

Section StagerRuns.

Variables (self : RucioStager.Config) (bundle : Bundle).

Lemma add_sizes_run (disk_files : list string) :
  forall (sizes : list Z) (size : Z) rest s,
    List.length sizes = List.length disk_files ->
    pending s = map RSize sizes ++ rest ->
    run (RucioStager.add_sizes disk_files size) s =
    (Ok (size + sum_sizes sizes),
     st_after s rest (ticks s)
       (zip_with (fun f n => Called (OS_getsize f) (RSize n)) disk_files sizes)).
Proof.
  induction disk_files as [|f disk_files IH]; intros sizes size rest s Hlen Hs.
  - destruct sizes; [|discriminate]. simpl in Hs. subst rest.
    simpl. unfold run, ret. rewrite st_after_same. do 2 f_equal. lia.
  - destruct sizes as [|n sizes]; [discriminate|]. simpl in Hs, Hlen.
    cbn [RucioStager.add_sizes].
    rewrite (run_bind_ok _ _ _ _ _ (run_call_ok _ _ _ _ Hs eq_refl)).
    erewrite (run_bind_ok (RucioStager.get_size _)) by reflexivity.
    rewrite (IH sizes (size + n) rest
               (st_after s (map RSize sizes ++ rest) (ticks s) _)
               ltac:(lia) eq_refl).
    rewrite st_after_after. simpl. do 2 f_equal. lia.
Qed.

Lemma get_files_and_size_run path tree sizes rest s :
  List.length sizes = List.length (disk_files_of tree) ->
  pending s = RWalk tree :: map RSize sizes ++ rest ->
  run (RucioStager._get_files_and_size path) s =
  (Ok (disk_files_of tree, sum_sizes sizes),
   st_after s rest (ticks s) (measure_calls path tree sizes)).
Proof.
  intros Hlen Hs. unfold RucioStager._get_files_and_size.
  erewrite (run_bind_ok (RucioStager._enumerate_path _)); cycle 1.
  { unfold RucioStager._enumerate_path.
    rewrite (run_bind_ok _ _ _ _ _ (run_call_ok _ _ _ _ Hs eq_refl)).
    reflexivity. }
  fold (disk_files_of tree).
  rewrite (run_bind_ok _ _ _ _ _
             (add_sizes_run _ sizes 0 rest
                (st_after s (map RSize sizes ++ rest) (ticks s) _)
                Hlen eq_refl)).
  rewrite st_after_after. reflexivity.
Qed.

(** Over the quota: the bundle is given back. *)
Lemma stage_bundle_unclaims tree sizes answer rest s :
  List.length sizes = List.length (disk_files_of tree) ->
  RucioStager.dest_quota self < sum_sizes sizes + b_size bundle ->
  is_fail answer = false ->
  pending s = RWalk tree :: map RSize sizes ++ answer :: rest ->
  run (RucioStager._stage_bundle self bundle) s =
  (Ok false,
   st_after s rest (S (ticks s))
     (measure_calls (RucioStager.rucio_inbox_path self) tree sizes
      ++ [Called (PATCH_bundle (b_uuid bundle)
                    (unclaim_body (clock s (ticks s)))) answer])).
Proof.
  intros Hlen Hover Hanswer Hs. unfold RucioStager._stage_bundle.
  rewrite (run_bind_ok _ _ _ _ _
             (get_files_and_size_run _ tree sizes _ s Hlen Hs)).
  cbn [snd]. rewrite (proj2 (Z.ltb_lt _ _) Hover).
  unfold RucioStager._unclaim_bundle.
  erewrite (run_bind_ok (bind _ _)); [reflexivity|].
  rewrite (run_bind_ok _ _ _ _ _ (run_now _)).
  erewrite (run_bind_ok (call _)); cycle 1.
  { apply run_call_ok; [reflexivity|exact Hanswer]. }
  unfold ret, run. rewrite !st_after_after. reflexivity.
Qed.

(** Within the quota, up to the move of the file. *)
Lemma stage_bundle_moves tree sizes rest s :
  List.length sizes = List.length (disk_files_of tree) ->
  sum_sizes sizes + b_size bundle <= RucioStager.dest_quota self ->
  pending s = RWalk tree :: map RSize sizes ++ rest ->
  run (RucioStager._stage_bundle self bundle) s =
  run (let bundle_name := basename (b_bundle_path bundle) in
       let src_path :=
         path_join (RucioStager.bundler_outbox_path self) bundle_name in
       let dst_path :=
         path_join (RucioStager.rucio_inbox_path self) bundle_name in
       do! call (SHUTIL_move src_path dst_path) in
       let! timestamp := now in
       do! call (PATCH_bundle (b_uuid bundle)
                   (staged_body dst_path timestamp)) in
       ret true)
    (st_after s rest (ticks s)
       (measure_calls (RucioStager.rucio_inbox_path self) tree sizes)).
Proof.
  intros Hlen Hfits Hs. unfold RucioStager._stage_bundle.
  rewrite (run_bind_ok _ _ _ _ _
             (get_files_and_size_run _ tree sizes _ s Hlen Hs)).
  cbn [snd]. rewrite (proj2 (Z.ltb_ge _ _) Hfits). reflexivity.
Qed.

End StagerRuns.

Lemma measure_calls_no (p : Event -> bool) path tree sizes :
  (forall q r, p (Called (OS_walk q) r) = false) ->
  (forall f r, p (Called (OS_getsize f) r) = false) ->
  Forall (fun ev => p ev = false) (measure_calls path tree sizes).
Proof.
  intros Hwalk Hsize. unfold measure_calls. constructor; [apply Hwalk|].
  generalize (disk_files_of tree) as fs. intros fs. revert sizes.
  induction fs as [|f fs IH]; intros [|n sizes]; simpl; constructor; auto.
Qed.

(** C3: when the measured size of the Rucio inbox plus the size of the
    claimed bundle exceeds [DEST_QUOTA], the RucioStager moves no file and
    sends one PATCH of the bundle, whose body has exactly the keys
    [claimed] (false), [update_timestamp] and [work_priority_timestamp]: no
    [status], no quarantine.  The claim handler returns false. *)
Theorem stager_over_quota_unclaims :
  forall (self : RucioStager.Config) (bundle : Bundle)
         (tree : list (string * list string * list string))
         (sizes : list Z) (answer : Response) (rest : list Response)
         (s : State),
    List.length sizes = List.length (disk_files_of tree) ->
    RucioStager.dest_quota self < sum_sizes sizes + b_size bundle ->
    is_fail answer = false ->
    pending s =
      RBundle (Some bundle) :: RWalk tree :: map RSize sizes
        ++ answer :: rest ->
    let body := unclaim_body (clock s (ticks s)) in
    exists evs,
      run (RucioStager._do_work_claim self) s =
      (Ok false, st_after s rest (S (ticks s)) evs) /\
      List.filter is_move evs = [] /\
      List.filter is_patch evs = [Called (PATCH_bundle (b_uuid bundle) body) answer] /\
      body_keys body = ["claimed"; "update_timestamp"; "work_priority_timestamp"] /\
      body = JObj [ ("claimed", JBool false);
                    ("update_timestamp", JStr (clock s (ticks s)));
                    ("work_priority_timestamp", JStr (clock s (ticks s))) ].
Proof.
  intros self bundle tree sizes answer rest s Hlen Hover Hanswer Hs body.
  exists (stager_pop self (Some bundle)
          :: measure_calls (RucioStager.rucio_inbox_path self) tree sizes
          ++ [Called (PATCH_bundle (b_uuid bundle) body) answer]).
  split; [|split; [|split; [|split; reflexivity]]].
  - unfold RucioStager._do_work_claim.
    rewrite (run_bind_ok _ _ _ _ _ (run_call_ok _ _ _ _ Hs eq_refl)).
    erewrite (run_bind_ok (get_bundle _)) by reflexivity. cbv beta iota.
    erewrite (run_bind_ok (try_except _ _)); cycle 1.
    { rewrite run_try_except.
      rewrite (run_bind_ok _ _ _ _ _
                 (stage_bundle_unclaims self bundle tree sizes answer rest
                    (st_after s _ (ticks s) _) Hlen Hover Hanswer eq_refl)).
      reflexivity. }
    unfold ret, run. rewrite st_after_after. reflexivity.
  - cbn [List.filter is_move stager_pop]. rewrite List.filter_app.
    rewrite filter_none by (apply measure_calls_no; reflexivity).
    reflexivity.
  - cbn [List.filter is_patch stager_pop]. rewrite List.filter_app.
    rewrite filter_none by (apply measure_calls_no; reflexivity).
    reflexivity.
Qed.

Lemma stager_over_quota_unclaims_witness :
  let self := Sample.stager 1000 in
  let s := Sample.start (RBundle (Some Sample.bundle) :: RWalk Sample.inbox
                           :: map RSize [800] ++ RNone :: []) in
  let body := unclaim_body (clock s (ticks s)) in
  (RucioStager.dest_quota self < sum_sizes [800] + b_size Sample.bundle) /\
  exists evs,
    run (RucioStager._do_work_claim self) s =
    (Ok false, st_after s [] (S (ticks s)) evs) /\
    List.filter is_move evs = [] /\
    List.filter is_patch evs =
      [Called (PATCH_bundle (b_uuid Sample.bundle) body) RNone] /\
    body_keys body = ["claimed"; "update_timestamp"; "work_priority_timestamp"] /\
    body = JObj [ ("claimed", JBool false);
                  ("update_timestamp", JStr (clock s (ticks s)));
                  ("work_priority_timestamp", JStr (clock s (ticks s))) ].
Proof.
  intros self s body.
  assert (H1 : RucioStager.dest_quota self
               < sum_sizes [800] + b_size Sample.bundle)
    by (vm_compute; reflexivity).
  split; [exact H1|].
  exact (stager_over_quota_unclaims self Sample.bundle Sample.inbox [800]
           RNone [] s eq_refl H1 eq_refl eq_refl).
Defined.

(** ** Staging a bundle *)

Section Basename.

Lemma rfind_lower (c : ascii) (s : string) : -1 <= rfind c s.
Proof.
  induction s as [|a s IH]; simpl; [lia|].
  destruct (Z.leb_spec 0 (rfind c s)); [lia|].
  destruct (Ascii.eqb a c); lia.
Qed.

Lemma rfind_tail (c : ascii) (s : string) :
  has_char c (drop (Z.to_nat (rfind c s + 1)) s) = false.
Proof.
  induction s as [|a s IH]; [reflexivity|].
  pose proof (rfind_lower c s) as Hlow. simpl rfind.
  destruct (Z.leb_spec 0 (rfind c s)) as [Hfound|Hnone].
  - replace (Z.to_nat (rfind c s + 1 + 1))
      with (S (Z.to_nat (rfind c s + 1))) by lia.
    exact IH.
  - replace (rfind c s) with (-1) in IH by lia. simpl in IH.
    destruct (Ascii.eqb a c) eqn:Ha; simpl; [exact IH|].
    now rewrite Ha.
Qed.

Lemma basename_no_slash (p : string) : has_char "/"%char (basename p) = false.
Proof. apply rfind_tail. Qed.

Lemma path_join_basename (dir p : string) :
  dir <> EmptyString -> endswith_char "/"%char dir = false ->
  path_join dir (basename p) = (dir ++ "/" ++ basename p)%string.
Proof.
  intros Hdir Hend. unfold path_join.
  pose proof (basename_no_slash p) as Hbase.
  destruct (basename p) as [|a b]; simpl in *.
  - rewrite Hend. destruct dir; [congruence|reflexivity].
  - apply orb_false_iff in Hbase as [-> _]. rewrite Hend.
    destruct dir; [congruence|reflexivity].
Qed.

End Basename.

(** C6: when the inbox plus the claimed bundle stays within the quota,
    the RucioStager moves the bundle file, named by the basename of
    [bundle_path], from the outbox to the inbox, and then sends one PATCH
    of the bundle with the new [bundle_path], [claimed] false, [status]
    "staged", an empty [reason] and a fresh [update_timestamp].  When the
    move raises, the bundle is quarantined with the exception as the cause
    and the exception is raised again.  The two paths of the move are the
    directory, a slash and the basename whenever the directory is not
    empty and does not itself end with a slash. *)
Theorem stager_stages_bundle :
  forall (self : RucioStager.Config) (bundle : Bundle)
         (tree : list (string * list string * list string))
         (sizes : list Z) (rest : list Response) (s : State),
    List.length sizes = List.length (disk_files_of tree) ->
    sum_sizes sizes + b_size bundle <= RucioStager.dest_quota self ->
    let bundle_name := basename (b_bundle_path bundle) in
    let src_path := path_join (RucioStager.bundler_outbox_path self) bundle_name in
    let dst_path := path_join (RucioStager.rucio_inbox_path self) bundle_name in
    let measured :=
      stager_pop self (Some bundle)
        :: measure_calls (RucioStager.rucio_inbox_path self) tree sizes in
    (forall moved patched,
        is_fail moved = false -> is_fail patched = false ->
        pending s =
          RBundle (Some bundle) :: RWalk tree :: map RSize sizes
            ++ moved :: patched :: rest ->
        exists evs,
          run (RucioStager._do_work_claim self) s =
          (Ok false, st_after s rest (S (ticks s)) evs) /\
          evs = measured
                ++ [ Called (SHUTIL_move src_path dst_path) moved;
                     Called (PATCH_bundle (b_uuid bundle)
                               (staged_body dst_path (clock s (ticks s))))
                       patched ] /\
          List.filter is_patch evs =
          [ Called (PATCH_bundle (b_uuid bundle)
                      (JObj [ ("bundle_path", JStr dst_path);
                              ("claimed", JBool false);
                              ("status", JStr "staged");
                              ("reason", JStr "");
                              ("update_timestamp", JStr (clock s (ticks s))) ]))
              patched ])
    /\
    (forall e,
        pending s =
          RBundle (Some bundle) :: RWalk tree :: map RSize sizes
            ++ RFail e :: rest ->
        run (RucioStager._do_work_claim self) s =
        (Raise e,
         st_after s (snd (next_answer rest)) (S (ticks s))
           (measured
            ++ Called (SHUTIL_move src_path dst_path) (RFail e)
            :: quarantine_events "Bundle" (b_uuid bundle) (exc_str e)
                 (PATCH_bundle (b_uuid bundle)
                    (quarantine_body "rucio_stager"
                       (instance_uuid (RucioStager.component self))
                       (exc_str e) (clock s (ticks s))))
                 (fst (next_answer rest)))))
    /\
    (RucioStager.bundler_outbox_path self <> EmptyString ->
     endswith_char "/"%char (RucioStager.bundler_outbox_path self) = false ->
     src_path =
     (RucioStager.bundler_outbox_path self ++ "/" ++ bundle_name)%string)
    /\
    (RucioStager.rucio_inbox_path self <> EmptyString ->
     endswith_char "/"%char (RucioStager.rucio_inbox_path self) = false ->
     dst_path =
     (RucioStager.rucio_inbox_path self ++ "/" ++ bundle_name)%string).
Proof.
  intros self bundle tree sizes rest s Hlen Hfits
         bundle_name src_path dst_path measured.
  split; [|split; [|split; apply path_join_basename]].
  - intros moved patched Hmoved Hpatched Hs.
    eexists. split; [|split; [reflexivity|]].
    + unfold RucioStager._do_work_claim.
      rewrite (run_bind_ok _ _ _ _ _ (run_call_ok _ _ _ _ Hs eq_refl)).
      erewrite (run_bind_ok (get_bundle _)) by reflexivity. cbv beta iota.
      erewrite (run_bind_ok (try_except _ _)); cycle 1.
      { rewrite run_try_except.
        erewrite (run_bind_ok (RucioStager._stage_bundle _ _)); cycle 1.
        { rewrite (stage_bundle_moves self bundle tree sizes
                     (moved :: patched :: rest) (st_after s _ (ticks s) _)
                     Hlen Hfits eq_refl).
          cbv zeta.
          erewrite (run_bind_ok (call _)); cycle 1.
          { apply run_call_ok; [reflexivity|exact Hmoved]. }
          rewrite (run_bind_ok _ _ _ _ _ (run_now _)).
          erewrite (run_bind_ok (call _)); cycle 1.
          { apply run_call_ok; [reflexivity|exact Hpatched]. }
          reflexivity. }
        reflexivity. }
      unfold ret, run. rewrite !st_after_after. reflexivity.
    + unfold measured. cbn [List.filter is_patch stager_pop app].
      rewrite List.filter_app.
      rewrite filter_none by (apply measure_calls_no; reflexivity).
      reflexivity.
  - intros e Hs.
    unfold RucioStager._do_work_claim.
    rewrite (run_bind_ok _ _ _ _ _ (run_call_ok _ _ _ _ Hs eq_refl)).
    erewrite (run_bind_ok (get_bundle _)) by reflexivity. cbv beta iota.
    erewrite (run_bind_raise (try_except _ _)); [reflexivity|].
    rewrite run_try_except.
    erewrite (run_bind_raise (RucioStager._stage_bundle _ _)); cycle 1.
    { rewrite (stage_bundle_moves self bundle tree sizes
                 (RFail e :: rest) (st_after s _ (ticks s) _)
                 Hlen Hfits eq_refl).
      cbv zeta.
      erewrite (run_bind_raise (call _)); [reflexivity|].
      apply run_call_fail. reflexivity. }
    rewrite (run_bind_ok _ _ _ _ _ (stager_quarantine_run _ _ _ _)).
    unfold raise, run. rewrite !st_after_after.
    cbn [pending ticks clock st_after]. unfold measured.
    reflexivity.
Qed.

Lemma stager_stages_bundle_witness :
  let self := Sample.stager 2000 in
  let boom := {| exc_type := "OSError"; exc_str := "disk full" |} in
  let staged :=
    Sample.start (RBundle (Some Sample.bundle) :: RWalk Sample.inbox
                    :: map RSize [800] ++ RNone :: RNone :: []) in
  let failed :=
    Sample.start (RBundle (Some Sample.bundle) :: RWalk Sample.inbox
                    :: map RSize [800] ++ RFail boom :: []) in
  sum_sizes [800] + b_size Sample.bundle <= RucioStager.dest_quota self /\
  (exists evs,
      run (RucioStager._do_work_claim self) staged =
      (Ok false, st_after staged [] 1%nat evs) /\
      List.filter is_move evs =
      [ Called (SHUTIL_move "/data/bundler/outbox/B-7.zip"
                  "/data/rucio/inbox/B-7.zip") RNone ]) /\
  fst (run (RucioStager._do_work_claim self) failed) = Raise boom.
Proof.
  intros self boom staged failed.
  assert (H1 : sum_sizes [800] + b_size Sample.bundle
               <= RucioStager.dest_quota self)
    by (vm_compute; discriminate).
  split; [exact H1|]. split.
  - destruct (proj1 (stager_stages_bundle self Sample.bundle Sample.inbox [800]
                       [] staged eq_refl H1)
                RNone RNone eq_refl eq_refl eq_refl)
      as (evs & Hrun & Hevs & _).
    exists evs. split; [exact Hrun|]. rewrite Hevs. reflexivity.
  - rewrite (proj1 (proj2 (stager_stages_bundle self Sample.bundle Sample.inbox
                             [800] [] failed eq_refl H1))
               boom eq_refl).
    reflexivity.
Defined.

(** ** What holds of every run *)

Section Emits.

Context {P : Event -> Prop}.

Lemma emits_ret {A : Type} (a : A) : emits P (ret a).
Proof. intros s. exists []. simpl. now rewrite app_nil_r. Qed.

Lemma emits_raise {A : Type} (e : Exc) : emits P (@raise A e).
Proof. intros s. exists []. simpl. now rewrite app_nil_r. Qed.

Lemma emits_bind {A B : Type} (c : M A) (k : A -> M B) :
  emits P c -> (forall a, emits P (k a)) -> emits P (bind c k).
Proof.
  intros Hc Hk s. destruct (Hc s) as (evs1 & Ht1 & HP1).
  rewrite run_bind. destruct (run c s) as [[a|e|] s1]; simpl in *.
  - destruct (Hk a s1) as (evs2 & Ht2 & HP2).
    exists (evs1 ++ evs2). rewrite Ht2, Ht1, <- app_assoc.
    split; [reflexivity|]. apply Forall_app; auto.
  - eauto.
  - eauto.
Qed.

Lemma emits_try_except {A : Type} (c : M A) (h : Exc -> M A) :
  emits P c -> (forall e, emits P (h e)) -> emits P (try_except c h).
Proof.
  intros Hc Hh s. destruct (Hc s) as (evs1 & Ht1 & HP1).
  rewrite run_try_except. destruct (run c s) as [[a|e|] s1]; simpl in *.
  - eauto.
  - destruct (Hh e s1) as (evs2 & Ht2 & HP2).
    exists (evs1 ++ evs2). rewrite Ht2, Ht1, <- app_assoc.
    split; [reflexivity|]. apply Forall_app; auto.
  - eauto.
Qed.

Lemma emits_call (c : Call) : (forall r, P (Called c r)) -> emits P (call c).
Proof.
  intros Hc s. rewrite run_call. eexists. split; [reflexivity|].
  constructor; [apply Hc|constructor].
Qed.

Lemma emits_now : emits P now.
Proof. intros s. exists []. simpl. now rewrite app_nil_r. Qed.

Lemma emits_emit (ev : Event) : P ev -> emits P (emit ev).
Proof.
  intros Hev s. exists [ev]. split; [reflexivity|]. now constructor.
Qed.

Lemma emits_for_each {A : Type} (l : list A) (body : A -> M unit) :
  (forall x, emits P (body x)) -> emits P (for_each l body).
Proof.
  intros Hbody. induction l as [|x l IH]; cbn [for_each].
  - apply emits_ret.
  - apply emits_bind; auto.
Qed.

Lemma emits_for_collect {A B : Type} (l : list A) (f : A -> M B) :
  (forall x, emits P (f x)) -> emits P (for_collect l f).
Proof.
  intros Hf. induction l as [|x l IH]; cbn [for_collect].
  - apply emits_ret.
  - apply emits_bind; [auto|]. intros y.
    apply emits_bind; [auto|]. intros ys. apply emits_ret.
Qed.

Lemma emits_for_return {A R : Type} (l : list A) (body : A -> M (option R)) :
  (forall x, emits P (body x)) -> emits P (for_return l body).
Proof.
  intros Hbody. induction l as [|x l IH]; cbn [for_return].
  - apply emits_ret.
  - apply emits_bind; [auto|]. intros [v|]; [apply emits_ret|exact IH].
Qed.

Lemma emits_while_fuel {A : Type} (cond : A -> bool) (body : A -> M A) :
  (forall a, emits P (body a)) ->
  forall fuel a, emits P (while_fuel fuel cond body a).
Proof.
  intros Hbody fuel.
  induction fuel as [|fuel IH]; intros a; cbn [while_fuel];
    destruct (cond a); try apply emits_ret.
  - intros s. exists []. simpl. now rewrite app_nil_r.
  - apply emits_bind; auto.
Qed.

Lemma emits_while_ {A : Type} (cond : A -> bool) (body : A -> M A) (a : A) :
  (forall a, emits P (body a)) -> emits P (while_ cond body a).
Proof.
  intros Hbody s. rewrite run_while_. now apply emits_while_fuel.
Qed.

End Emits.

Section Halts.

Lemma halts_ret {A : Type} (a : A) : halts (ret a).
Proof. intros s. discriminate. Qed.

Lemma halts_raise {A : Type} (e : Exc) : halts (@raise A e).
Proof. intros s. discriminate. Qed.

Lemma halts_bind {A B : Type} (c : M A) (k : A -> M B) :
  halts c -> (forall a, halts (k a)) -> halts (bind c k).
Proof.
  intros Hc Hk s. specialize (Hc s). rewrite run_bind.
  destruct (run c s) as [[a|e|] s1]; simpl in *;
    [apply Hk|discriminate|congruence].
Qed.

Lemma halts_try_except {A : Type} (c : M A) (h : Exc -> M A) :
  halts c -> (forall e, halts (h e)) -> halts (try_except c h).
Proof.
  intros Hc Hh s. specialize (Hc s). rewrite run_try_except.
  destruct (run c s) as [[a|e|] s1]; simpl in *;
    [discriminate|apply Hh|congruence].
Qed.

Lemma halts_call (c : Call) : halts (call c).
Proof.
  intros s. rewrite run_call. simpl.
  destruct (fst (next_answer (pending s))); discriminate.
Qed.

Lemma halts_now : halts now.
Proof. intros s. discriminate. Qed.

Lemma halts_emit (ev : Event) : halts (emit ev).
Proof. intros s. discriminate. Qed.

End Halts.

Section Spends.

Lemma spends_one_spends {A : Type} (c : M A) : spends_one c -> spends c.
Proof.
  intros Hc s. specialize (Hc s).
  destruct (run c s) as [[a|e|] s1]; [lia|exact Hc|exact Hc].
Qed.

Lemma spends_halts {A : Type} (c : M A) : spends c -> halts c.
Proof.
  intros Hc s. specialize (Hc s).
  destruct (run c s) as [[a|e|] s1]; simpl; [discriminate|discriminate|].
  contradiction.
Qed.

Lemma spends_ret {A : Type} (a : A) : spends (ret a).
Proof. intros s. simpl. lia. Qed.

Lemma spends_raise {A : Type} (e : Exc) : spends (@raise A e).
Proof. intros s. simpl. lia. Qed.

Lemma spends_now : spends now.
Proof. intros s. simpl. lia. Qed.

Lemma spends_emit (ev : Event) : spends (emit ev).
Proof. intros s. simpl. lia. Qed.

Lemma spends_one_call (c : Call) : spends_one (call c).
Proof.
  intros s. rewrite run_call.
  destruct (pending s) as [|r rest]; simpl; [lia|].
  destruct r; simpl; lia.
Qed.

Lemma spends_bind {A B : Type} (c : M A) (k : A -> M B) :
  spends c -> (forall a, spends (k a)) -> spends (bind c k).
Proof.
  intros Hc Hk s. specialize (Hc s). rewrite run_bind.
  destruct (run c s) as [[a|e|] s1]; [|exact Hc|exact Hc].
  specialize (Hk a s1). destruct (run (k a) s1) as [[b|e|] s2];
    [lia|lia|exact Hk].
Qed.

Lemma spends_one_bind {A B : Type} (c : M A) (k : A -> M B) :
  spends_one c -> (forall a, spends (k a)) -> spends_one (bind c k).
Proof.
  intros Hc Hk s. specialize (Hc s). rewrite run_bind.
  destruct (run c s) as [[a|e|] s1]; [|exact Hc|exact Hc].
  specialize (Hk a s1). destruct (run (k a) s1) as [[b|e|] s2];
    [lia|lia|exact Hk].
Qed.

Lemma spends_try_except {A : Type} (c : M A) (h : Exc -> M A) :
  spends c -> (forall e, spends (h e)) -> spends (try_except c h).
Proof.
  intros Hc Hh s. specialize (Hc s). rewrite run_try_except.
  destruct (run c s) as [[a|e|] s1]; [exact Hc| |exact Hc].
  specialize (Hh e s1). destruct (run (h e) s1) as [[b|e'|] s2];
    [lia|lia|exact Hh].
Qed.

Lemma spends_for_each {A : Type} (l : list A) (body : A -> M unit) :
  (forall x, spends (body x)) -> spends (for_each l body).
Proof.
  intros Hbody. induction l as [|x l IH]; cbn [for_each].
  - apply spends_ret.
  - apply spends_bind; auto.
Qed.

Lemma spends_for_collect {A B : Type} (l : list A) (f : A -> M B) :
  (forall x, spends (f x)) -> spends (for_collect l f).
Proof.
  intros Hf. induction l as [|x l IH]; cbn [for_collect].
  - apply spends_ret.
  - apply spends_bind; [auto|]. intros y.
    apply spends_bind; [auto|]. intros ys. apply spends_ret.
Qed.

Lemma spends_for_return {A R : Type} (l : list A) (body : A -> M (option R)) :
  (forall x, spends (body x)) -> spends (for_return l body).
Proof.
  intros Hbody. induction l as [|x l IH]; cbn [for_return].
  - apply spends_ret.
  - apply spends_bind; [auto|]. intros [v|]; [apply spends_ret|exact IH].
Qed.

(** A loop whose every round uses up an answer ends before its bound. *)
Lemma spends_while_fuel {A : Type} (cond : A -> bool) (body : A -> M A) :
  (forall a, spends_one (body a)) ->
  forall fuel a s,
    (List.length (pending s) < fuel)%nat ->
    match run (while_fuel fuel cond body a) s with
    | (Diverge, _) => False
    | (_, s') => (List.length (pending s') <= List.length (pending s))%nat
    end.
Proof.
  intros Hbody fuel.
  induction fuel as [|fuel IH]; intros a s Hfuel; [lia|].
  cbn [while_fuel]. destruct (cond a); [|simpl; lia].
  rewrite run_bind. specialize (Hbody a s).
  destruct (run (body a) s) as [[a'|e|] s1]; [|exact Hbody|exact Hbody].
  specialize (IH a' s1 ltac:(lia)).
  destruct (run (while_fuel fuel cond body a') s1) as [[b|e|] s2];
    [lia|lia|exact IH].
Qed.

Lemma spends_while_ {A : Type} (cond : A -> bool) (body : A -> M A) (a : A) :
  (forall a, spends_one (body a)) -> spends (while_ cond body a).
Proof.
  intros Hbody s. rewrite run_while_.
  apply spends_while_fuel; [exact Hbody|lia].
Qed.

End Spends.

(** One step through the code of a worker, for [emits] and for [halts]. *)
Ltac through :=
  match goal with
  | |- emits _ (bind _ _) => apply emits_bind; [|intros ?]
  | |- emits _ (ret _) => apply emits_ret
  | |- emits _ (raise _) => apply emits_raise
  | |- emits _ (call _) => apply emits_call; intros ?
  | |- emits _ now => apply emits_now
  | |- emits _ (emit _) => apply emits_emit
  | |- emits _ (try_except _ _) => apply emits_try_except; [|intros ?]
  | |- emits _ (for_each _ _) => apply emits_for_each; intros ?
  | |- emits _ (for_collect _ _) => apply emits_for_collect; intros ?
  | |- emits _ (for_return _ _) => apply emits_for_return; intros ?
  | |- emits _ (while_ _ _ _) => apply emits_while_; intros ?
  | |- spends_one (bind (call _) _) =>
      apply spends_one_bind; [apply spends_one_call|intros ?]
  | |- spends_one (bind (bind _ _) _) =>
      apply spends_one_bind; [|intros ?]
  | |- spends (bind _ _) => apply spends_bind; [|intros ?]
  | |- spends (ret _) => apply spends_ret
  | |- spends (raise _) => apply spends_raise
  | |- spends (call _) => apply spends_one_spends, spends_one_call
  | |- spends now => apply spends_now
  | |- spends (emit _) => apply spends_emit
  | |- spends (try_except _ _) => apply spends_try_except; [|intros ?]
  | |- spends (for_each _ _) => apply spends_for_each; intros ?
  | |- spends (for_collect _ _) => apply spends_for_collect; intros ?
  | |- spends (for_return _ _) => apply spends_for_return; intros ?
  | |- spends (while_ _ _ _) => apply spends_while_; intros ?
  | |- halts (bind _ _) => apply halts_bind; [|intros ?]
  | |- halts (ret _) => apply halts_ret
  | |- halts (raise _) => apply halts_raise
  | |- halts (call _) => apply halts_call
  | |- halts now => apply halts_now
  | |- halts (emit _) => apply halts_emit
  | |- halts (try_except _ _) => apply halts_try_except; [|intros ?]
  | |- context [match ?x with _ => _ end] => destruct x
  end.

Ltac open_worker :=
  unfold Picker._do_work, Picker._do_work_claim,
    Picker._do_work_transfer_request, Picker._create_bundle,
    Picker._quarantine_transfer_request,
    Locator._do_work, Locator._do_work_claim,
    Locator._do_work_transfer_request, Locator._create_bundle,
    Locator._quarantine_transfer_request,
    RucioStager._do_work_claim, RucioStager._stage_bundle,
    RucioStager._unclaim_bundle, RucioStager._quarantine_bundle,
    RucioStager._get_files_and_size, RucioStager._enumerate_path,
    RucioStager.get_walk, RucioStager.get_size, RucioStager.bad_answer,
    page_catalog, next_page, logger_error,
    get_files, get_record, get_transfer_request, get_bundle, get_bundles_0,
    key_error.

(** ** The paging contract *)

Section Discovery.

Variables (tr : TransferRequest) (pages : list (list FileEntry)).
Variables (last : list FileEntry) (rest : list Response) (s : State).
Hypothesis Hfull : Forall (fun page => len page = 9000) pages.
Hypothesis Hlast : len last <> 9000.
Hypothesis Hs : pending s = map RFiles (pages ++ [last]) ++ rest.

(** After the file discovery the Picker sends no other query. *)
Lemma picker_discovery (self : Picker.Config) :
  exists evs,
    trace (snd (run (Picker._do_work_transfer_request self tr) s)) =
    trace s
    ++ catalog_calls 9000 (Picker.query_dict (tr_source tr) (tr_path tr))
         (pages ++ [last])
    ++ evs /\
    Forall (fun ev => is_query ev = false) evs.
Proof.
  unfold Picker._do_work_transfer_request.
  rewrite (run_bind_ok _ _ _ _ _
             (page_catalog_run _ _ pages last rest s Hfull Hlast Hs)).
  match goal with
  | |- context [run ?c ?s1] =>
      assert (Hc : emits (fun ev => is_query ev = false) c)
        by (open_worker; repeat (through || reflexivity));
      destruct (Hc s1) as (evs & Htrace & Hevs)
  end.
  exists evs. split; [|exact Hevs].
  rewrite Htrace. cbn [trace st_after]. now rewrite <- app_assoc.
Qed.

(** After the file discovery the Locator sends no other query. *)
Lemma locator_discovery (self : Locator.Config) :
  exists evs,
    trace (snd (run (Locator._do_work_transfer_request self tr) s)) =
    trace s
    ++ catalog_calls 9000 (Locator.query_dict (tr_source tr) (tr_path tr))
         (pages ++ [last])
    ++ evs /\
    Forall (fun ev => is_query ev = false) evs.
Proof.
  unfold Locator._do_work_transfer_request.
  rewrite (run_bind_ok _ _ _ _ _
             (page_catalog_run _ _ pages last rest s Hfull Hlast Hs)).
  match goal with
  | |- context [run ?c ?s1] =>
      assert (Hc : emits (fun ev => is_query ev = false) c)
        by (open_worker; repeat (through || reflexivity));
      destruct (Hc s1) as (evs & Htrace & Hevs)
  end.
  exists evs. split; [|exact Hevs].
  rewrite Htrace. cbn [trace st_after]. now rewrite <- app_assoc.
Qed.

End Discovery.

(** C5: in the file discovery of the Picker and of the Locator, when the
    catalog answers with full pages of [FILE_CATALOG_LIMIT = 9000] entries
    followed by a page of any other length, the worker asks once per page
    and not again after the short one; the first request carries
    [keys=uuid] and start 0, every later one carries no [keys] and starts
    where the page before it ended; the files found are the pages in
    order, one after the other.  These are all the queries of the work
    on the TransferRequest. *)
Theorem catalog_paging_contract :
  Picker.FILE_CATALOG_LIMIT = 9000 /\ Locator.FILE_CATALOG_LIMIT = 9000 /\
  forall (picker : Picker.Config) (locator : Locator.Config)
         (tr : TransferRequest) (pages : list (list FileEntry))
         (last : list FileEntry) (rest : list Response) (s : State),
    Forall (fun page => len page = 9000) pages ->
    len last <> 9000 ->
    pending s = map RFiles (pages ++ [last]) ++ rest ->
    (run (page_catalog Picker.FILE_CATALOG_LIMIT
            (Picker.query_dict (tr_source tr) (tr_path tr))) s =
     (Ok (concat (pages ++ [last])),
      st_after s rest (ticks s)
        (catalog_calls 9000 (Picker.query_dict (tr_source tr) (tr_path tr))
           (pages ++ [last])))
     /\
     exists evs,
       trace (snd (run (Picker._do_work_transfer_request picker tr) s)) =
       trace s
       ++ catalog_calls 9000 (Picker.query_dict (tr_source tr) (tr_path tr))
            (pages ++ [last])
       ++ evs /\
       Forall (fun ev => is_query ev = false) evs)
    /\
    (run (page_catalog Locator.FILE_CATALOG_LIMIT
            (Locator.query_dict (tr_source tr) (tr_path tr))) s =
     (Ok (concat (pages ++ [last])),
      st_after s rest (ticks s)
        (catalog_calls 9000 (Locator.query_dict (tr_source tr) (tr_path tr))
           (pages ++ [last])))
     /\
     exists evs,
       trace (snd (run (Locator._do_work_transfer_request locator tr) s)) =
       trace s
       ++ catalog_calls 9000 (Locator.query_dict (tr_source tr) (tr_path tr))
            (pages ++ [last])
       ++ evs /\
       Forall (fun ev => is_query ev = false) evs).
Proof.
  split; [reflexivity|]. split; [reflexivity|].
  intros picker locator tr pages last rest s Hfull Hlast Hs.
  split; (split; [now apply page_catalog_run|]).
  - exact (picker_discovery tr pages last rest s Hfull Hlast Hs picker).
  - exact (locator_discovery tr pages last rest s Hfull Hlast Hs locator).
Qed.

Lemma catalog_paging_contract_witness :
  (Forall (fun page => len page = 9000) [Sample.full_page; Sample.full_page] /\
   len [Sample.file "g"] <> 9000) /\
  run (page_catalog Picker.FILE_CATALOG_LIMIT
         (Picker.query_dict (tr_source Sample.tr) (tr_path Sample.tr)))
    (Sample.start
       (map RFiles ([Sample.full_page; Sample.full_page]
                    ++ [[Sample.file "g"]]) ++ [RNone])) =
  (Ok (concat ([Sample.full_page; Sample.full_page] ++ [[Sample.file "g"]])),
   st_after
     (Sample.start
        (map RFiles ([Sample.full_page; Sample.full_page]
                     ++ [[Sample.file "g"]]) ++ [RNone]))
     [RNone] 0%nat
     (catalog_calls 9000
        (Picker.query_dict (tr_source Sample.tr) (tr_path Sample.tr))
        ([Sample.full_page; Sample.full_page] ++ [[Sample.file "g"]]))).
Proof.
  assert (H1 : Forall (fun page : list FileEntry => len page = 9000)
                 [Sample.full_page; Sample.full_page])
    by (repeat constructor; vm_compute; reflexivity).
  assert (H2 : len [Sample.file "g"] <> 9000) by (vm_compute; discriminate).
  split; [split; assumption|].
  exact (proj1 (proj1 (proj2 (proj2 catalog_paging_contract)
                         (Sample.picker 25000) Sample.locator Sample.tr
                         [Sample.full_page; Sample.full_page] [Sample.file "g"]
                         [RNone] (Sample.start _) H1 H2 eq_refl))).
Defined.

(** ** The workers come to an end

    Every loop of the workers uses up an answer in each round, so that no
    run of a worker ends for want of rounds. *)

Lemma picker_do_work_spends (self : Picker.Config) :
  spends (Picker._do_work self).
Proof. open_worker. repeat through. Qed.

Lemma locator_do_work_spends (self : Locator.Config) :
  spends (Locator._do_work self).
Proof. open_worker. repeat through. Qed.

Lemma add_sizes_spends (disk_files : list string) :
  forall size, spends (RucioStager.add_sizes disk_files size).
Proof.
  induction disk_files as [|f disk_files IH]; intros size;
    cbn [RucioStager.add_sizes].
  - apply spends_ret.
  - open_worker. repeat (through || apply IH).
Qed.

Lemma stager_do_work_spends (self : RucioStager.Config) :
  spends (RucioStager._do_work self).
Proof.
  unfold RucioStager._do_work. open_worker.
  repeat (through || apply add_sizes_spends).
Qed.

(** ** One bundle per request *)

Ltac one_bundle :=
  match goal with
  | |- one_bundle_per_create _ =>
      let body := fresh "body" in
      let r := fresh "r" in
      let H := fresh "H" in
      intros body r H; inversion H; subst; eauto
  end.

Lemma picker_one_bundle_per_create (self : Picker.Config) :
  emits one_bundle_per_create (Picker._do_work self).
Proof. open_worker. repeat (through || one_bundle). Qed.

Lemma locator_one_bundle_per_create (self : Locator.Config) :
  emits one_bundle_per_create (Locator._do_work self).
Proof. open_worker. repeat (through || one_bundle). Qed.

(** C10: every request that the Picker or the Locator sends to
    [/Bundles/actions/bulk_create], in any run, carries a [bundles] list
    of exactly one bundle.  A cycle that produces n bundles sends n
    requests, one per packing list (Picker) or per archive record
    (Locator), in their order. *)
Theorem bulk_create_one_bundle_each :
  (forall self : Picker.Config,
      emits one_bundle_per_create (Picker._do_work self))
  /\ (forall self : Locator.Config,
         emits one_bundle_per_create (Locator._do_work self))
  /\ (forall (self : Picker.Config) (tr : TransferRequest)
             (pages : list (list FileEntry)) (last : list FileEntry)
             (R : list CatalogRecord) (B : Z) (created : list (list string))
             (rest : list Response) (s : State),
         Forall (fun page => len page = 9000) pages ->
         len last <> 9000 ->
         concat (pages ++ [last]) <> [] ->
         List.length R = List.length (concat (pages ++ [last])) ->
         Picker.sites self !! tr_dest tr = Some {| Picker.bundle_size := B |} ->
         Forall (fun bin => len bin <= Picker.max_file_count self)
           (Binpacking.to_constant_volume (packing_list R) B) ->
         List.length created = List.length (picker_bundles tr R B) ->
         Forall (fun us => us <> []) created ->
         pending s =
           map RFiles (pages ++ [last]) ++ map RRecord R
             ++ map RBundles created ++ rest ->
         exists evs,
           run (Picker._do_work_transfer_request self tr) s =
           (Ok tt, st_after s rest (ticks s) evs) /\
           List.filter is_bulk_create evs =
           zip_with
             (fun bundle us =>
                Called (POST_bulk_create (JObj [ ("bundles", JList [bundle]) ]))
                  (RBundles us))
             (map (Picker.bundle_of tr)
                (Binpacking.to_constant_volume (packing_list R) B))
             created /\
           List.length (List.filter is_bulk_create evs) =
           List.length (Binpacking.to_constant_volume (packing_list R) B))
  /\ (forall (self : Locator.Config) (tr : TransferRequest)
             (pages : list (list FileEntry)) (last : list FileEntry)
             (R BR : list CatalogRecord) (created : list (list string))
             (rest : list Response) (s : State),
         Forall (fun page => len page = 9000) pages ->
         len last <> 9000 ->
         concat (pages ++ [last]) <> [] ->
         List.length R = List.length (concat (pages ++ [last])) ->
         List.length BR =
           List.length (Locator._get_unique_archives R (tr_source tr)) ->
         Forall (fun r => lta r <> None) BR ->
         List.length created = List.length BR ->
         Forall (fun us => us <> []) created ->
         pending s =
           map RFiles (pages ++ [last]) ++ map RRecord R ++ map RRecord BR
             ++ map RBundles created ++ rest ->
         exists evs,
           run (Locator._do_work_transfer_request self tr) s =
           (Ok tt, st_after s rest (ticks s) evs) /\
           List.filter is_bulk_create evs =
           zip_with
             (fun bundle us =>
                Called (POST_bulk_create (JObj [ ("bundles", JList [bundle]) ]))
                  (RBundles us))
             (locator_bundles tr BR) created /\
           List.length (List.filter is_bulk_create evs) = List.length BR).
Proof.
  split; [exact picker_one_bundle_per_create|].
  split; [exact locator_one_bundle_per_create|]. split.
  - intros self tr pages last R B created rest s
           Hfull Hlast Hne HR Hsite Hgate Hcreated Hus Hs.
    eexists. split.
    { exact (picker_work_creates self tr pages last R B created rest s
               Hfull Hlast Hne HR Hsite Hgate Hcreated Hus Hs). }
    rewrite !List.filter_app, !filter_none by no_such_event.
    cbn [app]. rewrite create_calls_all.
    split; [reflexivity|].
    rewrite create_calls_length by assumption.
    unfold picker_bundles. now rewrite length_map.
  - intros self tr pages last R BR created rest s
           Hfull Hlast Hne HR HBR Hlta Hcreated Hus Hs.
    eexists. split.
    { exact (locator_work_creates self tr pages last R BR created rest s
               Hfull Hlast Hne HR HBR Hlta Hcreated Hus Hs). }
    rewrite !List.filter_app, !filter_none by no_such_event.
    cbn [app]. rewrite create_calls_all.
    split; [reflexivity|].
    rewrite create_calls_length;
      rewrite locator_bundles_length by assumption; congruence.
Qed.

Lemma bulk_create_one_bundle_each_witness :
  let self := Sample.picker 25000 in
  let tr := Sample.tr in
  let pages : list (list FileEntry) := [] in
  let last := [Sample.file "a"; Sample.file "b"; Sample.file "c"] in
  let R := [Sample.record "a" 700 []; Sample.record "b" 1200 [];
            Sample.record "c" 300 []] in
  let created := [["B-1"]; ["B-2"]] in
  let s := Sample.start (map RFiles (pages ++ [last]) ++ map RRecord R
                           ++ map RBundles created ++ []) in
  exists evs,
    run (Picker._do_work_transfer_request self tr) s =
    (Ok tt, st_after s [] (ticks s) evs) /\
    List.length (List.filter is_bulk_create evs) = 2%nat.
Proof.
  intros self tr pages last R created s.
  assert (H1 : Forall (fun page : list FileEntry => len page = 9000) pages)
    by constructor.
  assert (H2 : len last <> 9000) by (vm_compute; discriminate).
  assert (H3 : concat (pages ++ [last]) <> []) by discriminate.
  assert (H4 : List.length R = List.length (concat (pages ++ [last])))
    by reflexivity.
  assert (H5 : Picker.sites self !! tr_dest tr
               = Some {| Picker.bundle_size := 1000 |}) by reflexivity.
  assert (H6 : Forall (fun bin : list (Z * CatalogRecord) =>
                         len bin <= Picker.max_file_count self)
                 (Binpacking.to_constant_volume (packing_list R) 1000))
    by (repeat constructor; vm_compute; discriminate).
  assert (H7 : List.length created = List.length (picker_bundles tr R 1000))
    by reflexivity.
  assert (H8 : Forall (fun us : list string => us <> []) created)
    by (repeat constructor; discriminate).
  destruct (proj1 (proj2 (proj2 bulk_create_one_bundle_each))
              self tr pages last R 1000 created [] s
              H1 H2 H3 H4 H5 H6 H7 H8 eq_refl) as (evs & Hrun & _ & Hcount).
  exists evs. split; [exact Hrun|]. rewrite Hcount. reflexivity.
Defined.

(** ** One bundle per call of the RucioStager *)

Section StagerClaim.

Variable self : RucioStager.Config.

Lemma add_sizes_emits (P : Event -> Prop) (disk_files : list string) :
  (forall f r, P (Called (OS_getsize f) r)) ->
  forall size, emits P (RucioStager.add_sizes disk_files size).
Proof.
  intros HP. induction disk_files as [|f disk_files IH]; intros size;
    cbn [RucioStager.add_sizes].
  - apply emits_ret.
  - open_worker. repeat (through || apply HP || apply IH).
Qed.

Lemma add_sizes_halts (disk_files : list string) :
  forall size, halts (RucioStager.add_sizes disk_files size).
Proof.
  induction disk_files as [|f disk_files IH]; intros size;
    cbn [RucioStager.add_sizes].
  - apply halts_ret.
  - open_worker. repeat (through || apply IH).
Qed.

Lemma stage_bundle_halts (bundle : Bundle) :
  halts (RucioStager._stage_bundle self bundle).
Proof. open_worker. repeat (through || apply add_sizes_halts). Qed.

Lemma quarantine_bundle_halts (bundle : Bundle) (cause : string) :
  halts (RucioStager._quarantine_bundle self bundle cause).
Proof. open_worker. repeat through. Qed.

(** What follows the claim of a bundle makes no other claim. *)
Lemma stager_after_pop (response : Response) :
  emits (fun ev => is_pop ev = false)
    (let! bundle := get_bundle response in
     match bundle with
     | None => ret false
     | Some bundle =>
         do! try_except
               (do! RucioStager._stage_bundle self bundle in ret tt)
               (fun e =>
                  do! RucioStager._quarantine_bundle self bundle (exc_str e) in
                  raise e) in
         ret false
     end).
Proof.
  open_worker.
  repeat (through || reflexivity
          || (apply add_sizes_emits; reflexivity)).
Qed.

Lemma stager_claim_outcome (s : State) :
  match fst (run (RucioStager._do_work_claim self) s) with
  | Ok b => b = false
  | Raise _ => True
  | Diverge => False
  end.
Proof.
  unfold RucioStager._do_work_claim. rewrite run_bind.
  pose proof (halts_call
                (POST_pop_bundle
                   [ ("dest", RucioStager.dest_site self); ("status", "created") ]
                   (JObj [ ("claimant",
                            JStr (claimant RucioStager.name
                                    (RucioStager.component self))) ])) s)
    as Hpop.
  destruct (run (call _) s) as [[r|e|] s1]; simpl in *; [|exact I|congruence].
  rewrite run_bind.
  destruct r; simpl; try exact I.
  destruct b as [bundle|]; [|reflexivity].
  rewrite run_bind.
  match goal with
  | |- context [run (try_except ?c ?h) s1] =>
      assert (Hhalts : halts (try_except c h))
  end.
  { apply halts_try_except.
    - apply halts_bind; [apply stage_bundle_halts|intros; apply halts_ret].
    - intros e. apply halts_bind; [apply quarantine_bundle_halts|].
      intros; apply halts_raise. }
  specialize (Hhalts s1).
  destruct (run (try_except _ _) s1) as [[u|e|] s2]; simpl in *;
    [reflexivity|exact I|congruence].
Qed.

Lemma stager_do_work_once (s : State) :
  run (RucioStager._do_work self) s =
  (match fst (run (RucioStager._do_work_claim self) s) with
   | Ok _ => Ok tt
   | Raise e => Raise e
   | Diverge => Diverge
   end,
   snd (run (RucioStager._do_work_claim self) s)).
Proof.
  pose proof (stager_claim_outcome s) as Hout.
  unfold RucioStager._do_work. rewrite run_bind, run_while_.
  cbn [while_fuel]. rewrite !run_bind.
  destruct (run (RucioStager._do_work_claim self) s) as [[b|e|] s1];
    simpl in *; try reflexivity.
  subst b. destruct (List.length (pending s)); reflexivity.
Qed.

End StagerClaim.

(** C9: the claim handler of the RucioStager never returns true.  It
    returns false when no bundle is available and when a bundle was
    claimed and staging it returned, staged or given back; when staging
    raises, the bundle is quarantined and the exception is raised again.
    So the drain loop runs the claim handler exactly once per call and
    claims one bundle at most. *)
Theorem stager_one_bundle_per_call :
  forall self : RucioStager.Config,
    (forall s,
        match fst (run (RucioStager._do_work_claim self) s) with
        | Ok b => b = false
        | Raise _ => True
        | Diverge => False
        end)
    /\ (forall rest s,
           pending s = RBundle None :: rest ->
           run (RucioStager._do_work_claim self) s =
           (Ok false, st_after s rest (ticks s) [stager_pop self None]))
    /\ (forall bundle rest s b s',
           pending s = RBundle (Some bundle) :: rest ->
           run (RucioStager._stage_bundle self bundle)
             (st_after s rest (ticks s) [stager_pop self (Some bundle)])
           = (Ok b, s') ->
           run (RucioStager._do_work_claim self) s = (Ok false, s'))
    /\ (forall bundle rest s e s',
           pending s = RBundle (Some bundle) :: rest ->
           run (RucioStager._stage_bundle self bundle)
             (st_after s rest (ticks s) [stager_pop self (Some bundle)])
           = (Raise e, s') ->
           run (RucioStager._do_work_claim self) s =
           (Raise e,
            st_after s' (snd (next_answer (pending s'))) (S (ticks s'))
              (quarantine_events "Bundle" (b_uuid bundle) (exc_str e)
                 (PATCH_bundle (b_uuid bundle)
                    (quarantine_body "rucio_stager"
                       (instance_uuid (RucioStager.component self))
                       (exc_str e) (clock s' (ticks s'))))
                 (fst (next_answer (pending s'))))))
    /\ (forall s,
           run (RucioStager._do_work self) s =
           (match fst (run (RucioStager._do_work_claim self) s) with
            | Ok _ => Ok tt
            | Raise e => Raise e
            | Diverge => Diverge
            end,
            snd (run (RucioStager._do_work_claim self) s)))
    /\ (forall s, exists r evs,
           trace (snd (run (RucioStager._do_work self) s)) =
           trace s
           ++ Called
                (POST_pop_bundle
                   [ ("dest", RucioStager.dest_site self); ("status", "created") ]
                   (JObj [ ("claimant",
                            JStr ("rucio_stager-"
                                  ++ instance_uuid (RucioStager.component self))%string) ]))
                r
              :: evs /\
           Forall (fun ev => is_pop ev = false) evs).
Proof.
  intros self.
  split; [exact (stager_claim_outcome self)|].
  split; [|split; [|split; [|split; [exact (stager_do_work_once self)|]]]].
  - intros rest s Hs. unfold RucioStager._do_work_claim.
    rewrite (run_bind_ok _ _ _ _ _ (run_call_ok _ _ _ _ Hs eq_refl)).
    reflexivity.
  - intros bundle rest s b s' Hs Hstage. unfold RucioStager._do_work_claim.
    rewrite (run_bind_ok _ _ _ _ _ (run_call_ok _ _ _ _ Hs eq_refl)).
    erewrite (run_bind_ok (get_bundle _)) by reflexivity. cbv beta iota.
    erewrite (run_bind_ok (try_except _ _)); [reflexivity|].
    rewrite run_try_except, (run_bind_ok _ _ _ _ _ Hstage). reflexivity.
  - intros bundle rest s e s' Hs Hstage. unfold RucioStager._do_work_claim.
    rewrite (run_bind_ok _ _ _ _ _ (run_call_ok _ _ _ _ Hs eq_refl)).
    erewrite (run_bind_ok (get_bundle _)) by reflexivity. cbv beta iota.
    erewrite (run_bind_raise (try_except _ _)); [reflexivity|].
    rewrite run_try_except, (run_bind_raise _ _ _ _ _ Hstage).
    rewrite (run_bind_ok _ _ _ _ _ (stager_quarantine_run _ _ _ _)).
    reflexivity.
  - intros s. rewrite stager_do_work_once. cbn [snd].
    unfold RucioStager._do_work_claim. rewrite run_bind, run_call.
    destruct (next_answer (pending s)) as [r rest]. cbn [fst snd].
    exists r.
    destruct (stager_after_pop self r
                (st_after s rest (ticks s)
                   [Called
                      (POST_pop_bundle
                         [ ("dest", RucioStager.dest_site self);
                           ("status", "created") ]
                         (JObj [ ("claimant",
                                  JStr (claimant RucioStager.name
                                          (RucioStager.component self))) ]))
                      r]))
      as (evs & Htrace & Hevs).
    destruct r; cbn [answered];
      try (exists evs; split; [|exact Hevs];
           rewrite Htrace; cbn [trace st_after];
           rewrite <- app_assoc; reflexivity).
    exists []. split; [reflexivity|constructor].
Qed.

Lemma stager_one_bundle_per_call_witness :
  let self := Sample.stager 1000 in
  let idle := Sample.start [RBundle None] in
  let rest := [RWalk Sample.inbox; RSize 800; RNone] in
  let busy := Sample.start (RBundle (Some Sample.bundle) :: rest) in
  let claimed :=
    st_after busy rest (ticks busy) [stager_pop self (Some Sample.bundle)] in
  run (RucioStager._do_work_claim self) idle =
    (Ok false, st_after idle [] (ticks idle) [stager_pop self None]) /\
  run (RucioStager._do_work_claim self) busy =
    (Ok false, snd (run (RucioStager._stage_bundle self Sample.bundle) claimed)).
Proof.
  intros self idle rest busy claimed.
  split.
  - exact (proj1 (proj2 (stager_one_bundle_per_call self)) [] idle eq_refl).
  - assert (Hstage :
      run (RucioStager._stage_bundle self Sample.bundle) claimed =
      (Ok false,
       snd (run (RucioStager._stage_bundle self Sample.bundle) claimed)))
      by (vm_compute; reflexivity).
    exact (proj1 (proj2 (proj2 (stager_one_bundle_per_call self)))
             Sample.bundle rest busy false _ eq_refl Hstage).
Defined.

(** ** The reason of a quarantine *)

Section Reason.

Lemma append_cons (a : ascii) (s1 s2 : string) :
  (String a s1 ++ s2 = String a (s1 ++ s2))%string.
Proof. reflexivity. Qed.

Lemma append_nil_l (s : string) : ("" ++ s)%string = s.
Proof. reflexivity. Qed.

Lemma append_assoc (s1 s2 s3 : string) :
  ((s1 ++ s2) ++ s3 = s1 ++ (s2 ++ s3))%string.
Proof.
  induction s1 as [|a s1 IH]; [reflexivity|].
  rewrite !append_cons. now rewrite IH.
Qed.

Lemma plus_notspace_intro (c : string) :
  c <> EmptyString -> has_char " "%char c = false ->
  matches_all (Plus NotSpace) c.
Proof.
  induction c as [|a c IH]; intros Hne Hsp; [congruence|].
  simpl in Hsp. apply orb_false_iff in Hsp as [Ha Hc].
  assert (Hna : a <> " "%char) by (intros ->; discriminate).
  destruct c as [|b c].
  - apply M_plus_once. now constructor.
  - change (String a (String b c))
      with (String a EmptyString ++ String b c)%string.
    apply M_plus_more; [now constructor|]. apply IH; [discriminate|exact Hc].
Qed.

Lemma plus_notspace_elim (p : string) :
  matches_all (Plus NotSpace) p ->
  p <> EmptyString /\ has_char " "%char p = false.
Proof.
  intros H. remember (Plus NotSpace) as r eqn:Hr.
  induction H as [| | |r s H _|r s1 s2 H1 _ H2 IH2|]; try discriminate;
    injection Hr as ->.
  - inversion H as [|c Hc| | | |]; subst. split; [discriminate|].
    simpl. destruct (Ascii.eqb_spec c " "%char); [contradiction|reflexivity].
  - inversion H1 as [|c Hc| | | |]; subst.
    destruct (IH2 eq_refl) as [_ Hs2]. rewrite append_cons, append_nil_l.
    split; [discriminate|].
    simpl. rewrite Hs2.
    destruct (Ascii.eqb_spec c " "%char); [contradiction|reflexivity].
Qed.

Lemma plus_dot_elim (p : string) :
  matches_all (Plus Dot) p -> p <> EmptyString.
Proof.
  intros H. remember (Plus Dot) as r eqn:Hr.
  induction H as [| | |r s H _|r s1 s2 H1 _ H2 IH2|]; try discriminate;
    injection Hr as ->.
  - inversion H; subst. discriminate.
  - inversion H1; subst. rewrite append_cons. discriminate.
Qed.

(** Two texts without a space that are each followed by a space: the
    first space is at the same place in both. *)
Lemma first_space (c1 c2 x1 x2 : string) :
  has_char " "%char c1 = false -> has_char " "%char c2 = false ->
  (c1 ++ String " "%char x1 = c2 ++ String " "%char x2)%string ->
  c1 = c2 /\ x1 = x2.
Proof.
  revert c2. induction c1 as [|a c1 IH]; intros [|b c2] H1 H2 Heq;
    rewrite ?append_cons, ?append_nil_l in Heq; simpl in H1, H2.
  - injection Heq as ->. now split.
  - injection Heq as <- _. discriminate.
  - injection Heq as -> _. discriminate.
  - injection Heq as -> Heq.
    apply orb_false_iff in H1 as [_ H1]. apply orb_false_iff in H2 as [_ H2].
    destruct (IH c2 H1 H2 Heq) as [-> ->]. now split.
Qed.

Lemma has_char_append c (s1 s2 : string) :
  has_char c (s1 ++ s2)%string = (has_char c s1 || has_char c s2)%bool.
Proof.
  induction s1 as [|a s1 IH]; [reflexivity|].
  rewrite append_cons. simpl. rewrite IH. now rewrite orb_assoc.
Qed.

Lemma reason_matches (c cause : string) (a : ascii) (more : string) :
  c <> EmptyString -> has_char " "%char c = false ->
  cause = String a more -> a <> newline ->
  re_match reason_pattern ("BY:" ++ c ++ " REASON:" ++ cause)%string.
Proof.
  intros Hc Hsp -> Ha.
  exists ("BY:" ++ c ++ " REASON:" ++ String a EmptyString)%string, more.
  split.
  - change (String a more) with (String a EmptyString ++ more)%string.
    now rewrite !append_assoc.
  - unfold reason_pattern. repeat apply M_cat.
    + constructor.
    + now apply plus_notspace_intro.
    + constructor.
    + apply M_plus_once. now constructor.
Qed.

Lemma reason_without_cause (c : string) :
  has_char " "%char c = false ->
  ~ re_match reason_pattern ("BY:" ++ c ++ " REASON:")%string.
Proof.
  intros Hc (p & rest & Heq & Hm). unfold reason_pattern in Hm.
  inversion Hm as [| | | | |? ? s1 q1 Hby Hm1]; subst.
  inversion Hby; subst.
  inversion Hm1 as [| | | | |? ? s2 q2 Hns Hm2]; subst.
  inversion Hm2 as [| | | | |? ? s3 s4 Hre Hdot]; subst.
  inversion Hre; subst.
  apply plus_notspace_elim in Hns as [_ Hns].
  apply plus_dot_elim in Hdot.
  rewrite !append_assoc in Heq. rewrite !append_cons, !append_nil_l in Heq.
  injection Heq as Heq.
  destruct (first_space _ _ _ _ Hc Hns Heq) as [_ Htail].
  injection Htail as Htail. destruct s4 as [|a s4]; [congruence|].
  rewrite append_cons in Htail. discriminate.
Qed.

End Reason.

(** C8, as the code has it: the three quarantine primitives announce the
    quarantine in the log, read the clock and send one PATCH whose body
    sets [status] to "quarantined", [reason] to "BY:" followed by
    "<name>-<instance_uuid>", " REASON:" and the cause, and
    [work_priority_timestamp] to the time read; when the PATCH raises, the
    exception is logged and the primitive still returns.  The reason
    matches [^BY:[^ ]+ REASON:.+] whenever the instance uuid holds no space
    and the cause begins with a character other than a newline. *)
Theorem quarantine_patch_and_reason :
  (forall (self : Picker.Config) tr cause s,
      run (Picker._quarantine_transfer_request self tr cause) s =
      (Ok tt,
       st_after s (snd (next_answer (pending s))) (S (ticks s))
         (quarantine_events "TransferRequest" (tr_uuid tr) cause
            (PATCH_transfer_request (tr_uuid tr)
               (quarantine_body "picker"
                  (instance_uuid (Picker.component self))
                  cause (clock s (ticks s))))
            (fst (next_answer (pending s))))))
  /\ (forall (self : Locator.Config) tr cause s,
         run (Locator._quarantine_transfer_request self tr cause) s =
         (Ok tt,
          st_after s (snd (next_answer (pending s))) (S (ticks s))
            (quarantine_events "TransferRequest" (tr_uuid tr) cause
               (PATCH_transfer_request (tr_uuid tr)
                  (quarantine_body "locator"
                     (instance_uuid (Locator.component self))
                     cause (clock s (ticks s))))
               (fst (next_answer (pending s))))))
  /\ (forall (self : RucioStager.Config) bundle cause s,
         run (RucioStager._quarantine_bundle self bundle cause) s =
         (Ok tt,
          st_after s (snd (next_answer (pending s))) (S (ticks s))
            (quarantine_events "Bundle" (b_uuid bundle) cause
               (PATCH_bundle (b_uuid bundle)
                  (quarantine_body "rucio_stager"
                     (instance_uuid (RucioStager.component self))
                     cause (clock s (ticks s))))
               (fst (next_answer (pending s))))))
  /\ (forall name iu cause right_now,
         let body := quarantine_body name iu cause right_now in
         body_keys body = ["status"; "reason"; "work_priority_timestamp"] /\
         field_of "status" body = Some (JStr "quarantined") /\
         field_of "reason" body =
           Some (JStr ("BY:" ++ name ++ "-" ++ iu ++ " REASON:" ++ cause)%string) /\
         field_of "work_priority_timestamp" body = Some (JStr right_now))
  /\ (forall name iu cause right_now a more,
         In name ["picker"; "locator"; "rucio_stager"] ->
         has_char " "%char iu = false ->
         cause = String a more -> a <> newline ->
         exists reason,
           reason_of (quarantine_body name iu cause right_now)
             = Some (JStr reason) /\
           re_match reason_pattern reason).
Proof.
  split; [exact picker_quarantine_run|].
  split; [exact locator_quarantine_run|].
  split; [exact stager_quarantine_run|]. split.
  - intros name iu cause right_now body. repeat split.
  - intros name iu cause right_now a more Hname Hiu Hcause Ha.
    eexists. split; [reflexivity|].
    replace ("BY:" ++ name ++ "-" ++ iu ++ " REASON:" ++ cause)%string
      with ("BY:" ++ (name ++ "-" ++ iu) ++ " REASON:" ++ cause)%string
      by (now rewrite !append_assoc).
    apply (reason_matches (name ++ "-" ++ iu) cause a more); auto.
    + destruct name; [|rewrite append_cons; discriminate].
      simpl in Hname. intuition discriminate.
    + rewrite has_char_append, has_char_append, Hiu.
      simpl in Hname.
      destruct Hname as [<-|[<-|[<-|[]]]]; reflexivity.
Qed.

Lemma quarantine_patch_and_reason_witness :
  exists reason,
    reason_of (quarantine_body "picker" "0f1e2d3c" zero_files
                 "2019-07-26T01:53:20") = Some (JStr reason) /\
    re_match reason_pattern reason.
Proof.
  apply (proj2 (proj2 (proj2 (proj2 quarantine_patch_and_reason)))
           "picker" "0f1e2d3c" zero_files "2019-07-26T01:53:20"
           "F"%char
           "ile Catalog returned zero files for the TransferRequest").
  - left. reflexivity.
  - reflexivity.
  - reflexivity.
  - discriminate.
Defined.

(** The claim C8 as it is written fails: a request that raises an
    exception whose text is empty (a timeout) sends the TransferRequest
    of the Picker to quarantine with the reason
    "BY:picker-0f1e2d3c REASON:", which [^BY:[^ ]+ REASON:.+] does not
    match. *)
Lemma quarantine_reason_counterexample :
  let timeout := {| exc_type := "TimeoutError"; exc_str := "" |} in
  let s := Sample.start [RTransferRequest (Some Sample.tr); RFail timeout;
                         RNone] in
  exists patch answer reason,
    In (Called (PATCH_transfer_request "TR-1" patch) answer)
       (trace (snd (run (Picker._do_work_claim (Sample.picker 25000)) s))) /\
    field_of "status" patch = Some (JStr "quarantined") /\
    reason_of patch = Some (JStr reason) /\
    reason = "BY:picker-0f1e2d3c REASON:" /\
    ~ re_match reason_pattern reason.
Proof.
  intros timeout s.
  exists (quarantine_body "picker" "0f1e2d3c" "" "2019-07-26T01:53:20"),
         RNone, "BY:picker-0f1e2d3c REASON:".
  split; [|split; [reflexivity|split; [reflexivity|split; [reflexivity|]]]].
  - vm_compute. do 3 right. left. reflexivity.
  - apply (reason_without_cause "picker-0f1e2d3c"). reflexivity.
Qed.

(** * Further properties of the workers *)

(** ** Claiming work *)

(** X1: When the request that claims work raises, the drain loop of each
    worker raises the same exception; it made that one request, and
    nothing is quarantined. *)
Theorem pop_failure_propagates :
  forall (picker : Picker.Config) (locator : Locator.Config)
         (stager : RucioStager.Config) (e : Exc) (rest : list Response)
         (s : State),
    pending s = RFail e :: rest ->
    run (Picker._do_work picker) s =
      (Raise e,
       st_after s rest (ticks s) [Called (picker_pop_call picker) (RFail e)])
    /\ run (Locator._do_work locator) s =
      (Raise e,
       st_after s rest (ticks s) [Called (locator_pop_call locator) (RFail e)])
    /\ run (RucioStager._do_work stager) s =
      (Raise e,
       st_after s rest (ticks s) [Called (stager_pop_call stager) (RFail e)]).
Proof.
  intros picker locator stager e rest s Hs.
  repeat split.
  - unfold Picker._do_work. rewrite run_bind, run_while_. cbn [while_fuel].
    rewrite !run_bind. unfold Picker._do_work_claim.
    rewrite (run_bind_raise _ _ _ _ _ (run_call_fail _ _ _ _ Hs)).
    reflexivity.
  - unfold Locator._do_work. rewrite run_bind, run_while_. cbn [while_fuel].
    rewrite !run_bind. unfold Locator._do_work_claim.
    rewrite (run_bind_raise _ _ _ _ _ (run_call_fail _ _ _ _ Hs)).
    reflexivity.
  - unfold RucioStager._do_work. rewrite run_bind, run_while_.
    cbn [while_fuel]. rewrite !run_bind. unfold RucioStager._do_work_claim.
    rewrite (run_bind_raise _ _ _ _ _ (run_call_fail _ _ _ _ Hs)).
    reflexivity.
Qed.

Lemma pop_failure_propagates_witness :
  let boom := {| exc_type := "HTTPError"; exc_str := "LTA DB on fire" |} in
  fst (run (Picker._do_work (Sample.picker 25000)) (Sample.start [RFail boom]))
  = Raise boom.
Proof.
  intros boom.
  rewrite (proj1 (pop_failure_propagates (Sample.picker 25000) Sample.locator
                    (Sample.stager 1000) boom [] (Sample.start [RFail boom])
                    eq_refl)).
  reflexivity.
Defined.

(** X2: When the LTA DB has no TransferRequest to give, the drain loops of the
    Picker and of the Locator end after that one request, whether or not
    they are set to run once. *)
Theorem no_work_ends_the_drain :
  forall (picker : Picker.Config) (locator : Locator.Config)
         (rest : list Response) (s : State),
    pending s = RTransferRequest None :: rest ->
    run (Picker._do_work picker) s =
      (Ok tt,
       st_after s rest (ticks s)
         [Called (picker_pop_call picker) (RTransferRequest None)])
    /\ run (Locator._do_work locator) s =
      (Ok tt,
       st_after s rest (ticks s)
         [Called (locator_pop_call locator) (RTransferRequest None)]).
Proof.
  intros picker locator rest s Hs. split.
  - unfold Picker._do_work. rewrite run_bind, run_while_. cbn [while_fuel].
    rewrite !run_bind. unfold Picker._do_work_claim.
    rewrite (run_bind_ok _ _ _ _ _ (run_call_ok _ _ _ _ Hs eq_refl)).
    cbn. destruct (List.length (pending s)); reflexivity.
  - unfold Locator._do_work. rewrite run_bind, run_while_. cbn [while_fuel].
    rewrite !run_bind. unfold Locator._do_work_claim.
    rewrite (run_bind_ok _ _ _ _ _ (run_call_ok _ _ _ _ Hs eq_refl)).
    cbn. destruct (List.length (pending s)); reflexivity.
Qed.

Lemma no_work_ends_the_drain_witness :
  fst (run (Locator._do_work Sample.locator)
         (Sample.start [RTransferRequest None; RNone])) = Ok tt.
Proof.
  rewrite (proj2 (no_work_ends_the_drain (Sample.picker 25000) Sample.locator
                    [RNone] (Sample.start [RTransferRequest None; RNone])
                    eq_refl)).
  reflexivity.
Defined.

(** X3: A Picker or a Locator that is set to run once and die runs its claim
    handler exactly once per call of the drain loop, whatever comes of
    it. *)
Theorem run_once_and_die_claims_once :
  forall (picker : Picker.Config) (locator : Locator.Config) (s : State),
    (run_once_and_die (Picker.component picker) = true ->
     run (Picker._do_work picker) s =
     (drained (fst (run (Picker._do_work_claim picker) s)),
      snd (run (Picker._do_work_claim picker) s)))
    /\ (run_once_and_die (Locator.component locator) = true ->
        run (Locator._do_work locator) s =
        (drained (fst (run (Locator._do_work_claim locator) s)),
         snd (run (Locator._do_work_claim locator) s))).
Proof.
  intros picker locator s. split; intros Honce.
  - unfold Picker._do_work. rewrite run_bind, run_while_. cbn [while_fuel].
    rewrite !run_bind, Honce.
    destruct (run (Picker._do_work_claim picker) s) as [[b|e|] s1];
      try reflexivity.
    cbn. rewrite andb_false_r.
    destruct (List.length (pending s)); reflexivity.
  - unfold Locator._do_work. rewrite run_bind, run_while_. cbn [while_fuel].
    rewrite !run_bind, Honce.
    destruct (run (Locator._do_work_claim locator) s) as [[b|e|] s1];
      try reflexivity.
    cbn. rewrite andb_false_r.
    destruct (List.length (pending s)); reflexivity.
Qed.


Lemma run_once_and_die_claims_once_witness :
  fst (run (Picker._do_work More.picker_once)
         (Sample.start [RTransferRequest (Some Sample.tr); RFiles []; RNone;
                        RTransferRequest (Some Sample.tr)]))
  = Ok tt.
Proof.
  rewrite (proj1 (run_once_and_die_claims_once More.picker_once
                    More.locator_once (Sample.start _)) eq_refl).
  reflexivity.
Defined.

(** ** Exceptions while a TransferRequest is worked on *)

Lemma picker_work_spends (self : Picker.Config) (tr : TransferRequest) :
  spends (Picker._do_work_transfer_request self tr).
Proof. open_worker. repeat through. Qed.

Lemma locator_work_spends (self : Locator.Config) (tr : TransferRequest) :
  spends (Locator._do_work_transfer_request self tr).
Proof. open_worker. repeat through. Qed.

Section PickerClaim.

Variables (self : Picker.Config) (tr : TransferRequest).
Variables (rest : list Response) (s : State).
Hypothesis Hs : pending s = RTransferRequest (Some tr) :: rest.

Let claimed : State := st_after s rest (ticks s) [picker_pop self (Some tr)].

Lemma picker_claim_tries :
  run (Picker._do_work_claim self) s =
  run (try_except
         (do! Picker._do_work_transfer_request self tr in ret true)
         (fun e =>
            do! Picker._quarantine_transfer_request self tr (exc_str e) in
            ret false)) claimed.
Proof.
  unfold Picker._do_work_claim.
  rewrite (run_bind_ok _ _ _ _ _ (run_call_ok _ _ _ _ Hs eq_refl)).
  reflexivity.
Qed.

Lemma picker_claim_returned s' :
  run (Picker._do_work_transfer_request self tr) claimed = (Ok tt, s') ->
  run (Picker._do_work_claim self) s = (Ok true, s').
Proof.
  intros Hwork. rewrite picker_claim_tries, run_try_except, run_bind, Hwork.
  reflexivity.
Qed.

Lemma picker_claim_raised e s' :
  run (Picker._do_work_transfer_request self tr) claimed = (Raise e, s') ->
  run (Picker._do_work_claim self) s =
  (Ok false,
   st_after s' (snd (next_answer (pending s'))) (S (ticks s'))
     (quarantine_events "TransferRequest" (tr_uuid tr) (exc_str e)
        (PATCH_transfer_request (tr_uuid tr)
           (quarantine_body "picker" (instance_uuid (Picker.component self))
              (exc_str e) (clock s' (ticks s'))))
        (fst (next_answer (pending s'))))).
Proof.
  intros Hwork. rewrite picker_claim_tries, run_try_except, run_bind, Hwork.
  rewrite (run_bind_ok _ _ _ _ _ (picker_quarantine_run _ _ _ _)).
  reflexivity.
Qed.

End PickerClaim.

Section LocatorClaim.

Variables (self : Locator.Config) (tr : TransferRequest).
Variables (rest : list Response) (s : State).
Hypothesis Hs : pending s = RTransferRequest (Some tr) :: rest.

Let claimed : State :=
  st_after s rest (ticks s)
    [Called (locator_pop_call self) (RTransferRequest (Some tr))].

Lemma locator_claim_tries :
  run (Locator._do_work_claim self) s =
  run (try_except
         (do! Locator._do_work_transfer_request self tr in ret true)
         (fun e =>
            do! Locator._quarantine_transfer_request self tr (exc_str e) in
            raise e)) claimed.
Proof.
  unfold Locator._do_work_claim.
  rewrite (run_bind_ok _ _ _ _ _ (run_call_ok _ _ _ _ Hs eq_refl)).
  reflexivity.
Qed.

Lemma locator_claim_returned s' :
  run (Locator._do_work_transfer_request self tr) claimed = (Ok tt, s') ->
  run (Locator._do_work_claim self) s = (Ok true, s').
Proof.
  intros Hwork. rewrite locator_claim_tries, run_try_except, run_bind, Hwork.
  reflexivity.
Qed.

Lemma locator_claim_raised e s' :
  run (Locator._do_work_transfer_request self tr) claimed = (Raise e, s') ->
  run (Locator._do_work_claim self) s =
  (Raise e,
   st_after s' (snd (next_answer (pending s'))) (S (ticks s'))
     (quarantine_events "TransferRequest" (tr_uuid tr) (exc_str e)
        (PATCH_transfer_request (tr_uuid tr)
           (quarantine_body "locator" (instance_uuid (Locator.component self))
              (exc_str e) (clock s' (ticks s'))))
        (fst (next_answer (pending s'))))).
Proof.
  intros Hwork. rewrite locator_claim_tries, run_try_except, run_bind, Hwork.
  rewrite (run_bind_ok _ _ _ _ _ (locator_quarantine_run _ _ _ _)).
  reflexivity.
Qed.

End LocatorClaim.

(** X4: Once the Picker has claimed a TransferRequest its claim handler
    returns and never raises: true when the work on the request returned,
    and false, after the request was quarantined with the text of the
    exception as the cause, when the work raised. *)
Theorem picker_contains_exceptions :
  forall (self : Picker.Config) (tr : TransferRequest)
         (rest : list Response) (s : State),
    pending s = RTransferRequest (Some tr) :: rest ->
    let claimed := st_after s rest (ticks s) [picker_pop self (Some tr)] in
    (exists b, fst (run (Picker._do_work_claim self) s) = Ok b)
    /\ (forall s',
           run (Picker._do_work_transfer_request self tr) claimed = (Ok tt, s') ->
           run (Picker._do_work_claim self) s = (Ok true, s'))
    /\ (forall e s',
           run (Picker._do_work_transfer_request self tr) claimed
             = (Raise e, s') ->
           run (Picker._do_work_claim self) s =
           (Ok false,
            st_after s' (snd (next_answer (pending s'))) (S (ticks s'))
              (quarantine_events "TransferRequest" (tr_uuid tr) (exc_str e)
                 (PATCH_transfer_request (tr_uuid tr)
                    (quarantine_body "picker"
                       (instance_uuid (Picker.component self))
                       (exc_str e) (clock s' (ticks s'))))
                 (fst (next_answer (pending s')))))).
Proof.
  intros self tr rest s Hs claimed.
  split; [|split].
  - pose proof (picker_work_spends self tr claimed) as Hhalts.
    destruct (run (Picker._do_work_transfer_request self tr) claimed)
      as [[[]|e|] s1] eqn:Hwork; [| |contradiction].
    + rewrite (picker_claim_returned self tr rest s Hs s1 Hwork).
      eexists; reflexivity.
    + rewrite (picker_claim_raised self tr rest s Hs e s1 Hwork).
      eexists; reflexivity.
  - apply picker_claim_returned, Hs.
  - apply picker_claim_raised, Hs.
Qed.

Lemma picker_contains_exceptions_witness :
  fst (run (Picker._do_work_claim (Sample.picker 25000))
         (Sample.start [RTransferRequest (Some Sample.tr); RFail More.boom;
                        RNone]))
  = Ok false.
Proof.
  rewrite (proj2 (proj2 (picker_contains_exceptions (Sample.picker 25000)
                           Sample.tr [RFail More.boom; RNone]
                           (Sample.start _) eq_refl))
             More.boom
             (snd (run (Picker._do_work_transfer_request (Sample.picker 25000)
                          Sample.tr)
                     (st_after (Sample.start
                                  [RTransferRequest (Some Sample.tr);
                                   RFail More.boom; RNone])
                        [RFail More.boom; RNone] 0%nat
                        [picker_pop (Sample.picker 25000) (Some Sample.tr)])))
             ltac:(vm_compute; reflexivity)).
  reflexivity.
Defined.

(** X5: Once the Locator has claimed a TransferRequest its claim handler
    returns true when the work on the request returned; when the work
    raised, the request is quarantined with the text of the exception as
    the cause and the same exception is raised again. *)
Theorem locator_reraises_exceptions :
  forall (self : Locator.Config) (tr : TransferRequest)
         (rest : list Response) (s : State),
    pending s = RTransferRequest (Some tr) :: rest ->
    let claimed :=
      st_after s rest (ticks s)
        [Called (locator_pop_call self) (RTransferRequest (Some tr))] in
    (fst (run (Locator._do_work_claim self) s) <> Ok false /\
     fst (run (Locator._do_work_claim self) s) <> Diverge)
    /\ (forall s',
           run (Locator._do_work_transfer_request self tr) claimed = (Ok tt, s') ->
           run (Locator._do_work_claim self) s = (Ok true, s'))
    /\ (forall e s',
           run (Locator._do_work_transfer_request self tr) claimed
             = (Raise e, s') ->
           run (Locator._do_work_claim self) s =
           (Raise e,
            st_after s' (snd (next_answer (pending s'))) (S (ticks s'))
              (quarantine_events "TransferRequest" (tr_uuid tr) (exc_str e)
                 (PATCH_transfer_request (tr_uuid tr)
                    (quarantine_body "locator"
                       (instance_uuid (Locator.component self))
                       (exc_str e) (clock s' (ticks s'))))
                 (fst (next_answer (pending s')))))).
Proof.
  intros self tr rest s Hs claimed.
  split; [|split].
  - pose proof (locator_work_spends self tr claimed) as Hhalts.
    destruct (run (Locator._do_work_transfer_request self tr) claimed)
      as [[[]|e|] s1] eqn:Hwork; [| |contradiction].
    + rewrite (locator_claim_returned self tr rest s Hs s1 Hwork).
      split; discriminate.
    + rewrite (locator_claim_raised self tr rest s Hs e s1 Hwork).
      split; discriminate.
  - apply locator_claim_returned, Hs.
  - apply locator_claim_raised, Hs.
Qed.

Lemma locator_reraises_exceptions_witness :
  fst (run (Locator._do_work_claim Sample.locator)
         (Sample.start [RTransferRequest (Some Sample.tr); RFail More.boom;
                        RNone]))
  = Raise More.boom.
Proof.
  rewrite (proj2 (proj2 (locator_reraises_exceptions Sample.locator
                           Sample.tr [RFail More.boom; RNone]
                           (Sample.start _) eq_refl))
             More.boom
             (snd (run (Locator._do_work_transfer_request Sample.locator
                          Sample.tr)
                     (st_after (Sample.start
                                  [RTransferRequest (Some Sample.tr);
                                   RFail More.boom; RNone])
                        [RFail More.boom; RNone] 0%nat
                        [Called (locator_pop_call Sample.locator)
                           (RTransferRequest (Some Sample.tr))])))
             ltac:(vm_compute; reflexivity)).
  reflexivity.
Defined.


(** ** The drain loop *)

Lemma while_fuel_enough {A : Type} (cond : A -> bool) (body : A -> M A) :
  (forall a, spends_one (body a)) ->
  forall fuel1 fuel2 a s,
    (List.length (pending s) < fuel1)%nat ->
    (List.length (pending s) < fuel2)%nat ->
    run (while_fuel fuel1 cond body a) s = run (while_fuel fuel2 cond body a) s.
Proof.
  intros Hbody fuel1.
  induction fuel1 as [|fuel1 IH]; intros fuel2 a s H1 H2; [lia|].
  destruct fuel2 as [|fuel2]; [lia|].
  cbn [while_fuel]. destruct (cond a); [|reflexivity].
  rewrite !run_bind. specialize (Hbody a s).
  destruct (run (body a) s) as [[a'|e|] s1]; try reflexivity.
  apply IH; lia.
Qed.

Lemma picker_claim_spends_one (self : Picker.Config) :
  spends_one (Picker._do_work_claim self).
Proof. open_worker. repeat through. Qed.

Lemma locator_claim_spends_one (self : Locator.Config) :
  spends_one (Locator._do_work_claim self).
Proof. open_worker. repeat through. Qed.

Lemma picker_round_spends_one (self : Picker.Config) (once : bool) :
  forall _ : bool,
    spends_one (let! work_claimed := Picker._do_work_claim self in
                ret (work_claimed && negb once)%bool).
Proof.
  intros _. apply spends_one_bind;
    [apply picker_claim_spends_one|intros; apply spends_ret].
Qed.

Lemma locator_round_spends_one (self : Locator.Config) (once : bool) :
  forall _ : bool,
    spends_one (let! work_claimed := Locator._do_work_claim self in
                ret (work_claimed && negb once)%bool).
Proof.
  intros _. apply spends_one_bind;
    [apply locator_claim_spends_one|intros; apply spends_ret].
Qed.

(** X6: The drain loops of the Picker and of the Locator, when not set to run
    once: after a claim handler that returned true the loop goes on as if
    it had been started afresh; a claim handler that returns false or
    raises ends it. *)
Theorem drain_goes_on_after_success :
  forall (picker : Picker.Config) (locator : Locator.Config) (s s' : State),
    (run_once_and_die (Picker.component picker) = false ->
     (run (Picker._do_work_claim picker) s = (Ok true, s') ->
      run (Picker._do_work picker) s = run (Picker._do_work picker) s')
     /\ (run (Picker._do_work_claim picker) s = (Ok false, s') ->
         run (Picker._do_work picker) s = (Ok tt, s'))
     /\ (forall e,
            run (Picker._do_work_claim picker) s = (Raise e, s') ->
            run (Picker._do_work picker) s = (Raise e, s')))
    /\ (run_once_and_die (Locator.component locator) = false ->
        (run (Locator._do_work_claim locator) s = (Ok true, s') ->
         run (Locator._do_work locator) s = run (Locator._do_work locator) s')
        /\ (run (Locator._do_work_claim locator) s = (Ok false, s') ->
            run (Locator._do_work locator) s = (Ok tt, s'))
        /\ (forall e,
               run (Locator._do_work_claim locator) s = (Raise e, s') ->
               run (Locator._do_work locator) s = (Raise e, s'))).
Proof.
  intros picker locator s s'. split; intros Hmany; repeat split.
  - intros Hclaim.
    pose proof (picker_claim_spends_one picker s) as Hone.
    rewrite Hclaim in Hone.
    unfold Picker._do_work. rewrite !run_bind, !run_while_.
    cbn [while_fuel]. rewrite !run_bind, Hclaim, Hmany.
    change (run (ret (true && negb false)%bool) s') with (Ok true, s').
    cbv beta iota.
    rewrite (while_fuel_enough _ _ (picker_round_spends_one picker false)
               (List.length (pending s)) (S (List.length (pending s')))
               true s' Hone ltac:(lia)).
    reflexivity.
  - intros Hclaim.
    unfold Picker._do_work. rewrite !run_bind, !run_while_.
    cbn [while_fuel]. rewrite !run_bind, Hclaim.
    cbn. destruct (List.length (pending s)); reflexivity.
  - intros e Hclaim.
    unfold Picker._do_work. rewrite !run_bind, !run_while_.
    cbn [while_fuel]. rewrite !run_bind, Hclaim. reflexivity.
  - intros Hclaim.
    pose proof (locator_claim_spends_one locator s) as Hone.
    rewrite Hclaim in Hone.
    unfold Locator._do_work. rewrite !run_bind, !run_while_.
    cbn [while_fuel]. rewrite !run_bind, Hclaim, Hmany.
    change (run (ret (true && negb false)%bool) s') with (Ok true, s').
    cbv beta iota.
    rewrite (while_fuel_enough _ _ (locator_round_spends_one locator false)
               (List.length (pending s)) (S (List.length (pending s')))
               true s' Hone ltac:(lia)).
    reflexivity.
  - intros Hclaim.
    unfold Locator._do_work. rewrite !run_bind, !run_while_.
    cbn [while_fuel]. rewrite !run_bind, Hclaim.
    cbn. destruct (List.length (pending s)); reflexivity.
  - intros e Hclaim.
    unfold Locator._do_work. rewrite !run_bind, !run_while_.
    cbn [while_fuel]. rewrite !run_bind, Hclaim. reflexivity.
Qed.


Lemma drain_goes_on_after_success_witness :
  let s := Sample.start [RTransferRequest (Some Sample.tr); RFiles []; RNone;
                         RTransferRequest None] in
  run (Picker._do_work (Sample.picker 25000)) s =
  run (Picker._do_work (Sample.picker 25000))
    (snd (run (Picker._do_work_claim (Sample.picker 25000)) s)).
Proof.
  intros s.
  apply (proj1 (proj1 (drain_goes_on_after_success (Sample.picker 25000)
                         Sample.locator s _) eq_refl)).
  vm_compute. reflexivity.
Defined.

(** ** Failures of the file discovery *)

Section PagingFails.

Variables (limit : Z) (query : JVal).

Lemma paging_loop_fails (pages : list (list FileEntry)) :
  forall (e : Exc) (rest : list Response) (fuel : nat) (p : Paging) (s : State),
    Forall (fun page => len page = limit) pages ->
    num_files p = limit ->
    pending s = map RFiles pages ++ RFail e :: rest ->
    (List.length pages < fuel)%nat ->
    run (while_fuel fuel (fun p => num_files p =? limit)
           (next_page limit query) p) s =
    (Raise e,
     st_after s rest (ticks s)
       (paging_calls limit query (page_start p + limit) pages
        ++ [Called (GET_files query None limit
                      (page_start p + limit + limit * len pages))
              (RFail e)])).
Proof.
  induction pages as [|page pages IH]; intros e rest fuel p s Hfull Hp Hs Hfuel.
  - destruct fuel as [|fuel]; [simpl in Hfuel; lia|]. simpl in Hs.
    cbn [while_fuel]. rewrite Hp, Z.eqb_refl. unfold next_page.
    rewrite (run_bind_raise _ _ _ _ _
               (run_bind_raise _ _ _ _ _ (run_call_fail _ _ _ _ Hs))).
    rewrite Hp. cbn [paging_calls app].
    replace (page_start p + limit + limit * len (@nil (list FileEntry)))
      with (page_start p + limit) by (unfold len; simpl; lia).
    reflexivity.
  - destruct fuel as [|fuel]; [simpl in Hfuel; lia|].
    apply Forall_cons_iff in Hfull as [Hpage Hfull].
    simpl in Hs, Hfuel. cbn [while_fuel]. rewrite Hp, Z.eqb_refl.
    rewrite (run_bind_ok _ _ _ _ _ (next_page_full limit query p s page _ Hs)).
    rewrite (IH e rest fuel _ (st_after s (map RFiles pages ++ RFail e :: rest)
                                 (ticks s) _));
      auto; [|lia].
    rewrite st_after_after. cbn [page_start num_files paging_calls app].
    rewrite Hp, Hpage.
    replace (page_start p + limit + limit + limit * len pages)
      with (page_start p + limit + limit * len (page :: pages))
      by (unfold len; cbn [List.length]; lia).
    reflexivity.
Qed.

Lemma page_catalog_fails (pages : list (list FileEntry)) e rest s :
  Forall (fun page => len page = limit) pages ->
  pending s = map RFiles pages ++ RFail e :: rest ->
  run (page_catalog limit query) s =
  (Raise e,
   st_after s rest (ticks s)
     (catalog_calls limit query pages
      ++ [Called (query_after limit query pages) (RFail e)])).
Proof.
  intros Hfull Hs. unfold page_catalog.
  destruct pages as [|page pages]; simpl in Hs.
  - rewrite (run_bind_raise _ _ _ _ _ (run_call_fail _ _ _ _ Hs)).
    reflexivity.
  - apply Forall_cons_iff in Hfull as [Hpage Hfull].
    rewrite (run_bind_ok _ _ _ _ _ (run_call_ok _ _ _ _ Hs eq_refl)).
    cbv beta. erewrite (run_bind_ok (get_files _)) by reflexivity.
    erewrite (run_bind_raise (while_ _ _ _)); cycle 1.
    { rewrite run_while_.
      rewrite (paging_loop_fails pages e rest); auto.
      simpl. rewrite !length_app, length_map. simpl. lia. }
    rewrite st_after_after. cbn [page_start catalog_calls query_after app].
    rewrite Hpage.
    replace (0 + limit + limit * len pages) with (limit * len (page :: pages))
      by (unfold len; cbn [List.length]; lia).
    reflexivity.
Qed.

End PagingFails.

(** X7: A failure on any page of the file discovery ends the work on the
    TransferRequest: the pages already read are dropped, no record is
    fetched and no bundle is created.  The Picker quarantines the request
    with the text of the exception and reports that no work was claimed;
    the Locator quarantines it likewise and raises the exception again. *)
Theorem failed_page_abandons_the_request :
  forall (picker : Picker.Config) (locator : Locator.Config)
         (tr : TransferRequest) (pages : list (list FileEntry)) (e : Exc)
         (rest : list Response) (s : State),
    Forall (fun page => len page = 9000) pages ->
    pending s = RTransferRequest (Some tr) :: map RFiles pages
                  ++ RFail e :: rest ->
    run (Picker._do_work_claim picker) s =
    (Ok false,
     st_after s (snd (next_answer rest)) (S (ticks s))
       (Called (picker_pop_call picker) (RTransferRequest (Some tr))
        :: (catalog_calls 9000
              (Picker.query_dict (tr_source tr) (tr_path tr)) pages
            ++ [Called
                  (query_after 9000
                     (Picker.query_dict (tr_source tr) (tr_path tr)) pages)
                  (RFail e)])
        ++ quarantine_events "TransferRequest" (tr_uuid tr) (exc_str e)
             (PATCH_transfer_request (tr_uuid tr)
                (quarantine_body "picker"
                   (instance_uuid (Picker.component picker))
                   (exc_str e) (clock s (ticks s))))
             (fst (next_answer rest)))) /\
    run (Locator._do_work_claim locator) s =
    (Raise e,
     st_after s (snd (next_answer rest)) (S (ticks s))
       (Called (locator_pop_call locator) (RTransferRequest (Some tr))
        :: (catalog_calls 9000
              (Locator.query_dict (tr_source tr) (tr_path tr)) pages
            ++ [Called
                  (query_after 9000
                     (Locator.query_dict (tr_source tr) (tr_path tr)) pages)
                  (RFail e)])
        ++ quarantine_events "TransferRequest" (tr_uuid tr) (exc_str e)
             (PATCH_transfer_request (tr_uuid tr)
                (quarantine_body "locator"
                   (instance_uuid (Locator.component locator))
                   (exc_str e) (clock s (ticks s))))
             (fst (next_answer rest)))).
Proof.
  intros picker locator tr pages e rest s Hfull Hs. split.
  - rewrite (picker_claim_raised picker tr _ s Hs e
               (st_after s rest (ticks s)
                  (Called (picker_pop_call picker) (RTransferRequest (Some tr))
                   :: catalog_calls 9000
                        (Picker.query_dict (tr_source tr) (tr_path tr)) pages
                   ++ [Called
                         (query_after 9000
                            (Picker.query_dict (tr_source tr) (tr_path tr))
                            pages)
                         (RFail e)]))).
    + rewrite st_after_after. reflexivity.
    + unfold Picker._do_work_transfer_request.
      erewrite run_bind_raise; cycle 1.
      { apply page_catalog_fails; [exact Hfull|reflexivity]. }
      rewrite st_after_after. reflexivity.
  - rewrite (locator_claim_raised locator tr _ s Hs e
               (st_after s rest (ticks s)
                  (Called (locator_pop_call locator)
                     (RTransferRequest (Some tr))
                   :: catalog_calls 9000
                        (Locator.query_dict (tr_source tr) (tr_path tr)) pages
                   ++ [Called
                         (query_after 9000
                            (Locator.query_dict (tr_source tr) (tr_path tr))
                            pages)
                         (RFail e)]))).
    + rewrite st_after_after. reflexivity.
    + unfold Locator._do_work_transfer_request.
      erewrite run_bind_raise; cycle 1.
      { apply page_catalog_fails; [exact Hfull|reflexivity]. }
      rewrite st_after_after. reflexivity.
Qed.

Lemma failed_page_abandons_the_request_witness :
  let s := Sample.start [RTransferRequest (Some Sample.tr);
                         RFiles Sample.full_page; RFail More.boom; RNone] in
  fst (run (Picker._do_work_claim (Sample.picker 25000)) s) = Ok false /\
  fst (run (Locator._do_work_claim Sample.locator) s) = Raise More.boom.
Proof.
  intros s.
  assert (Hfull : Forall (fun page : list FileEntry => len page = 9000)
                    [Sample.full_page])
    by (constructor; [vm_compute; reflexivity|constructor]).
  pose proof (failed_page_abandons_the_request (Sample.picker 25000)
                Sample.locator Sample.tr [Sample.full_page] More.boom [RNone]
                s Hfull eq_refl) as [Hp Hl].
  rewrite Hp, Hl. split; reflexivity.
Defined.

(** ** The offsets of the file discovery *)

Lemma paging_calls_numbered (limit : Z) (query : JVal)
    (pages : list (list FileEntry)) (last : list FileEntry) :
  forall n : nat,
    Forall (fun page => len page = limit) pages ->
    paging_calls limit query (limit * Z.of_nat (S n)) (pages ++ [last]) =
    imap
      (fun i page =>
         Called (GET_files query None limit (limit * Z.of_nat (S n + i)))
           (RFiles page))
      (pages ++ [last]).
Proof.
  induction pages as [|page pages IH]; intros n Hfull.
  - cbn [app paging_calls imap]. now rewrite Nat.add_0_r.
  - apply Forall_cons_iff in Hfull as [Hpage Hfull].
    cbn [app paging_calls imap]. rewrite Nat.add_0_r. f_equal.
    replace (limit * Z.of_nat (S n) + len page)
      with (limit * Z.of_nat (S (S n)))
      by (rewrite Hpage, !Nat2Z.inj_succ; lia).
    rewrite (IH (S n) Hfull). apply imap_ext. intros i x _. cbn [compose].
    unfold compose.
    replace (S n + S i)%nat with (S (S n) + i)%nat by lia. reflexivity.
Qed.

(** X8: In a file discovery that comes to its end, the request for page k
    (counted from 0) starts at [k * FILE_CATALOG_LIMIT], and only the
    request for page 0 carries [keys]: no file is asked for twice and none
    is skipped as long as the catalog does not change. *)
Theorem page_offsets_are_multiples_of_the_limit :
  forall (limit : Z) (query : JVal) (pages : list (list FileEntry))
         (last : list FileEntry) (rest : list Response) (s : State),
    Forall (fun page => len page = limit) pages ->
    len last <> limit ->
    pending s = map RFiles (pages ++ [last]) ++ rest ->
    run (page_catalog limit query) s =
    (Ok (concat (pages ++ [last])),
     st_after s rest (ticks s)
       (numbered_queries limit query (pages ++ [last]))).
Proof.
  intros limit query pages last rest s Hfull Hlast Hs.
  rewrite (page_catalog_run limit query pages last rest s Hfull Hlast Hs).
  do 2 f_equal. unfold numbered_queries, catalog_calls.
  destruct pages as [|page pages]; [cbn; repeat f_equal; lia|].
  apply Forall_cons_iff in Hfull as [Hpage Hfull].
  cbn [app imap]. f_equal; [repeat f_equal; lia|].
  replace (0 + len page) with (limit * Z.of_nat 1) by lia.
  rewrite (paging_calls_numbered limit query pages last 0 Hfull).
  apply imap_ext. intros i x _. reflexivity.
Qed.

Lemma page_offsets_are_multiples_of_the_limit_witness :
  let s := Sample.start [RFiles Sample.full_page; RFiles Sample.full_page;
                         RFiles [Sample.file "g"]; RNone] in
  trace (snd (run (page_catalog 9000 (JObj [])) s)) =
  [ Called (GET_files (JObj []) (Some "uuid") 9000 0) (RFiles Sample.full_page);
    Called (GET_files (JObj []) None 9000 9000) (RFiles Sample.full_page);
    Called (GET_files (JObj []) None 9000 18000) (RFiles [Sample.file "g"]) ].
Proof.
  intros s.
  assert (Hfull : Forall (fun page : list FileEntry => len page = 9000)
                    [Sample.full_page; Sample.full_page])
    by (repeat constructor; vm_compute; reflexivity).
  assert (Hlast : len [Sample.file "g"] <> 9000) by (vm_compute; discriminate).
  rewrite (page_offsets_are_multiples_of_the_limit 9000 (JObj [])
             [Sample.full_page; Sample.full_page] [Sample.file "g"] [RNone] s
             Hfull Hlast eq_refl).
  reflexivity.
Defined.

(** ** Loops that are cut short *)

Section CutShort.

Lemma for_each_app_raise {A : Type} (body : A -> M unit) (l1 l2 : list A) x e :
  forall s s1 s2,
    run (for_each l1 body) s = (Ok tt, s1) ->
    run (body x) s1 = (Raise e, s2) ->
    run (for_each (l1 ++ x :: l2) body) s = (Raise e, s2).
Proof.
  induction l1 as [|a l1 IH]; intros s s1 s2 Hdone Hx.
  - cbn in Hdone. injection Hdone as <-.
    cbn [app for_each]. now apply run_bind_raise.
  - cbn [app for_each] in *. rewrite run_bind in *.
    destruct (run (body a) s) as [[[]|e'|] s']; try discriminate.
    eauto.
Qed.

Lemma for_collect_app_raise {A B : Type} (f : A -> M B) (l1 l2 : list A) x e :
  forall s ys s1 s2,
    run (for_collect l1 f) s = (Ok ys, s1) ->
    run (f x) s1 = (Raise e, s2) ->
    run (for_collect (l1 ++ x :: l2) f) s = (Raise e, s2).
Proof.
  induction l1 as [|a l1 IH]; intros s ys s1 s2 Hdone Hx.
  - cbn in Hdone. injection Hdone as <- <-.
    cbn [app for_collect]. now apply run_bind_raise.
  - cbn [app for_collect] in *. rewrite run_bind in *.
    destruct (run (f a) s) as [[y|e'|] s']; try discriminate.
    rewrite run_bind in *.
    destruct (run (for_collect l1 f) s') as [[ys'|e'|] s''] eqn:Hrest;
      try discriminate.
    cbn in Hdone. injection Hdone as <- <-.
    now rewrite (IH _ _ _ _ Hrest Hx).
Qed.

Lemma picker_create_refused (self : Picker.Config) (b : JVal) r e rest s :
  refused r e -> pending s = r :: rest ->
  run (do! Picker._create_bundle self b in ret tt) s =
  (Raise e, st_after s rest (ticks s) [Called (create_call b) r]).
Proof.
  intros [->|[-> ->]] Hs; unfold Picker._create_bundle;
    apply run_bind_raise.
  - apply run_bind_raise. now apply run_call_fail.
  - rewrite (run_bind_ok _ _ _ _ _ (run_call_ok _ _ _ _ Hs eq_refl)).
    reflexivity.
Qed.

Lemma locator_create_refused (self : Locator.Config) (b : JVal) r e rest s :
  refused r e -> pending s = r :: rest ->
  run (do! Locator._create_bundle self b in ret tt) s =
  (Raise e, st_after s rest (ticks s) [Called (create_call b) r]).
Proof.
  intros [->|[-> ->]] Hs; unfold Locator._create_bundle;
    apply run_bind_raise.
  - apply run_bind_raise. now apply run_call_fail.
  - rewrite (run_bind_ok _ _ _ _ _ (run_call_ok _ _ _ _ Hs eq_refl)).
    reflexivity.
Qed.

End CutShort.

(** The discovery and the fetching of the records, when all of it is
    answered. *)
Ltac fetch_all Hfull Hlast Hne Hs R :=
  rewrite (run_bind_ok _ _ _ _ _
             (page_catalog_run _ _ _ _ _ _ Hfull Hlast Hs));
  match type of Hne with
  | concat ?ps <> [] =>
      let f := fresh "f" in
      let fs := fresh "fs" in
      let Hfiles := fresh "Hfiles" in
      destruct (concat ps) as [|f fs] eqn:Hfiles; [congruence|];
      rewrite <- Hfiles in *; clear Hfiles f fs
  end;
  erewrite (run_bind_ok (for_collect (concat _) _));
  [|apply (for_collect_calls (fun f => GET_file (fe_uuid f)) _
             (map RRecord R));
    [now rewrite length_map
    |apply Forall_fmap, Forall_true; intros ?; reflexivity
    |reflexivity]].

Section PickerFails.

Variables (self : Picker.Config) (tr : TransferRequest).
Variables (pages : list (list FileEntry)) (last : list FileEntry).
Variable R : list CatalogRecord.
Hypothesis Hfull : Forall (fun page => len page = 9000) pages.
Hypothesis Hlast : len last <> 9000.
Hypothesis Hne : concat (pages ++ [last]) <> [].
Hypothesis HR : List.length R = List.length (concat (pages ++ [last])).


Lemma picker_work_refused B sent bin unsent created r e rest s :
  Picker.sites self !! tr_dest tr = Some {| Picker.bundle_size := B |} ->
  Forall (fun bin => len bin <= Picker.max_file_count self)
    (Binpacking.to_constant_volume (packing_list R) B) ->
  Binpacking.to_constant_volume (packing_list R) B = sent ++ bin :: unsent ->
  List.length created = List.length sent ->
  Forall (fun us => us <> []) created ->
  refused r e ->
  pending s =
    map RFiles (pages ++ [last]) ++ map RRecord R
      ++ map RBundles created ++ r :: rest ->
  run (Picker._do_work_transfer_request self tr) s =
  (Raise e,
   st_after s rest (ticks s)
     (catalog_calls 9000 (Picker.query_dict (tr_source tr) (tr_path tr))
        (pages ++ [last])
      ++ fetch_calls (map fe_uuid (concat (pages ++ [last]))) (map RRecord R)
      ++ create_calls (map (Picker.bundle_of tr) sent) created
      ++ [Called (create_call (Picker.bundle_of tr bin)) r])).
Proof.
  intros Hsite Hgate Hbins Hcreated Hus Hr Hs.
  unfold Picker._do_work_transfer_request.
  fetch_all Hfull Hlast Hne Hs R.
  rewrite (run_bind_ok _ _ _ _ _ (for_collect_records _ _ R _)).
  rewrite Hsite. erewrite (run_bind_ok (ret _)) by reflexivity.
  cbn [Picker.bundle_size].
  rewrite (run_bind_ok _ _ _ _ _ (picker_gate_open _ _ _ _ Hgate)).
  unfold packing_list in Hbins. rewrite Hbins.
  erewrite for_each_app_raise; cycle 1.
  { apply (for_each_creates _ _ (map (Picker.bundle_of tr) sent))
      with (created := created) (rest := r :: rest); auto.
    apply Forall2_fmap_r, Forall_Forall2_diag, Forall_true.
    intros b us rest' s'. apply picker_create_one. }
  { apply picker_create_refused; [exact Hr|reflexivity]. }
  rewrite !st_after_after. unfold fetch_calls.
  rewrite zip_with_fmap_l. reflexivity.
Qed.

End PickerFails.

(** ** The text of a KeyError *)




(** ** The Picker gives up a request *)



(** X10: When the LTA DB refuses a bundle (the request fails, or it answers
    with an empty list of uuids), the bundles that the Picker created
    before stay created, the bundles after it are never sent, and the
    request is quarantined with the text of the exception. *)
Theorem refused_bundle_keeps_the_earlier_ones :
  forall (self : Picker.Config) (tr : TransferRequest)
         (pages : list (list FileEntry)) (last : list FileEntry)
         (R : list CatalogRecord) (B : Z)
         (sent unsent : list (list (Z * CatalogRecord)))
         (bin : list (Z * CatalogRecord)) (created : list (list string))
         (r : Response) (e : Exc) (rest : list Response) (s : State),
    Forall (fun page => len page = 9000) pages ->
    len last <> 9000 ->
    concat (pages ++ [last]) <> [] ->
    List.length R = List.length (concat (pages ++ [last])) ->
    Picker.sites self !! tr_dest tr = Some {| Picker.bundle_size := B |} ->
    Forall (fun bin => len bin <= Picker.max_file_count self)
      (Binpacking.to_constant_volume (packing_list R) B) ->
    Binpacking.to_constant_volume (packing_list R) B = sent ++ bin :: unsent ->
    List.length created = List.length sent ->
    Forall (fun us => us <> []) created ->
    refused r e ->
    pending s =
      RTransferRequest (Some tr) :: map RFiles (pages ++ [last])
        ++ map RRecord R ++ map RBundles created ++ r :: rest ->
    run (Picker._do_work_claim self) s =
    (Ok false,
     st_after s (snd (next_answer rest)) (S (ticks s))
       (Called (picker_pop_call self) (RTransferRequest (Some tr))
        :: (catalog_calls 9000
              (Picker.query_dict (tr_source tr) (tr_path tr)) (pages ++ [last])
            ++ fetch_calls (map fe_uuid (concat (pages ++ [last])))
                 (map RRecord R)
            ++ create_calls (map (Picker.bundle_of tr) sent) created
            ++ [Called (create_call (Picker.bundle_of tr bin)) r])
        ++ quarantine_events "TransferRequest" (tr_uuid tr) (exc_str e)
             (PATCH_transfer_request (tr_uuid tr)
                (quarantine_body "picker"
                   (instance_uuid (Picker.component self))
                   (exc_str e) (clock s (ticks s))))
             (fst (next_answer rest)))).
Proof.
  intros self tr pages last R B sent unsent bin created r e rest s
    Hfull Hlast Hne HR Hsite Hgate Hbins Hcreated Hus Hr Hs.
  erewrite (picker_claim_raised self tr _ s Hs); cycle 1.
  { apply (picker_work_refused self tr pages last R Hfull Hlast Hne HR
             B sent bin unsent created r e);
      auto. }
  rewrite !st_after_after. reflexivity.
Qed.

Lemma refused_bundle_keeps_the_earlier_ones_witness :
  let r1 := Sample.record "f1" 600 [] in
  let r2 := Sample.record "f2" 600 [] in
  let s := Sample.start [RTransferRequest (Some Sample.tr);
                         RFiles [Sample.file "f1"; Sample.file "f2"];
                         RRecord r1; RRecord r2;
                         RBundles ["B-1"]; RBundles []; RNone] in
  fst (run (Picker._do_work_claim (Sample.picker 25000)) s) = Ok false /\
  List.length
    (List.filter is_bulk_create
       (trace (snd (run (Picker._do_work_claim (Sample.picker 25000)) s))))
  = 2%nat.
Proof.
  intros r1 r2 s.
  rewrite (refused_bundle_keeps_the_earlier_ones (Sample.picker 25000)
             Sample.tr [] [Sample.file "f1"; Sample.file "f2"] [r1; r2] 1000
             [[(600, r1)]] [] [(600, r2)] [["B-1"]] (RBundles [])
             {| exc_type := "IndexError";
                exc_str := "list index out of range" |} [RNone] s);
    try reflexivity.
  - split; reflexivity.
  - constructor.
  - vm_compute. discriminate.
  - vm_compute. discriminate.
  - repeat constructor; vm_compute; discriminate.
  - repeat constructor. discriminate.
  - right. split; reflexivity.
Defined.

(** ** The uuids that the Locator derives *)

Section ArchiveUuids.

Lemma has_char_before_first (c : ascii) (s : string) :
  has_char c (before_first c s) = false.
Proof.
  induction s as [|a s IH]; [reflexivity|].
  simpl. destruct (Ascii.eqb a c) eqn:Ha; [reflexivity|].
  simpl. now rewrite Ha.
Qed.

Lemma has_char_prefix (c d : ascii) (s : string) :
  has_char c s = false -> has_char c (before_first d s) = false.
Proof.
  induction s as [|a s IH]; [reflexivity|].
  simpl. intros H. apply orb_false_iff in H as [Ha Hs].
  destruct (Ascii.eqb a d); [reflexivity|].
  simpl. now rewrite Ha, IH.
Qed.

Lemma has_char_drop (c : ascii) (n : nat) :
  forall s, has_char c s = false -> has_char c (drop n s) = false.
Proof.
  induction n as [|n IH]; intros [|a s] H; simpl; auto.
  simpl in H. apply orb_false_iff in H as [_ Hs]. now apply IH.
Qed.

Lemma before_first_absent (c : ascii) (s : string) :
  has_char c s = false -> before_first c s = s.
Proof.
  induction s as [|a s IH]; [reflexivity|].
  simpl. intros H. apply orb_false_iff in H as [Ha Hs].
  now rewrite Ha, IH.
Qed.

Lemma rfind_absent (c : ascii) (s : string) :
  has_char c s = false -> rfind c s = -1.
Proof.
  induction s as [|a s IH]; [reflexivity|].
  simpl. intros H. apply orb_false_iff in H as [Ha Hs].
  now rewrite (IH Hs), Ha.
Qed.

Lemma basename_absent (p : string) :
  has_char "/"%char p = false -> basename p = p.
Proof.
  intros H. unfold basename. now rewrite (rfind_absent _ _ H).
Qed.

Lemma uuid_of_path_separators (path : string) :
  has_char "/"%char (Locator.uuid_of_path path) = false /\
  has_char ":"%char (Locator.uuid_of_path path) = false /\
  has_char "."%char (Locator.uuid_of_path path) = false.
Proof.
  rewrite uuid_of_path_spec. unfold archive_uuid. repeat split.
  - apply has_char_prefix, basename_no_slash.
  - apply has_char_prefix. unfold basename.
    apply has_char_drop, has_char_before_first.
  - apply has_char_before_first.
Qed.

Lemma uuid_of_path_again (path : string) :
  Locator.uuid_of_path (Locator.uuid_of_path path) = Locator.uuid_of_path path.
Proof.
  destruct (uuid_of_path_separators path) as (Hslash & Hcolon & Hdot).
  rewrite (uuid_of_path_spec (Locator.uuid_of_path path)).
  unfold archive_uuid.
  rewrite (before_first_absent _ _ Hcolon), (basename_absent _ Hslash).
  now apply before_first_absent.
Qed.

Lemma unique_archives_from_paths records source u :
  In u (Locator._get_unique_archives records source) ->
  exists path, u = Locator.uuid_of_path path.
Proof.
  rewrite get_unique_archives_spec. unfold unique_archives_spec.
  rewrite first_seen_In, in_map_iff. intros (path & <- & _).
  exists path. symmetry. apply uuid_of_path_spec.
Qed.

Lemma first_seen_nil (l : list string) : first_seen l = [] -> l = [].
Proof. destruct l; [reflexivity|discriminate]. Qed.

Lemma unique_archives_none records source :
  Locator._get_unique_archives records source = [] <->
  Forall
    (fun record =>
       Forall (fun location => Locator.at_source_archive source location = false)
         (locations record))
    records.
Proof.
  rewrite get_unique_archives_spec. unfold unique_archives_spec.
  split.
  - intros H. apply first_seen_nil, map_eq_nil in H.
    induction records as [|r records IH]; [constructor|].
    unfold participating_paths in *. cbn [flat_map] in H.
    apply app_eq_nil in H as [Hr Hrest].
    constructor; [|now apply IH].
    apply map_eq_nil in Hr. apply List.Forall_forall. intros l Hl.
    rewrite at_source_archive_spec.
    destruct (participates source l) eqn:Hp; [|reflexivity].
    assert (Hin : In l (List.filter (participates source) (locations r)))
      by (apply List.filter_In; auto).
    rewrite Hr in Hin. destruct Hin.
  - intros H. replace (participating_paths records source) with (@nil string);
      [reflexivity|].
    induction H as [|r records Hr Hrest IH]; [reflexivity|].
    unfold participating_paths in *. cbn [flat_map]. rewrite <- IH.
    rewrite app_nil_r.
    induction Hr as [|l ls Hl Hls IHl]; [reflexivity|].
    cbn [List.filter]. rewrite <- at_source_archive_spec, Hl. exact IHl.
Qed.

End ArchiveUuids.

(** X11: Every uuid that the Locator derives and then asks the File Catalog
    for is free of the characters it was cut at: it holds no slash, no
    colon and no dot, and deriving a uuid from it again gives it back. *)
Theorem archive_uuids_have_no_separator :
  forall (records : list CatalogRecord) (source u : string),
    In u (Locator._get_unique_archives records source) ->
    has_char "/"%char u = false /\
    has_char ":"%char u = false /\
    has_char "."%char u = false /\
    Locator.uuid_of_path u = u.
Proof.
  intros records source u Hu.
  apply unique_archives_from_paths in Hu as [path ->].
  destruct (uuid_of_path_separators path) as (Hslash & Hcolon & Hdot).
  repeat split; auto. apply uuid_of_path_again.
Qed.

Lemma archive_uuids_have_no_separator_witness :
  has_char "/"%char "DEADBEEF1234" = false /\
  has_char ":"%char "DEADBEEF1234" = false /\
  has_char "."%char "DEADBEEF1234" = false /\
  Locator.uuid_of_path "DEADBEEF1234" = "DEADBEEF1234".
Proof.
  apply (archive_uuids_have_no_separator Sample.archived_records "WIPAC").
  vm_compute. left. reflexivity.
Defined.

(** X12: The uuids of a longer list of records are the uuids of its first
    part, followed by those of the second part that the first part did
    not give already: records that come later never move or remove a uuid
    found earlier. *)
Theorem unique_archives_of_more_records :
  forall (records1 records2 : list CatalogRecord) (source : string),
    Locator._get_unique_archives (records1 ++ records2) source =
    Locator._get_unique_archives records1 source
    ++ List.filter
         (fun u =>
            Locator.not_in u (Locator._get_unique_archives records1 source))
         (Locator._get_unique_archives records2 source).
Proof.
  intros records1 records2 source.
  unfold Locator._get_unique_archives at 1.
  rewrite flat_map_app, fold_left_app.
  fold (Locator._get_unique_archives records1 source).
  rewrite collect_first_seen. do 2 f_equal.
  unfold Locator._get_unique_archives. rewrite collect_first_seen. simpl.
  rewrite (List.filter_ext _ (fun _ => true)) by reflexivity.
  generalize (first_seen
                (map Locator.uuid_of_path
                   (flat_map
                      (fun record =>
                         map loc_path
                           (List.filter (Locator.at_source_archive source)
                              (locations record))) records2))).
  induction l as [|x l IH]; simpl; congruence.
Qed.

(** ** The Locator gives up a request *)

Section LocatorFails.

Variables (self : Locator.Config) (tr : TransferRequest).
Variables (pages : list (list FileEntry)) (last : list FileEntry).
Variable R : list CatalogRecord.
Hypothesis Hfull : Forall (fun page => len page = 9000) pages.
Hypothesis Hlast : len last <> 9000.
Hypothesis Hne : concat (pages ++ [last]) <> [].
Hypothesis HR : List.length R = List.length (concat (pages ++ [last])).

Lemma locator_work_created (done : list CatalogRecord) created rest s :
  Forall (fun r => lta r <> None) done ->
  List.length created = List.length done ->
  Forall (fun us => us <> []) created ->
  pending s = map RBundles created ++ rest ->
  run (for_each (map RRecord done)
         (fun bundle_record =>
            let! r := get_record "file_size" bundle_record in
            let! l := match lta r with
                      | Some l => ret l
                      | None => key_error "lta"
                      end in
            do! Locator._create_bundle self (Locator.bundle_of tr r l) in
            ret tt)) s =
  (Ok tt, st_after s rest (ticks s) (create_calls (locator_bundles tr done) created)).
Proof.
  intros Hlta Hcreated Hus Hs.
  apply (for_each_creates _ _ (locator_bundles tr done)); auto.
  - clear -Hlta. induction Hlta as [|r BR Hr HBR IH]; [constructor|].
    unfold locator_bundles in *. cbn [map flat_map].
    destruct (lta r) as [l|] eqn:Hl; [|congruence].
    constructor; [|exact IH].
    intros us rest' s'. now apply locator_create_one.
  - now rewrite length_map.
Qed.

Lemma locator_work_without_lta done r left created rest s :
  List.length (done ++ r :: left) =
    List.length (Locator._get_unique_archives R (tr_source tr)) ->
  Forall (fun r => lta r <> None) done ->
  lta r = None ->
  List.length created = List.length done ->
  Forall (fun us => us <> []) created ->
  pending s =
    map RFiles (pages ++ [last]) ++ map RRecord R
      ++ map RRecord (done ++ r :: left) ++ map RBundles created ++ rest ->
  run (Locator._do_work_transfer_request self tr) s =
  (Raise {| exc_type := "KeyError"; exc_str := "'lta'" |},
   st_after s rest (ticks s)
     (catalog_calls 9000 (Locator.query_dict (tr_source tr) (tr_path tr))
        (pages ++ [last])
      ++ fetch_calls (map fe_uuid (concat (pages ++ [last]))) (map RRecord R)
      ++ fetch_calls (Locator._get_unique_archives R (tr_source tr))
           (map RRecord (done ++ r :: left))
      ++ create_calls (locator_bundles tr done) created)).
Proof.
  intros HBR Hdone Hr Hcreated Hus Hs.
  unfold Locator._do_work_transfer_request.
  fetch_all Hfull Hlast Hne Hs R.
  rewrite (run_bind_ok _ _ _ _ _ (for_collect_get_record _ R _)).
  erewrite (run_bind_ok (for_collect _ _)); cycle 1.
  { apply (for_collect_calls GET_file _ (map RRecord (done ++ r :: left))).
    - now rewrite length_map.
    - apply Forall_fmap, Forall_true. intros r0. reflexivity.
    - reflexivity. }
  rewrite map_app. cbn [map].
  erewrite for_each_app_raise; cycle 1.
  { apply locator_work_created with (created := created) (rest := rest);
      auto. }
  { erewrite (run_bind_ok (get_record _ _)) by reflexivity. cbv beta.
    rewrite Hr. apply run_bind_raise. reflexivity. }
  rewrite !st_after_after. unfold fetch_calls.
  rewrite zip_with_fmap_l. reflexivity.
Qed.

Lemma locator_work_refused done r l left created a e rest s :
  List.length (done ++ r :: left) =
    List.length (Locator._get_unique_archives R (tr_source tr)) ->
  Forall (fun r => lta r <> None) done ->
  lta r = Some l ->
  List.length created = List.length done ->
  Forall (fun us => us <> []) created ->
  refused a e ->
  pending s =
    map RFiles (pages ++ [last]) ++ map RRecord R
      ++ map RRecord (done ++ r :: left) ++ map RBundles created
      ++ a :: rest ->
  run (Locator._do_work_transfer_request self tr) s =
  (Raise e,
   st_after s rest (ticks s)
     (catalog_calls 9000 (Locator.query_dict (tr_source tr) (tr_path tr))
        (pages ++ [last])
      ++ fetch_calls (map fe_uuid (concat (pages ++ [last]))) (map RRecord R)
      ++ fetch_calls (Locator._get_unique_archives R (tr_source tr))
           (map RRecord (done ++ r :: left))
      ++ create_calls (locator_bundles tr done) created
      ++ [Called (create_call (Locator.bundle_of tr r l)) a])).
Proof.
  intros HBR Hdone Hr Hcreated Hus Ha Hs.
  unfold Locator._do_work_transfer_request.
  fetch_all Hfull Hlast Hne Hs R.
  rewrite (run_bind_ok _ _ _ _ _ (for_collect_get_record _ R _)).
  erewrite (run_bind_ok (for_collect _ _)); cycle 1.
  { apply (for_collect_calls GET_file _ (map RRecord (done ++ r :: left))).
    - now rewrite length_map.
    - apply Forall_fmap, Forall_true. intros r0. reflexivity.
    - reflexivity. }
  rewrite map_app. cbn [map].
  erewrite for_each_app_raise; cycle 1.
  { apply locator_work_created
      with (created := created) (rest := a :: rest); auto. }
  { erewrite (run_bind_ok (get_record _ _)) by reflexivity. cbv beta.
    rewrite Hr. erewrite (run_bind_ok (ret _)) by reflexivity.
    apply locator_create_refused; [exact Ha|reflexivity]. }
  rewrite !st_after_after. unfold fetch_calls.
  rewrite zip_with_fmap_l. reflexivity.
Qed.

Lemma locator_work_locates_nothing rest s :
  Forall
    (fun record =>
       Forall
         (fun location =>
            Locator.at_source_archive (tr_source tr) location = false)
         (locations record))
    R ->
  pending s = map RFiles (pages ++ [last]) ++ map RRecord R ++ rest ->
  run (Locator._do_work_transfer_request self tr) s =
  (Ok tt,
   st_after s rest (ticks s)
     (catalog_calls 9000 (Locator.query_dict (tr_source tr) (tr_path tr))
        (pages ++ [last])
      ++ fetch_calls (map fe_uuid (concat (pages ++ [last])))
           (map RRecord R))).
Proof.
  intros Hnone Hs. apply unique_archives_none in Hnone.
  rewrite (locator_work_creates self tr pages last R [] [] rest s);
    auto.
  - rewrite Hnone. cbn. now rewrite !app_nil_r.
  - now rewrite Hnone.
Qed.

End LocatorFails.

(** X13: When files are found but none of their locations is an archive at
    the source site, the Locator fetches every record and then has
    nothing to do: no archive is asked for, no bundle is created, the
    TransferRequest is neither quarantined nor patched, and the claim
    handler reports the work as done. *)
Theorem nothing_located_passes_in_silence :
  forall (self : Locator.Config) (tr : TransferRequest)
         (pages : list (list FileEntry)) (last : list FileEntry)
         (R : list CatalogRecord) (rest : list Response) (s : State),
    Forall (fun page => len page = 9000) pages ->
    len last <> 9000 ->
    concat (pages ++ [last]) <> [] ->
    List.length R = List.length (concat (pages ++ [last])) ->
    Forall
      (fun record =>
         Forall
           (fun location =>
              Locator.at_source_archive (tr_source tr) location = false)
           (locations record))
      R ->
    pending s =
      RTransferRequest (Some tr) :: map RFiles (pages ++ [last])
        ++ map RRecord R ++ rest ->
    run (Locator._do_work_claim self) s =
    (Ok true,
     st_after s rest (ticks s)
       (Called (locator_pop_call self) (RTransferRequest (Some tr))
        :: catalog_calls 9000
             (Locator.query_dict (tr_source tr) (tr_path tr)) (pages ++ [last])
        ++ fetch_calls (map fe_uuid (concat (pages ++ [last])))
             (map RRecord R))).
Proof.
  intros self tr pages last R rest s Hfull Hlast Hne HR Hnone Hs.
  erewrite (locator_claim_returned self tr _ s Hs); cycle 1.
  { apply (locator_work_locates_nothing self tr pages last R
             Hfull Hlast Hne HR);
      [exact Hnone|reflexivity]. }
  rewrite !st_after_after. reflexivity.
Qed.

Lemma nothing_located_passes_in_silence_witness :
  let r := Sample.record "f1" 10
             [ Sample.archived "DESY" "/a/b/DEADBEEF1234.zip:inner-1";
               {| loc_archive := None; loc_site := "WIPAC";
                  loc_path := "/data/exp/f1" |} ] in
  let s := Sample.start [RTransferRequest (Some Sample.tr);
                         RFiles [Sample.file "f1"]; RRecord r; RNone] in
  run (Locator._do_work_claim Sample.locator) s =
  (Ok true,
   st_after s [RNone] 0
     [ Called (locator_pop_call Sample.locator)
         (RTransferRequest (Some Sample.tr));
       Called (GET_files (Locator.query_dict "WIPAC" "/data/exp")
                 (Some "uuid") 9000 0) (RFiles [Sample.file "f1"]);
       Called (GET_file "f1") (RRecord r) ]).
Proof.
  intros r s.
  rewrite (nothing_located_passes_in_silence Sample.locator Sample.tr []
             [Sample.file "f1"] [r] [RNone] s);
    try reflexivity.
  - constructor.
  - vm_compute. discriminate.
  - vm_compute. discriminate.
  - repeat constructor.
Defined.

(** X14: The Locator reads the [lta] entry of an archive record only when it
    comes to that record: the bundles of the records before it are
    created already and stay, no bundle is sent for the record or for the
    records after it, the request is quarantined with the cause ['lta']
    and the KeyError is raised out of the claim handler. *)
Theorem archive_without_lta_stops_the_locator :
  forall (self : Locator.Config) (tr : TransferRequest)
         (pages : list (list FileEntry)) (last : list FileEntry)
         (R done left : list CatalogRecord) (r : CatalogRecord)
         (created : list (list string)) (rest : list Response) (s : State),
    Forall (fun page => len page = 9000) pages ->
    len last <> 9000 ->
    concat (pages ++ [last]) <> [] ->
    List.length R = List.length (concat (pages ++ [last])) ->
    List.length (done ++ r :: left) =
      List.length (Locator._get_unique_archives R (tr_source tr)) ->
    Forall (fun r => lta r <> None) done ->
    lta r = None ->
    List.length created = List.length done ->
    Forall (fun us => us <> []) created ->
    pending s =
      RTransferRequest (Some tr) :: map RFiles (pages ++ [last])
        ++ map RRecord R ++ map RRecord (done ++ r :: left)
        ++ map RBundles created ++ rest ->
    run (Locator._do_work_claim self) s =
    (Raise {| exc_type := "KeyError"; exc_str := "'lta'" |},
     st_after s (snd (next_answer rest)) (S (ticks s))
       (Called (locator_pop_call self) (RTransferRequest (Some tr))
        :: (catalog_calls 9000
              (Locator.query_dict (tr_source tr) (tr_path tr)) (pages ++ [last])
            ++ fetch_calls (map fe_uuid (concat (pages ++ [last])))
                 (map RRecord R)
            ++ fetch_calls (Locator._get_unique_archives R (tr_source tr))
                 (map RRecord (done ++ r :: left))
            ++ create_calls (locator_bundles tr done) created)
        ++ quarantine_events "TransferRequest" (tr_uuid tr) "'lta'"
             (PATCH_transfer_request (tr_uuid tr)
                (quarantine_body "locator"
                   (instance_uuid (Locator.component self))
                   "'lta'" (clock s (ticks s))))
             (fst (next_answer rest)))).
Proof.
  intros self tr pages last R done left r created rest s
    Hfull Hlast Hne HR HBR Hdone Hr Hcreated Hus Hs.
  erewrite (locator_claim_raised self tr _ s Hs); cycle 1.
  { apply (locator_work_without_lta self tr pages last R Hfull Hlast Hne HR
             done r left created);
      auto. }
  rewrite !st_after_after. reflexivity.
Qed.

Lemma archive_without_lta_stops_the_locator_witness :
  let a1 := Sample.archive_record "DEADBEEF1234" 300 in
  let a2 := Sample.record "CAFEBABE5678" 400 [] in
  let s := Sample.start
             ([RTransferRequest (Some Sample.tr);
               RFiles [Sample.file "f1"; Sample.file "f2"; Sample.file "f3"]]
              ++ map RRecord Sample.archived_records
              ++ [RRecord a1; RRecord a2; RBundles ["B-1"]; RNone]) in
  fst (run (Locator._do_work_claim Sample.locator) s) =
    Raise {| exc_type := "KeyError"; exc_str := "'lta'" |} /\
  List.length
    (List.filter is_bulk_create
       (trace (snd (run (Locator._do_work_claim Sample.locator) s)))) = 1%nat.
Proof.
  intros a1 a2 s.
  rewrite (archive_without_lta_stops_the_locator Sample.locator Sample.tr []
             [Sample.file "f1"; Sample.file "f2"; Sample.file "f3"]
             Sample.archived_records [a1] [] a2 [["B-1"]] [RNone] s);
    try reflexivity.
  - split; reflexivity.
  - constructor.
  - vm_compute. discriminate.
  - vm_compute. discriminate.
  - repeat constructor. discriminate.
  - repeat constructor. discriminate.
Defined.

(** X15: When the LTA DB refuses a bundle of the Locator (the request fails,
    or it answers with an empty list of uuids), the bundles created
    before stay, the archive records after it give no bundle, the request
    is quarantined with the text of the exception and the exception is
    raised out of the claim handler. *)
Theorem refused_bundle_stops_the_locator :
  forall (self : Locator.Config) (tr : TransferRequest)
         (pages : list (list FileEntry)) (last : list FileEntry)
         (R done left : list CatalogRecord) (r : CatalogRecord) (l : LtaInfo)
         (created : list (list string)) (a : Response) (e : Exc)
         (rest : list Response) (s : State),
    Forall (fun page => len page = 9000) pages ->
    len last <> 9000 ->
    concat (pages ++ [last]) <> [] ->
    List.length R = List.length (concat (pages ++ [last])) ->
    List.length (done ++ r :: left) =
      List.length (Locator._get_unique_archives R (tr_source tr)) ->
    Forall (fun r => lta r <> None) done ->
    lta r = Some l ->
    List.length created = List.length done ->
    Forall (fun us => us <> []) created ->
    refused a e ->
    pending s =
      RTransferRequest (Some tr) :: map RFiles (pages ++ [last])
        ++ map RRecord R ++ map RRecord (done ++ r :: left)
        ++ map RBundles created ++ a :: rest ->
    run (Locator._do_work_claim self) s =
    (Raise e,
     st_after s (snd (next_answer rest)) (S (ticks s))
       (Called (locator_pop_call self) (RTransferRequest (Some tr))
        :: (catalog_calls 9000
              (Locator.query_dict (tr_source tr) (tr_path tr)) (pages ++ [last])
            ++ fetch_calls (map fe_uuid (concat (pages ++ [last])))
                 (map RRecord R)
            ++ fetch_calls (Locator._get_unique_archives R (tr_source tr))
                 (map RRecord (done ++ r :: left))
            ++ create_calls (locator_bundles tr done) created
            ++ [Called (create_call (Locator.bundle_of tr r l)) a])
        ++ quarantine_events "TransferRequest" (tr_uuid tr) (exc_str e)
             (PATCH_transfer_request (tr_uuid tr)
                (quarantine_body "locator"
                   (instance_uuid (Locator.component self))
                   (exc_str e) (clock s (ticks s))))
             (fst (next_answer rest)))).
Proof.
  intros self tr pages last R done left r l created a e rest s
    Hfull Hlast Hne HR HBR Hdone Hr Hcreated Hus Ha Hs.
  erewrite (locator_claim_raised self tr _ s Hs); cycle 1.
  { apply (locator_work_refused self tr pages last R Hfull Hlast Hne HR
             done r l left created a e);
      auto. }
  rewrite !st_after_after. reflexivity.
Qed.

Lemma refused_bundle_stops_the_locator_witness :
  let a1 := Sample.archive_record "DEADBEEF1234" 300 in
  let a2 := Sample.archive_record "CAFEBABE5678" 400 in
  let s := Sample.start
             ([RTransferRequest (Some Sample.tr);
               RFiles [Sample.file "f1"; Sample.file "f2"; Sample.file "f3"]]
              ++ map RRecord Sample.archived_records
              ++ [RRecord a1; RRecord a2; RFail More.boom; RNone]) in
  fst (run (Locator._do_work_claim Sample.locator) s) = Raise More.boom /\
  List.length
    (List.filter is_bulk_create
       (trace (snd (run (Locator._do_work_claim Sample.locator) s)))) = 1%nat.
Proof.
  intros a1 a2 s.
  rewrite (refused_bundle_stops_the_locator Sample.locator Sample.tr []
             [Sample.file "f1"; Sample.file "f2"; Sample.file "f3"]
             Sample.archived_records [] [a2] a1
             {| lta_bundle_path := JStr "/a/b/DEADBEEF1234.zip";
                lta_checksum := JObj [ ("sha512", JStr "DEADBEEF1234") ] |}
             [] (RFail More.boom) More.boom [RNone] s);
    try reflexivity.
  - split; reflexivity.
  - constructor.
  - vm_compute. discriminate.
  - vm_compute. discriminate.
  - constructor.
  - constructor.
  - left. reflexivity.
Defined.

(** ** The RucioStager gives up a bundle *)

Section StagerFails.

Variables (self : RucioStager.Config) (bundle : Bundle).

Lemma stager_claim_raised rest s e s' :
  pending s = RBundle (Some bundle) :: rest ->
  run (RucioStager._stage_bundle self bundle)
    (st_after s rest (ticks s) [stager_pop self (Some bundle)])
  = (Raise e, s') ->
  run (RucioStager._do_work_claim self) s =
  (Raise e,
   st_after s' (snd (next_answer (pending s'))) (S (ticks s'))
     (quarantine_events "Bundle" (b_uuid bundle) (exc_str e)
        (PATCH_bundle (b_uuid bundle)
           (quarantine_body "rucio_stager"
              (instance_uuid (RucioStager.component self))
              (exc_str e) (clock s' (ticks s'))))
        (fst (next_answer (pending s'))))).
Proof.
  intros Hs Hstage. unfold RucioStager._do_work_claim.
  rewrite (run_bind_ok _ _ _ _ _ (run_call_ok _ _ _ _ Hs eq_refl)).
  erewrite (run_bind_ok (get_bundle _)) by reflexivity. cbv beta iota.
  erewrite (run_bind_raise (try_except _ _)); [reflexivity|].
  rewrite run_try_except, (run_bind_raise _ _ _ _ _ Hstage).
  rewrite (run_bind_ok _ _ _ _ _ (stager_quarantine_run _ _ _ _)).
  reflexivity.
Qed.

Lemma add_sizes_fails (got : list string) f left e :
  forall (sizes : list Z) (size : Z) rest s,
    List.length sizes = List.length got ->
    pending s = map RSize sizes ++ RFail e :: rest ->
    run (RucioStager.add_sizes (got ++ f :: left) size) s =
    (Raise e,
     st_after s rest (ticks s)
       (zip_with (fun f n => Called (OS_getsize f) (RSize n)) got sizes
        ++ [Called (OS_getsize f) (RFail e)])).
Proof.
  induction got as [|g got IH]; intros sizes size rest s Hlen Hs.
  - destruct sizes; [|discriminate]. simpl in Hs.
    cbn [app RucioStager.add_sizes].
    apply run_bind_raise. now apply run_call_fail.
  - destruct sizes as [|n sizes]; [discriminate|]. simpl in Hs, Hlen.
    cbn [app RucioStager.add_sizes].
    rewrite (run_bind_ok _ _ _ _ _ (run_call_ok _ _ _ _ Hs eq_refl)).
    erewrite (run_bind_ok (RucioStager.get_size _)) by reflexivity.
    rewrite (IH sizes (size + n) rest
               (st_after s (map RSize sizes ++ RFail e :: rest) (ticks s) _)
               ltac:(lia) eq_refl).
    rewrite st_after_after. reflexivity.
Qed.

Lemma stage_bundle_walk_fails e rest s :
  pending s = RFail e :: rest ->
  run (RucioStager._stage_bundle self bundle) s =
  (Raise e,
   st_after s rest (ticks s)
     [Called (OS_walk (RucioStager.rucio_inbox_path self)) (RFail e)]).
Proof.
  intros Hs. unfold RucioStager._stage_bundle, RucioStager._get_files_and_size,
    RucioStager._enumerate_path.
  do 3 apply run_bind_raise. now apply run_call_fail.
Qed.

Lemma stage_bundle_getsize_fails tree got f left sizes e rest s :
  disk_files_of tree = got ++ f :: left ->
  List.length sizes = List.length got ->
  pending s = RWalk tree :: map RSize sizes ++ RFail e :: rest ->
  run (RucioStager._stage_bundle self bundle) s =
  (Raise e,
   st_after s rest (ticks s)
     (Called (OS_walk (RucioStager.rucio_inbox_path self)) (RWalk tree)
      :: zip_with (fun f n => Called (OS_getsize f) (RSize n)) got sizes
      ++ [Called (OS_getsize f) (RFail e)])).
Proof.
  intros Htree Hlen Hs.
  unfold RucioStager._stage_bundle, RucioStager._get_files_and_size.
  apply run_bind_raise.
  erewrite (run_bind_ok (RucioStager._enumerate_path _)); cycle 1.
  { unfold RucioStager._enumerate_path.
    rewrite (run_bind_ok _ _ _ _ _ (run_call_ok _ _ _ _ Hs eq_refl)).
    reflexivity. }
  fold (disk_files_of tree). rewrite Htree.
  apply run_bind_raise.
  rewrite (add_sizes_fails got f left e sizes 0 rest
             (st_after s (map RSize sizes ++ RFail e :: rest) (ticks s) _)
             Hlen eq_refl).
  rewrite st_after_after. reflexivity.
Qed.

Lemma stage_bundle_unclaim_fails tree sizes e rest s :
  List.length sizes = List.length (disk_files_of tree) ->
  RucioStager.dest_quota self < sum_sizes sizes + b_size bundle ->
  pending s = RWalk tree :: map RSize sizes ++ RFail e :: rest ->
  run (RucioStager._stage_bundle self bundle) s =
  (Raise e,
   st_after s rest (S (ticks s))
     (measure_calls (RucioStager.rucio_inbox_path self) tree sizes
      ++ [Called (PATCH_bundle (b_uuid bundle)
                    (unclaim_body (clock s (ticks s)))) (RFail e)])).
Proof.
  intros Hlen Hover Hs. unfold RucioStager._stage_bundle.
  rewrite (run_bind_ok _ _ _ _ _
             (get_files_and_size_run _ tree sizes _ s Hlen Hs)).
  cbn [snd]. rewrite (proj2 (Z.ltb_lt _ _) Hover).
  unfold RucioStager._unclaim_bundle.
  apply run_bind_raise.
  rewrite (run_bind_ok _ _ _ _ _ (run_now _)).
  apply run_bind_raise.
  erewrite run_call_fail by reflexivity.
  rewrite !st_after_after. reflexivity.
Qed.

Lemma stage_bundle_patch_fails tree sizes moved e rest s :
  List.length sizes = List.length (disk_files_of tree) ->
  sum_sizes sizes + b_size bundle <= RucioStager.dest_quota self ->
  is_fail moved = false ->
  pending s = RWalk tree :: map RSize sizes ++ moved :: RFail e :: rest ->
  run (RucioStager._stage_bundle self bundle) s =
  (Raise e,
   st_after s rest (S (ticks s))
     (measure_calls (RucioStager.rucio_inbox_path self) tree sizes
      ++ [ Called
             (SHUTIL_move
                (path_join (RucioStager.bundler_outbox_path self)
                   (basename (b_bundle_path bundle)))
                (path_join (RucioStager.rucio_inbox_path self)
                   (basename (b_bundle_path bundle))))
             moved;
           Called
             (PATCH_bundle (b_uuid bundle)
                (staged_body
                   (path_join (RucioStager.rucio_inbox_path self)
                      (basename (b_bundle_path bundle)))
                   (clock s (ticks s))))
             (RFail e) ])).
Proof.
  intros Hlen Hfits Hmoved Hs.
  rewrite (stage_bundle_moves self bundle tree sizes _ s Hlen Hfits Hs).
  cbv zeta.
  erewrite (run_bind_ok (call _)); cycle 1.
  { apply run_call_ok; [reflexivity|exact Hmoved]. }
  rewrite (run_bind_ok _ _ _ _ _ (run_now _)).
  apply run_bind_raise.
  erewrite run_call_fail by reflexivity.
  rewrite !st_after_after. reflexivity.
Qed.

End StagerFails.

(** X16: When the inbox cannot be measured (the walk fails, or the size of
    one of its files cannot be read), the RucioStager stops measuring,
    moves no file and sends neither the unclaim nor the staged PATCH: the
    bundle is quarantined with the text of the exception, which is raised
    out of the claim handler. *)
Theorem failed_measurement_moves_nothing :
  forall (self : RucioStager.Config) (bundle : Bundle) (e : Exc)
         (rest : list Response) (s : State),
    (pending s = RBundle (Some bundle) :: RFail e :: rest ->
     run (RucioStager._do_work_claim self) s =
     (Raise e,
      st_after s (snd (next_answer rest)) (S (ticks s))
        (stager_pop self (Some bundle)
         :: Called (OS_walk (RucioStager.rucio_inbox_path self)) (RFail e)
         :: quarantine_events "Bundle" (b_uuid bundle) (exc_str e)
              (PATCH_bundle (b_uuid bundle)
                 (quarantine_body "rucio_stager"
                    (instance_uuid (RucioStager.component self))
                    (exc_str e) (clock s (ticks s))))
              (fst (next_answer rest))))) /\
    (forall tree got f left sizes,
        disk_files_of tree = got ++ f :: left ->
        List.length sizes = List.length got ->
        pending s =
          RBundle (Some bundle) :: RWalk tree :: map RSize sizes
            ++ RFail e :: rest ->
        run (RucioStager._do_work_claim self) s =
        (Raise e,
         st_after s (snd (next_answer rest)) (S (ticks s))
           (stager_pop self (Some bundle)
            :: (Called (OS_walk (RucioStager.rucio_inbox_path self))
                  (RWalk tree)
                :: zip_with (fun f n => Called (OS_getsize f) (RSize n))
                     got sizes
                ++ [Called (OS_getsize f) (RFail e)])
            ++ quarantine_events "Bundle" (b_uuid bundle) (exc_str e)
                 (PATCH_bundle (b_uuid bundle)
                    (quarantine_body "rucio_stager"
                       (instance_uuid (RucioStager.component self))
                       (exc_str e) (clock s (ticks s))))
                 (fst (next_answer rest))))).
Proof.
  intros self bundle e rest s. split.
  - intros Hs.
    erewrite (stager_claim_raised self bundle _ s e _ Hs); cycle 1.
    { now apply stage_bundle_walk_fails. }
    rewrite !st_after_after. reflexivity.
  - intros tree got f left sizes Htree Hlen Hs.
    erewrite (stager_claim_raised self bundle _ s e _ Hs); cycle 1.
    { apply (stage_bundle_getsize_fails self bundle tree got f left);
        [exact Htree|exact Hlen|reflexivity]. }
    rewrite !st_after_after. reflexivity.
Qed.

Lemma failed_measurement_moves_nothing_witness :
  let s := Sample.start [RBundle (Some Sample.bundle); RWalk Sample.inbox;
                         RFail More.boom; RNone] in
  fst (run (RucioStager._do_work_claim (Sample.stager 1000)) s)
  = Raise More.boom /\
  List.filter is_move
    (trace (snd (run (RucioStager._do_work_claim (Sample.stager 1000)) s)))
  = [].
Proof.
  intros s.
  rewrite (proj2 (failed_measurement_moves_nothing (Sample.stager 1000)
                    Sample.bundle More.boom [RNone] s)
             Sample.inbox [] "/data/rucio/inbox/B-3.zip" [] []
             eq_refl eq_refl eq_refl).
  split; reflexivity.
Defined.

(** X17: A PATCH of the RucioStager that fails is not tried again: the bundle
    is quarantined and the exception raised.  When it is the PATCH that
    gives the bundle back, no file was moved; when it is the PATCH that
    marks the bundle as staged, the file was moved already and stays in
    the inbox, under a bundle that the LTA DB still has as created. *)
Theorem failed_patch_quarantines_the_bundle :
  forall (self : RucioStager.Config) (bundle : Bundle)
         (tree : list (string * list string * list string))
         (sizes : list Z) (e : Exc) (rest : list Response) (s : State),
    List.length sizes = List.length (disk_files_of tree) ->
    let bundle_name := basename (b_bundle_path bundle) in
    let src_path := path_join (RucioStager.bundler_outbox_path self) bundle_name in
    let dst_path := path_join (RucioStager.rucio_inbox_path self) bundle_name in
    let measured :=
      stager_pop self (Some bundle)
        :: measure_calls (RucioStager.rucio_inbox_path self) tree sizes in
    let quarantined :=
      quarantine_events "Bundle" (b_uuid bundle) (exc_str e)
        (PATCH_bundle (b_uuid bundle)
           (quarantine_body "rucio_stager"
              (instance_uuid (RucioStager.component self))
              (exc_str e) (clock s (S (ticks s)))))
        (fst (next_answer rest)) in
    (RucioStager.dest_quota self < sum_sizes sizes + b_size bundle ->
     pending s =
       RBundle (Some bundle) :: RWalk tree :: map RSize sizes
         ++ RFail e :: rest ->
     run (RucioStager._do_work_claim self) s =
     (Raise e,
      st_after s (snd (next_answer rest)) (S (S (ticks s)))
        (measured
         ++ [Called (PATCH_bundle (b_uuid bundle)
                       (unclaim_body (clock s (ticks s)))) (RFail e)]
         ++ quarantined))) /\
    (forall moved,
        sum_sizes sizes + b_size bundle <= RucioStager.dest_quota self ->
        is_fail moved = false ->
        pending s =
          RBundle (Some bundle) :: RWalk tree :: map RSize sizes
            ++ moved :: RFail e :: rest ->
        run (RucioStager._do_work_claim self) s =
        (Raise e,
         st_after s (snd (next_answer rest)) (S (S (ticks s)))
           (measured
            ++ [ Called (SHUTIL_move src_path dst_path) moved;
                 Called (PATCH_bundle (b_uuid bundle)
                           (staged_body dst_path (clock s (ticks s))))
                   (RFail e) ]
            ++ quarantined))).
Proof.
  intros self bundle tree sizes e rest s Hlen
    bundle_name src_path dst_path measured quarantined.
  split.
  - intros Hover Hs.
    erewrite (stager_claim_raised self bundle _ s e _ Hs); cycle 1.
    { apply (stage_bundle_unclaim_fails self bundle tree sizes);
        [exact Hlen|exact Hover|reflexivity]. }
    rewrite !st_after_after. subst measured quarantined.
    cbn [pending ticks clock st_after app].
    rewrite <- !app_assoc. reflexivity.
  - intros moved Hfits Hmoved Hs.
    erewrite (stager_claim_raised self bundle _ s e _ Hs); cycle 1.
    { apply (stage_bundle_patch_fails self bundle tree sizes moved);
        [exact Hlen|exact Hfits|exact Hmoved|reflexivity]. }
    rewrite !st_after_after. subst measured quarantined.
    cbn [pending ticks clock st_after app].
    rewrite <- !app_assoc. reflexivity.
Qed.

Lemma failed_patch_quarantines_the_bundle_witness :
  let s := Sample.start [RBundle (Some Sample.bundle); RWalk Sample.inbox;
                         RSize 500; RNone; RFail More.boom; RNone] in
  fst (run (RucioStager._do_work_claim (Sample.stager 1000)) s)
  = Raise More.boom /\
  List.filter is_move
    (trace (snd (run (RucioStager._do_work_claim (Sample.stager 1000)) s)))
  = [ Called (SHUTIL_move "/data/bundler/outbox/B-7.zip"
                "/data/rucio/inbox/B-7.zip") RNone ].
Proof.
  intros s.
  rewrite (proj2 (failed_patch_quarantines_the_bundle (Sample.stager 1000)
                    Sample.bundle Sample.inbox [500] More.boom [RNone] s
                    eq_refl)
             RNone ltac:(vm_compute; discriminate) eq_refl eq_refl).
  split; reflexivity.
Defined.

(** ** What the workers never do *)

Ltac other_event :=
  match goal with
  | |- quarantines_request _ =>
      let H := fresh "H" in
      intros ? ? ? H; inversion H; subst; split; reflexivity
  | |- patches_bundle _ =>
      let H := fresh "H" in
      intros ? ? ? H; inversion H; subst;
      first [ left; split; reflexivity
            | right; left; split; reflexivity
            | right; right; repeat split; reflexivity ]
  | |- creates_for _ _ _ =>
      let H := fresh "H" in
      intros ? ? H; inversion H; subst;
      eexists; repeat split; reflexivity
  | |- moves_within _ _ _ =>
      let H := fresh "H" in
      intros ? ? ? H; discriminate H
  | |- _ /\ _ => split; reflexivity
  | |- _ /\ _ => repeat split; reflexivity
  end.

(** X18: Each worker speaks to its own collaborators only, whatever they
    answer: the Picker and the Locator never touch the disk and never
    claim or patch a Bundle; the RucioStager never asks the File Catalog,
    never creates a Bundle and never claims or patches a
    TransferRequest. *)
Theorem workers_keep_to_their_collaborators :
  (forall self : Picker.Config,
      emits (fun ev => on_disk ev = false /\ on_bundle ev = false)
        (Picker._do_work self)) /\
  (forall self : Locator.Config,
      emits (fun ev => on_disk ev = false /\ on_bundle ev = false)
        (Locator._do_work self)) /\
  (forall self : RucioStager.Config,
      emits
        (fun ev =>
           on_catalog ev = false /\ on_transfer_request ev = false /\
           is_bulk_create ev = false)
        (RucioStager._do_work self)).
Proof.
  split; [|split]; intros self.
  - open_worker. repeat (through || other_event).
  - open_worker. repeat (through || other_event).
  - unfold RucioStager._do_work. open_worker.
    repeat (through || other_event
            || (apply add_sizes_emits; intros; repeat split; reflexivity)).
Qed.

(** X19: The Picker and the Locator send a PATCH of a TransferRequest only to
    quarantine it: a request that was worked on with success is left as
    it was claimed.  The RucioStager sends a PATCH of a Bundle only to
    quarantine it, to give it back or to mark it as staged, and the last
    two set [claimed] to false. *)
Theorem patches_are_of_three_kinds :
  (forall self : Picker.Config,
      emits quarantines_request (Picker._do_work self)) /\
  (forall self : Locator.Config,
      emits quarantines_request (Locator._do_work self)) /\
  (forall self : RucioStager.Config,
      emits patches_bundle (RucioStager._do_work self)).
Proof.
  split; [|split]; intros self.
  - open_worker. repeat (through || other_event).
  - open_worker. repeat (through || other_event).
  - unfold RucioStager._do_work. open_worker.
    repeat (through || other_event
            || (apply add_sizes_emits; intros; other_event)).
Qed.

(** X20: Whatever the collaborators answer, every bundle that the work on a
    TransferRequest sends to [bulk_create] is a Bundle of that request:
    it carries the uuid, the source, the destination and the path of the
    request, an empty reason, and the status "specified" when it comes
    from the Picker and "located" when it comes from the Locator. *)
Theorem bundles_carry_their_request :
  (forall (self : Picker.Config) (tr : TransferRequest),
      emits (creates_for tr "specified")
        (Picker._do_work_transfer_request self tr)) /\
  (forall (self : Locator.Config) (tr : TransferRequest),
      emits (creates_for tr "located")
        (Locator._do_work_transfer_request self tr)).
Proof.
  split; intros self tr.
  - open_worker. repeat (through || other_event).
  - open_worker. repeat (through || other_event).
Qed.

(** ** The name of a staged file *)

Section KeepTheName.

Lemma rfind_after (c : ascii) (a b : string) :
  has_char c b = false ->
  rfind c (a ++ String c b)%string = Z.of_nat (String.length a).
Proof.
  intros Hb. induction a as [|x a IH].
  - rewrite append_nil_l. cbn [rfind].
    rewrite (rfind_absent c b Hb), Ascii.eqb_refl. reflexivity.
  - rewrite append_cons. cbn [rfind String.length]. rewrite IH.
    destruct (Z.leb_spec 0 (Z.of_nat (String.length a))); lia.
Qed.

Lemma drop_after (a b : string) :
  drop (String.length a) (a ++ b)%string = b.
Proof.
  induction a as [|x a IH].
  - now rewrite append_nil_l.
  - rewrite append_cons. exact IH.
Qed.

Lemma basename_after_slash (a name : string) :
  has_char "/"%char name = false ->
  basename (a ++ String "/"%char name)%string = name.
Proof.
  intros Hname. unfold basename. rewrite (rfind_after _ a name Hname).
  replace (Z.to_nat (Z.of_nat (String.length a) + 1))
    with (S (String.length a)) by lia.
  induction a as [|x a IH].
  - now rewrite append_nil_l.
  - rewrite append_cons. exact IH.
Qed.

Lemma endswith_char_split (c : ascii) (s : string) :
  endswith_char c s = true -> exists a, s = (a ++ String c EmptyString)%string.
Proof.
  induction s as [|x s IH]; [discriminate|].
  destruct s as [|y s].
  - simpl. intros Hx. apply Ascii.eqb_eq in Hx as ->.
    exists EmptyString. now rewrite append_nil_l.
  - intros H. destruct (IH H) as [a Ha].
    exists (String x a). rewrite append_cons. now rewrite <- Ha.
Qed.

Lemma basename_path_join (dir name : string) :
  has_char "/"%char name = false ->
  basename (path_join dir name) = name.
Proof.
  intros Hname. unfold path_join.
  assert (Hstart : startswith_char "/"%char name = false).
  { destruct name as [|x name]; [reflexivity|].
    simpl in *. now apply orb_false_iff in Hname as [-> _]. }
  rewrite Hstart.
  destruct (String.eqb_spec dir EmptyString) as [->|Hdir]; cbn [orb].
  - rewrite append_nil_l. now apply basename_absent.
  - destruct (endswith_char "/"%char dir) eqn:Hend.
    + apply endswith_char_split in Hend as [a ->].
      rewrite append_assoc, append_cons, append_nil_l.
      now apply basename_after_slash.
    + rewrite append_cons, append_nil_l. now apply basename_after_slash.
Qed.

End KeepTheName.

(** X21: Whatever the collaborators answer, a file that the RucioStager moves
    leaves the outbox of the bundler for the inbox of Rucio under the
    name it had: source and destination are the two directories joined
    with one and the same name, which holds no slash and is the basename
    of both. *)
Theorem a_move_keeps_the_name_of_the_file :
  forall self : RucioStager.Config,
    emits
      (moves_within (RucioStager.bundler_outbox_path self)
         (RucioStager.rucio_inbox_path self))
      (RucioStager._do_work self).
Proof.
  intros self. unfold RucioStager._do_work. open_worker.
  repeat (through
          || (apply add_sizes_emits; intros; other_event)
          || (intros ? ? ? H; discriminate H)).
  intros src dst moved H. inversion H; subst.
  match goal with
  | |- context [basename (b_bundle_path ?b)] =>
      exists (basename (b_bundle_path b));
      pose proof (basename_no_slash (b_bundle_path b)) as Hname
  end.
  repeat split; auto using basename_path_join.
Qed.

(** ** A record that cannot be fetched *)

Section FetchFails.

Variables (tr : TransferRequest).
Variables (pages : list (list FileEntry)) (last : list FileEntry).
Variables (got missed : list FileEntry) (f : FileEntry).
Variable R : list CatalogRecord.
Hypothesis Hfull : Forall (fun page => len page = 9000) pages.
Hypothesis Hlast : len last <> 9000.
Hypothesis Hfiles : concat (pages ++ [last]) = got ++ f :: missed.
Hypothesis HR : List.length R = List.length got.

Lemma fetching_fails e rest s :
  pending s = map RRecord R ++ RFail e :: rest ->
  run (for_collect (got ++ f :: missed)
         (fun catalog_file => call (GET_file (fe_uuid catalog_file)))) s =
  (Raise e,
   st_after s rest (ticks s)
     (fetch_calls (map fe_uuid got) (map RRecord R)
      ++ [Called (GET_file (fe_uuid f)) (RFail e)])).
Proof.
  intros Hs.
  erewrite for_collect_app_raise; cycle 1.
  { apply (for_collect_calls (fun f => GET_file (fe_uuid f)) _ (map RRecord R)
             (RFail e :: rest)).
    - now rewrite length_map.
    - apply Forall_fmap, Forall_true. intros r. reflexivity.
    - exact Hs. }
  { now apply run_call_fail. }
  rewrite st_after_after. unfold fetch_calls.
  rewrite zip_with_fmap_l. reflexivity.
Qed.

Lemma picker_work_fetch_fails (self : Picker.Config) e rest s :
  pending s =
    map RFiles (pages ++ [last]) ++ map RRecord R ++ RFail e :: rest ->
  run (Picker._do_work_transfer_request self tr) s =
  (Raise e,
   st_after s rest (ticks s)
     (catalog_calls 9000 (Picker.query_dict (tr_source tr) (tr_path tr))
        (pages ++ [last])
      ++ fetch_calls (map fe_uuid got) (map RRecord R)
      ++ [Called (GET_file (fe_uuid f)) (RFail e)])).
Proof.
  intros Hs. unfold Picker._do_work_transfer_request.
  rewrite (run_bind_ok _ _ _ _ _
             (page_catalog_run _ _ pages last _ s Hfull Hlast Hs)).
  rewrite Hfiles.
  destruct (got ++ f :: missed) as [|f0 fs] eqn:Hall;
    [now destruct got|].
  rewrite <- Hall. apply run_bind_raise.
  rewrite (fetching_fails e rest); [|reflexivity].
  rewrite st_after_after. reflexivity.
Qed.

Lemma locator_work_fetch_fails (self : Locator.Config) e rest s :
  pending s =
    map RFiles (pages ++ [last]) ++ map RRecord R ++ RFail e :: rest ->
  run (Locator._do_work_transfer_request self tr) s =
  (Raise e,
   st_after s rest (ticks s)
     (catalog_calls 9000 (Locator.query_dict (tr_source tr) (tr_path tr))
        (pages ++ [last])
      ++ fetch_calls (map fe_uuid got) (map RRecord R)
      ++ [Called (GET_file (fe_uuid f)) (RFail e)])).
Proof.
  intros Hs. unfold Locator._do_work_transfer_request.
  rewrite (run_bind_ok _ _ _ _ _
             (page_catalog_run _ _ pages last _ s Hfull Hlast Hs)).
  rewrite Hfiles.
  destruct (got ++ f :: missed) as [|f0 fs] eqn:Hall;
    [now destruct got|].
  rewrite <- Hall. apply run_bind_raise.
  rewrite (fetching_fails e rest); [|reflexivity].
  rewrite st_after_after. reflexivity.
Qed.

End FetchFails.

(** X22: When the File Catalog fails to give the record of one of the files
    found, the records after it are not asked for, the records fetched
    so far are dropped and no bundle is created.  The Picker quarantines
    the request and reports that no work was claimed; the Locator
    quarantines it and raises the exception again. *)
Theorem failed_fetch_abandons_the_request :
  forall (picker : Picker.Config) (locator : Locator.Config)
         (tr : TransferRequest) (pages : list (list FileEntry))
         (last got missed : list FileEntry) (f : FileEntry)
         (R : list CatalogRecord) (e : Exc) (rest : list Response) (s : State),
    Forall (fun page => len page = 9000) pages ->
    len last <> 9000 ->
    concat (pages ++ [last]) = got ++ f :: missed ->
    List.length R = List.length got ->
    pending s =
      RTransferRequest (Some tr) :: map RFiles (pages ++ [last])
        ++ map RRecord R ++ RFail e :: rest ->
    run (Picker._do_work_claim picker) s =
    (Ok false,
     st_after s (snd (next_answer rest)) (S (ticks s))
       (Called (picker_pop_call picker) (RTransferRequest (Some tr))
        :: (catalog_calls 9000
              (Picker.query_dict (tr_source tr) (tr_path tr)) (pages ++ [last])
            ++ fetch_calls (map fe_uuid got) (map RRecord R)
            ++ [Called (GET_file (fe_uuid f)) (RFail e)])
        ++ quarantine_events "TransferRequest" (tr_uuid tr) (exc_str e)
             (PATCH_transfer_request (tr_uuid tr)
                (quarantine_body "picker"
                   (instance_uuid (Picker.component picker))
                   (exc_str e) (clock s (ticks s))))
             (fst (next_answer rest)))) /\
    run (Locator._do_work_claim locator) s =
    (Raise e,
     st_after s (snd (next_answer rest)) (S (ticks s))
       (Called (locator_pop_call locator) (RTransferRequest (Some tr))
        :: (catalog_calls 9000
              (Locator.query_dict (tr_source tr) (tr_path tr)) (pages ++ [last])
            ++ fetch_calls (map fe_uuid got) (map RRecord R)
            ++ [Called (GET_file (fe_uuid f)) (RFail e)])
        ++ quarantine_events "TransferRequest" (tr_uuid tr) (exc_str e)
             (PATCH_transfer_request (tr_uuid tr)
                (quarantine_body "locator"
                   (instance_uuid (Locator.component locator))
                   (exc_str e) (clock s (ticks s))))
             (fst (next_answer rest)))).
Proof.
  intros picker locator tr pages last got missed f R e rest s
    Hfull Hlast Hfiles HR Hs.
  split.
  - erewrite (picker_claim_raised picker tr _ s Hs); cycle 1.
    { apply (picker_work_fetch_fails tr pages last got missed f R
               Hfull Hlast Hfiles HR);
        reflexivity. }
    rewrite !st_after_after. reflexivity.
  - erewrite (locator_claim_raised locator tr _ s Hs); cycle 1.
    { apply (locator_work_fetch_fails tr pages last got missed f R
               Hfull Hlast Hfiles HR);
        reflexivity. }
    rewrite !st_after_after. reflexivity.
Qed.

Lemma failed_fetch_abandons_the_request_witness :
  let r1 := Sample.record "f1" 600 [] in
  let s := Sample.start [RTransferRequest (Some Sample.tr);
                         RFiles [Sample.file "f1"; Sample.file "f2";
                                 Sample.file "f3"];
                         RRecord r1; RFail More.boom; RNone] in
  fst (run (Picker._do_work_claim (Sample.picker 25000)) s) = Ok false /\
  List.filter is_fetch
    (trace (snd (run (Picker._do_work_claim (Sample.picker 25000)) s))) =
  [ Called (GET_file "f1") (RRecord r1);
    Called (GET_file "f2") (RFail More.boom) ] /\
  fst (run (Locator._do_work_claim Sample.locator) s) = Raise More.boom.
Proof.
  intros r1 s.
  assert (Hlast : len [Sample.file "f1"; Sample.file "f2"; Sample.file "f3"]
                  <> 9000) by (vm_compute; discriminate).
  pose proof (failed_fetch_abandons_the_request (Sample.picker 25000)
                Sample.locator Sample.tr []
                [Sample.file "f1"; Sample.file "f2"; Sample.file "f3"]
                [Sample.file "f1"] [Sample.file "f3"] (Sample.file "f2")
                [r1] More.boom [RNone] s
                (List.Forall_nil _) Hlast eq_refl eq_refl eq_refl) as [Hp Hl].
  rewrite Hp, Hl. repeat split; reflexivity.
Defined.

(** ** One PATCH per request *)

Section PatchedOnce.

Lemma quiet_after_app (pre post : list Event) :
  Forall (fun ev => is_patch ev = false) pre ->
  quiet_after_patch (pre ++ post) = quiet_after_patch post.
Proof.
  induction 1 as [|ev pre Hev Hpre IH]; [reflexivity|].
  cbn [app quiet_after_patch]. now rewrite Hev.
Qed.

Lemma quiet_without_patch (evs : list Event) :
  Forall (fun ev => is_patch ev = false) evs -> quiet_after_patch evs = true.
Proof.
  intros H. rewrite <- (app_nil_r evs). now rewrite quiet_after_app.
Qed.

Lemma quiet_quarantine kind uuid cause u body r :
  quiet_after_patch
    (quarantine_events kind uuid cause (PATCH_transfer_request u body) r)
  = true.
Proof. destruct r; reflexivity. Qed.

Lemma patches_last_silent {A : Type} (c : M A) :
  emits (fun ev => is_patch ev = false) c -> patches_last c.
Proof.
  intros Hc s. destruct (Hc s) as (evs & Ht & Hevs). eauto.
Qed.

Lemma patches_last_bind {A B : Type} (c : M A) (k : A -> M B) :
  emits (fun ev => is_patch ev = false) c ->
  (forall a, patches_last (k a)) ->
  patches_last (bind c k).
Proof.
  intros Hc Hk s. destruct (Hc s) as (evs1 & Ht1 & H1).
  rewrite run_bind. destruct (run c s) as [[a|e|] s1]; cbn [fst snd] in *;
    [|now eauto|now eauto].
  destruct (Hk a s1) as (evs2 & Ht2 & H2).
  exists (evs1 ++ evs2). split; [now rewrite Ht2, Ht1, app_assoc|].
  destruct H2 as [H2|[Hok H2]].
  - left. now apply Forall_app.
  - right. split; [exact Hok|]. now rewrite quiet_after_app.
Qed.

Lemma picker_quarantine_patches_last (self : Picker.Config) tr cause :
  patches_last (Picker._quarantine_transfer_request self tr cause).
Proof.
  intros s. rewrite picker_quarantine_run. cbn [fst snd st_after trace].
  eexists. split; [reflexivity|]. right.
  split; [eauto|apply quiet_quarantine].
Qed.

Lemma locator_quarantine_patches_last (self : Locator.Config) tr cause :
  patches_last (Locator._quarantine_transfer_request self tr cause).
Proof.
  intros s. rewrite locator_quarantine_run. cbn [fst snd st_after trace].
  eexists. split; [reflexivity|]. right.
  split; [eauto|apply quiet_quarantine].
Qed.

(** The gate of the Picker: it records nothing and lets the lists pass,
    or it returns after a quarantine. *)
Lemma picker_gate_patches (self : Picker.Config) tr
    (bins : list (list (Z * CatalogRecord))) :
  forall s, exists evs,
    let gate :=
      for_return bins
        (fun spec =>
           if Picker.max_file_count self <? len spec then
             do! Picker._quarantine_transfer_request self tr
                   ("Bundle packing list contains " ++ str (len spec)
                    ++ " files; MAX_FILE_COUNT is configured at "
                    ++ str (Picker.max_file_count self))%string in
             ret (Some tt)
           else ret None) in
    trace (snd (run gate s)) = trace s ++ evs /\
    ((fst (run gate s) = Ok None /\ evs = []) \/
     (fst (run gate s) = Ok (Some tt) /\ quiet_after_patch evs = true)).
Proof.
  induction bins as [|bin bins IH]; intros s; cbv zeta in *.
  - exists []. split; [now rewrite app_nil_r|]. left. split; reflexivity.
  - cbn [for_return]. destruct (Picker.max_file_count self <? len bin).
    + erewrite run_bind_ok; cycle 1.
      { rewrite (run_bind_ok _ _ _ _ _ (picker_quarantine_run _ _ _ _)).
        reflexivity. }
      cbn [fst snd st_after trace]. eexists. split; [reflexivity|].
      right. split; [reflexivity|apply quiet_quarantine].
    + erewrite run_bind_ok by reflexivity. apply IH.
Qed.

Lemma picker_work_patches_last (self : Picker.Config) tr :
  patches_last (Picker._do_work_transfer_request self tr).
Proof.
  unfold Picker._do_work_transfer_request.
  apply patches_last_bind;
    [open_worker; repeat (through || reflexivity)|].
  intros [|f files]; [apply picker_quarantine_patches_last|].
  apply patches_last_bind;
    [open_worker; repeat (through || reflexivity)|]. intros catalog_records.
  apply patches_last_bind;
    [open_worker; repeat (through || reflexivity)|]. intros packing.
  apply patches_last_bind;
    [open_worker; repeat (through || reflexivity)|]. intros bundle_size.
  intros s. rewrite run_bind.
  destruct (picker_gate_patches self tr
              (Binpacking.to_constant_volume packing bundle_size) s)
    as (evs & Ht & Hevs).
  cbv zeta in Ht, Hevs.
  destruct (run (for_return _ _) s) as [[[[]|]|e|] s1]; cbn [fst snd] in *.
  - exists evs. split; [exact Ht|]. right.
    destruct Hevs as [[Hnone _]|[_ Hq]]; [discriminate|].
    split; [eexists; reflexivity|exact Hq].
  - destruct Hevs as [[_ ->]|[Hsome _]]; [|discriminate].
    assert (Hc : emits (fun ev => is_patch ev = false)
                   (for_each
                      (Binpacking.to_constant_volume packing bundle_size)
                      (fun spec =>
                         do! Picker._create_bundle self
                               (Picker.bundle_of tr spec) in
                         ret tt)))
      by (open_worker; repeat (through || reflexivity)).
    destruct (Hc s1) as (evs2 & Ht2 & H2).
    exists evs2. split; [|left; exact H2].
    rewrite Ht2, Ht. now rewrite app_nil_r.
  - destruct Hevs as [[Hnone _]|[Hsome _]]; discriminate.
  - destruct Hevs as [[Hnone _]|[Hsome _]]; discriminate.
Qed.

Lemma locator_work_patches_last (self : Locator.Config) tr :
  patches_last (Locator._do_work_transfer_request self tr).
Proof.
  unfold Locator._do_work_transfer_request.
  apply patches_last_bind;
    [open_worker; repeat (through || reflexivity)|].
  intros [|f files]; [apply locator_quarantine_patches_last|].
  apply patches_last_silent. open_worker. repeat (through || reflexivity).
Qed.

End PatchedOnce.

(** X23: Whatever the collaborators answer, one run of the claim handler of
    the Picker or of the Locator sends one PATCH at most, and the PATCH
    is the last request of the run: a TransferRequest is never
    quarantined twice, and it is never worked on after its quarantine. *)
Theorem a_request_is_patched_at_most_once :
  (forall (self : Picker.Config) (s : State),
      exists evs,
        trace (snd (run (Picker._do_work_claim self) s)) = trace s ++ evs /\
        quiet_after_patch evs = true) /\
  (forall (self : Locator.Config) (s : State),
      exists evs,
        trace (snd (run (Locator._do_work_claim self) s)) = trace s ++ evs /\
        quiet_after_patch evs = true).
Proof.
  split; intros self s.
  - unfold Picker._do_work_claim. rewrite run_bind, run_call.
    destruct (next_answer (pending s)) as [r rest]. cbn [fst snd].
    destruct r as [| |[tr|]| | | | | |e]; cbn [answered];
      try (eexists; split; [reflexivity|reflexivity]).
    erewrite (run_bind_ok (get_transfer_request _)) by reflexivity.
    cbv beta iota. rewrite run_try_except, run_bind.
    match goal with
    | |- context [run (Picker._do_work_transfer_request self tr) ?s1] =>
        destruct (picker_work_patches_last self tr s1)
          as (evs & Ht & Hevs);
        destruct (run (Picker._do_work_transfer_request self tr) s1)
          as [[[]|e|] s2]
    end; cbn [fst snd trace st_after] in *.
    + cbn [run ret snd].
      eexists. split; [rewrite Ht, <- app_assoc; reflexivity|].
      cbn [app quiet_after_patch is_patch].
      destruct Hevs as [H|[_ H]]; [now apply quiet_without_patch|exact H].
    + destruct Hevs as [H|[[a Ha] _]]; [|discriminate].
      rewrite (run_bind_ok _ _ _ _ _ (picker_quarantine_run _ _ _ _)).
      cbn [run ret snd trace st_after].
      eexists. split; [rewrite Ht, <- !app_assoc; reflexivity|].
      cbn [app quiet_after_patch is_patch].
      rewrite quiet_after_app by exact H. apply quiet_quarantine.
    + eexists. split; [rewrite Ht, <- app_assoc; reflexivity|].
      cbn [app quiet_after_patch is_patch].
      destruct Hevs as [H|[_ H]]; [now apply quiet_without_patch|exact H].
  - unfold Locator._do_work_claim. rewrite run_bind, run_call.
    destruct (next_answer (pending s)) as [r rest]. cbn [fst snd].
    destruct r as [| |[tr|]| | | | | |e]; cbn [answered];
      try (eexists; split; [reflexivity|reflexivity]).
    erewrite (run_bind_ok (get_transfer_request _)) by reflexivity.
    cbv beta iota. rewrite run_try_except, run_bind.
    match goal with
    | |- context [run (Locator._do_work_transfer_request self tr) ?s1] =>
        destruct (locator_work_patches_last self tr s1)
          as (evs & Ht & Hevs);
        destruct (run (Locator._do_work_transfer_request self tr) s1)
          as [[[]|e|] s2]
    end; cbn [fst snd trace st_after] in *.
    + cbn [run ret snd].
      eexists. split; [rewrite Ht, <- app_assoc; reflexivity|].
      cbn [app quiet_after_patch is_patch].
      destruct Hevs as [H|[_ H]]; [now apply quiet_without_patch|exact H].
    + destruct Hevs as [H|[[a Ha] _]]; [|discriminate].
      rewrite (run_bind_ok _ _ _ _ _ (locator_quarantine_run _ _ _ _)).
      cbn [run raise snd trace st_after].
      eexists. split; [rewrite Ht, <- !app_assoc; reflexivity|].
      cbn [app quiet_after_patch is_patch].
      rewrite quiet_after_app by exact H. apply quiet_quarantine.
    + eexists. split; [rewrite Ht, <- app_assoc; reflexivity|].
      cbn [app quiet_after_patch is_patch].
      destruct Hevs as [H|[_ H]]; [now apply quiet_without_patch|exact H].
Qed.
